(** * AI-scheduler: the scheduling and task-lifecycle engine

    A shallow embedding of the TypeScript services of the repository
    (the Gemini client, the scheduler service, the Google Calendar
    service and the notification service) together with the properties
    of their scheduling, conflict-detection, notification and
    completion logic.

    Layout: the JavaScript values the services compute with ([JS]), the
    reasoning client ([Gemini]), the scheduler ([Scheduler]), the
    calendar conflict detector ([Calendar]) and the notification
    service ([Notifier]); the theorems follow the definitions. *)

From stdpp Require Import gmap strings list pretty.
From Stdlib Require Import Ascii ZArith Lia Sorted.

Open Scope Z_scope.

#[local] Set Warnings "-register-all".

(** ** JavaScript values *)

Module JS.

(** A JavaScript number. The services count minutes, milliseconds and
    scores, so the finite numbers kept here are the integers; [NaN] is
    what arithmetic on anything else gives. *)
Inductive num :=
| NaN
| Num (z : Z).

(** Values of type [any]: sheet rows, JSON replies, action payloads. *)
Inductive value :=
| VUndefined
| VNull
| VBool (b : bool)
| VNumber (n : num)
| VString (s : string)
| VArray (items : list value)
| VObject (fields : list (string * value)).

(** Exceptions the services can raise. *)
Inductive exn :=
| TypeError
| RangeError
| SyntaxError
| Error (msg : string).

Inductive result (A : Type) :=
| Return (a : A)
| Throw (e : exn).
Arguments Return {A} a.
Arguments Throw {A} e.

#[global] Instance result_ret : MRet result := @Return.
#[global] Instance result_bind : MBind result := fun A B f r =>
  match r with
  | Return a => f a
  | Throw e => Throw e
  end.

(** [try { body } catch { handler }] *)
Definition try_catch {A} (body : result A) (handler : exn → result A) : result A :=
  match body with
  | Return a => Return a
  | Throw e => handler e
  end.

(** Truthiness, as [||], [&&], [?:] and [if] test it. *)
Definition truthy (v : value) : bool :=
  match v with
  | VUndefined | VNull => false
  | VBool b => b
  | VNumber NaN => false
  | VNumber (Num z) => negb (z =? 0)
  | VString s => negb (String.eqb s EmptyString)
  | VArray _ | VObject _ => true
  end.

(** [a || b] *)
Definition or_else (a b : value) : value := if truthy a then a else b.

(** Own-property lookup; the first binding of a key wins. *)
Fixpoint assoc (k : string) (fields : list (string * value)) : value :=
  match fields with
  | [] => VUndefined
  | (k', v) :: rest => if String.eqb k k' then v else assoc k rest
  end.

Definition string_of_ascii (c : ascii) : string := String c EmptyString.

(** [v.name] for a data property. Arrays and strings answer [length];
    prototype methods are functions and are modelled where they are
    called. *)
Definition get (v : value) (name : string) : result value :=
  match v with
  | VUndefined | VNull => Throw TypeError
  | VObject fields => Return (assoc name fields)
  | VArray items =>
      Return (if String.eqb name "length"
              then VNumber (Num (Z.of_nat (length items))) else VUndefined)
  | VString s =>
      Return (if String.eqb name "length"
              then VNumber (Num (Z.of_nat (String.length s))) else VUndefined)
  | VBool _ | VNumber _ => Return VUndefined
  end.

(** [v?.name] *)
Definition get_opt (v : value) (name : string) : value :=
  match get v name with
  | Return x => x
  | Throw _ => VUndefined
  end.

(** [v?.[i]] *)
Definition index_opt (v : value) (i : nat) : value :=
  match v with
  | VArray items => default VUndefined (items !! i)
  | VString s =>
      match String.get i s with
      | Some c => VString (string_of_ascii c)
      | None => VUndefined
      end
  | VObject fields => assoc (pretty i) fields
  | _ => VUndefined
  end.

(** *** Conversions *)

Definition join_with (sep : string) (parts : list string) : string :=
  match parts with
  | [] => EmptyString
  | p :: rest => fold_left (fun acc q => acc +:+ sep +:+ q) rest p
  end.

Definition num_to_string (n : num) : string :=
  match n with
  | NaN => "NaN"
  | Num z => pretty z
  end.

(** [String(v)]: arrays join their elements with a comma, printing
    [null] and [undefined] elements as the empty text. *)
Fixpoint ToString (v : value) : string :=
  match v with
  | VUndefined => "undefined"
  | VNull => "null"
  | VBool true => "true"
  | VBool false => "false"
  | VNumber n => num_to_string n
  | VString s => s
  | VArray items =>
      join_with ","
        (map (fun x => match x with
                       | VUndefined | VNull => EmptyString
                       | _ => ToString x
                       end) items)
  | VObject _ => "[object Object]"
  end.

Definition is_space (c : ascii) : bool :=
  let n := nat_of_ascii c in
  orb (Nat.eqb n 32) (orb (Nat.leb 9 n && Nat.leb n 13) (Nat.eqb n 160)).

Fixpoint trim_left (s : string) : string :=
  match s with
  | String c rest => if is_space c then trim_left rest else s
  | EmptyString => EmptyString
  end.

Definition digit_of (c : ascii) : option Z :=
  let n := nat_of_ascii c in
  if (Nat.leb 48 n && Nat.leb n 57)%bool then Some (Z.of_nat (n - 48)) else None.

(** Decimal digits, then nothing but white space. *)
Fixpoint digits_from (acc : Z) (seen : bool) (s : string) : option Z :=
  match s with
  | EmptyString => if seen then Some acc else None
  | String c rest =>
      match digit_of c with
      | Some d => digits_from (acc * 10 + d) true rest
      | None =>
          if seen && String.eqb (trim_left s) EmptyString then Some acc else None
      end
  end.

(** [Number(text)] on the integer literals: white space around an
    optionally signed run of decimal digits; the empty text is 0. Text
    with a fraction, an exponent, a radix prefix or [Infinity] names a
    number outside [num] and is not used by the services' own data: it
    reads as [NaN] here. *)
Definition StringToNumber (s : string) : num :=
  match trim_left s with
  | EmptyString => Num 0
  | String "-" rest =>
      match digits_from 0 false rest with
      | Some z => Num (- z)
      | None => NaN
      end
  | String "+" rest =>
      match digits_from 0 false rest with
      | Some z => Num z
      | None => NaN
      end
  | t =>
      match digits_from 0 false t with
      | Some z => Num z
      | None => NaN
      end
  end.

(** [Number(v)] *)
Definition ToNumber (v : value) : num :=
  match v with
  | VUndefined => NaN
  | VNull => Num 0
  | VBool b => Num (if b then 1 else 0)
  | VNumber n => n
  | VString s => StringToNumber s
  | VArray _ => StringToNumber (ToString v)
  | VObject _ => NaN
  end.

Definition num_add (a b : num) : num :=
  match a, b with
  | Num x, Num y => Num (x + y)
  | _, _ => NaN
  end.

Definition num_sub (a b : num) : num :=
  match a, b with
  | Num x, Num y => Num (x - y)
  | _, _ => NaN
  end.

Definition num_mul (a b : num) : num :=
  match a, b with
  | Num x, Num y => Num (x * y)
  | _, _ => NaN
  end.

(** [a + b]: text concatenation as soon as one side is text (arrays and
    objects convert to text first), numeric addition otherwise. *)
Definition js_add (a b : value) : value :=
  match a, b with
  | (VString _ | VArray _ | VObject _), _
  | _, (VString _ | VArray _ | VObject _) => VString (ToString a +:+ ToString b)
  | _, _ => VNumber (num_add (ToNumber a) (ToNumber b))
  end.

Fixpoint string_ltb (a b : string) : bool :=
  match a, b with
  | _, EmptyString => false
  | EmptyString, String _ _ => true
  | String x a', String y b' =>
      let nx := nat_of_ascii x in
      let ny := nat_of_ascii y in
      if Nat.ltb nx ny then true
      else if Nat.ltb ny nx then false
      else string_ltb a' b'
  end.

Definition num_ltb (a b : num) : bool :=
  match a, b with
  | Num x, Num y => x <? y
  | _, _ => false
  end.

(** [a < b]: two texts compare by code units, anything else as numbers;
    a comparison with [NaN] is false. *)
Definition js_lt (a b : value) : bool :=
  match a, b with
  | VString x, VString y => string_ltb x y
  | _, _ => num_ltb (ToNumber a) (ToNumber b)
  end.

(** [a > b] *)
Definition js_gt (a b : value) : bool := js_lt b a.

(** [s.split(',')] as a method call: text splits, an array or object
    has no such method and the call raises [TypeError]. *)
Fixpoint split_on (sep : ascii) (cur : string) (s : string) : list string :=
  match s with
  | EmptyString => [cur]
  | String c rest =>
      if Ascii.eqb c sep then cur :: split_on sep EmptyString rest
      else split_on sep (cur +:+ string_of_ascii c) rest
  end.

Definition call_split (v : value) (sep : ascii) : result value :=
  match v with
  | VString s => Return (VArray (map VString (split_on sep EmptyString s)))
  | _ => Throw TypeError
  end.

(** *** Dates

    A [Date] object is its time value: milliseconds since the epoch, or
    [None] for Invalid Date. *)
Definition Date := option Z.

(** The time values a Date can hold: 100,000,000 days either side of
    the epoch. *)
Definition max_time : Z := 8640000000000000.

Definition within_range (t : Z) : Prop := - max_time ≤ t ≤ max_time.

(** [new Date(t)] for a number of milliseconds: a time value outside
    the range gives Invalid Date. *)
Definition TimeClip (t : Z) : Date :=
  if (- max_time <=? t) && (t <=? max_time) then Some t else None.

(** A wall-clock text [HH:mm], as minutes after midnight; [24:00] is
    the end of the day. *)
Definition parse_hhmm (s : string) : option Z :=
  match s with
  | String h1 (String h2 (String ":" (String m1 (String m2 EmptyString)))) =>
      match digit_of h1, digit_of h2, digit_of m1, digit_of m2 with
      | Some a, Some b, Some c, Some d =>
          let h := a * 10 + b in
          let m := c * 10 + d in
          if ((h <=? 23) && (m <=? 59)) || ((h =? 24) && (m =? 0))
          then Some (h * 60 + m) else None
      | _, _, _, _ => None
      end
  | _ => None
  end.

(** The clock of the template [`T${clock}:00+05:30`], as minutes after
    midnight: the text is a time of the form [HH:mm:ss] when the clock
    is [HH:mm], and of the form [HH:mm] when the clock is the hour
    [HH] alone. *)
Definition parse_stamp_clock (s : string) : option Z :=
  match s with
  | String h1 (String h2 EmptyString) =>
      match digit_of h1, digit_of h2 with
      | Some a, Some b =>
          let h := a * 10 + b in
          if h <=? 24 then Some (h * 60) else None
      | _, _ => None
      end
  | _ => parse_hhmm s
  end.

(** Text in a date-time field. The services build such text in three
    ways, and the text is kept by the way it was built:
    - [Raw v]: a row value or a literal stored as it is (['09:00'],
      ['']), taken to be text that the Date constructor does not read
      as an instant;
    - [Stamp day clock]: the template [`${today}T${clock}:00+05:30`],
      where [day] is the instant of 00:00 UTC of [today];
    - [ISO ms]: [toISOString()] of the instant [ms], an instant the
      Date range holds since it was printed. *)
Inductive timetext :=
| Raw (v : value)
| Stamp (day : Z) (clock : value)
| ISO (ms : Z).

(** [new Date(text)] *)
Definition Date_of (t : timetext) : Date :=
  match t with
  | Raw _ => None
  | Stamp day clock =>
      match parse_stamp_clock (ToString clock) with
      | Some m => TimeClip (day + (m - 330) * 60000)
      | None => None
      end
  | ISO ms => Some ms
  end.

(** [d.toISOString()]: Invalid Date raises [RangeError]. *)
Definition toISOString (d : Date) : result timetext :=
  match d with
  | Some ms => Return (ISO ms)
  | None => Throw RangeError
  end.

(** A calendar-day text [YYYY-MM-DD]: [Day t] names the day whose 00:00
    local time is the instant [t]; [NoDay s] is text the Date
    constructor does not read. *)
Inductive daytext :=
| Day (midnight : Z)
| NoDay (s : string).

(** [new Date(`${date}T${clock}`)], local time, for a clock of the
    form [HH:mm], the form the sheets and the preferences use. The
    Date constructor also reads a clock with seconds or a zone; such
    clocks are outside [Date_at], which answers Invalid Date for
    them, and the properties that rest on it take a readable
    [Date_at] as their hypothesis. *)
Definition Date_at (date : daytext) (clock : string) : Date :=
  match date, parse_hhmm clock with
  | Day t, Some m => TimeClip (t + m * 60000)
  | _, _ => None
  end.

(** 00:00 UTC of the day on which the instant [now] falls: the day that
    [new Date().toISOString().split('T')[0]] prints. *)
Definition utc_day (now : Z) : Z := now / 86400000 * 86400000.

End JS.

(** ** The reasoning client (GeminiAIService) *)

Module Gemini.
Import JS.

(** What the HTTP exchange with the reasoning service comes to:
    [fetch] rejects, or a response arrives with its [ok] flag and the
    value [response.json()] resolves to ([None] when it rejects). *)
Inductive transport :=
| Unreachable
| Response (ok : bool) (body : option value).

Definition apology_unreachable : string :=
  "I'm having trouble connecting to the AI service. Please try again later.".

Definition apology_no_text : string :=
  "I'm sorry, I couldn't process your request.".

(** [makeRequest]: the text of the first candidate, or one of the two
    apologies; it never rejects. *)
Definition makeRequest (http : transport) : value :=
  match http with
  | Response true (Some data) =>
      match get data "candidates" with
      | Return cs =>
          let text :=
            get_opt (index_opt (get_opt (get_opt (index_opt cs 0) "content") "parts") 0)
                    "text" in
          or_else text (VString apology_no_text)
      | Throw _ => VString apology_unreachable
      end
  | _ => VString apology_unreachable
  end.

(** What [generateSchedule] answers with when it cannot read the reply:
    one candidate with no tasks. *)
Definition canned_candidate : value :=
  VObject
    [("id", VString "fallback");
     ("schedule",
      VObject
        [("tasks", VArray []);
         ("explainability", VString "AI service unavailable, using fallback")]);
     ("score", VNumber (Num 0));
     ("explanation", VString "Fallback schedule generated due to AI service error");
     ("conflicts", VArray [])].

Definition canned_fallback : value :=
  VObject [("candidates", VArray [canned_candidate])].

(** [generateSchedule]: [JSON.parse] of the reply text, and the canned
    candidate when the text does not parse. [JSON_parse] is the host's
    parser: [None] stands for its [SyntaxError]. *)
Definition generateSchedule (JSON_parse : string → option value)
    (http : transport) : value :=
  match JSON_parse (ToString (makeRequest http)) with
  | Some reply => reply
  | None => canned_fallback
  end.

(** JSON text starts, after white space, with a brace, a bracket, a
    double quote, a minus sign, a digit or the first letter of [true],
    [false] or [null]. *)
Definition json_space (c : ascii) : bool :=
  let n := nat_of_ascii c in
  (Nat.eqb n 32 || Nat.eqb n 9 || Nat.eqb n 10 || Nat.eqb n 13)%bool.

Fixpoint json_can_start (s : string) : bool :=
  match s with
  | EmptyString => false
  | String c rest =>
      if json_space c then json_can_start rest
      else
        let n := nat_of_ascii c in
        (Nat.eqb n 123 || Nat.eqb n 91 || Nat.eqb n 34 || Nat.eqb n 45
         || (Nat.leb 48 n && Nat.leb n 57)
         || Nat.eqb n 116 || Nat.eqb n 102 || Nat.eqb n 110)%bool
  end.



End Gemini.

(** ** The scheduler service (SchedulerService) *)

Module Scheduler.
Import JS.

Inductive TaskType := Fixed | Flexible | Incomplete | Recurring.
Inductive Source := Sheet | User | Agent.
Inductive ReschedulePolicy := Push | Split | Drop.

Record Metadata := {
  estimated_effort : value;
  progress_percent : value
}.

(** [Task]. The normaliser fills the fields from rows of type [any], so
    the fields it copies hold whatever value the row had. *)
Record Task := {
  task_id : string;
  name : value;
  type : TaskType;
  start : timetext;
  duration_minutes : value;
  end_ : timetext;
  priority_score : value;
  targets : value;
  fixed : bool;
  notes : value;
  source : Source;
  reschedule_policy : ReschedulePolicy;
  metadata : Metadata
}.

Record SchedulePayload := {
  user_id : string;
  date : daytext;
  timezone : string;
  tasks : list Task;
  generated_at : timetext;
  agent_version : string;
  explainability : string
}.

Record ScheduleCandidate := {
  id : string;
  schedule : SchedulePayload;
  score : Z;
  explanation : string;
  conflicts : list string
}.

Record TimeWindow := {
  window_start : string;
  window_end : string
}.

Record UserPreferences := {
  sleep_window : TimeWindow;
  work_hours : TimeWindow;
  break_duration : Z;
  commute_buffer : Z;
  preferred_task_duration : Z;
  max_consecutive_work : Z
}.

Definition default_preferences : UserPreferences := {|
  sleep_window := {| window_start := "22:00"; window_end := "07:00" |};
  work_hours := {| window_start := "09:00"; window_end := "18:00" |};
  break_duration := 15;
  commute_buffer := 30;
  preferred_task_duration := 90;
  max_consecutive_work := 180
|}.

(** [convertToISO]: [`${today}T${timeString}:00+05:30`]. *)
Definition convertToISO (now : Z) (timeString : value) : timetext :=
  Stamp (utc_day now) timeString.

(** 00:00 on 2000-01-01; [calculateDuration] only takes differences
    within that day, so the zone it is read in plays no part. *)
Definition y2k : daytext := Day 946684800000.

(** [calculateDuration]: minutes from [startTime] to [endTime]. *)
Definition calculateDuration (startTime endTime : value) : num :=
  match Date_at y2k (ToString startTime), Date_at y2k (ToString endTime) with
  | Some s, Some e => Num ((e - s) / (1000 * 60))
  | _, _ => NaN
  end.

(** One pass of [rows.forEach((row, index) => ...)] whose body pushes at
    most one task; a body that throws aborts the pass. *)
Fixpoint collect {A B} (body : nat → A → result (option B)) (index : nat)
    (rows : list A) : result (list B) :=
  match rows with
  | [] => Return []
  | row :: rest =>
      pushed ← body index row;
      more ← collect body (S index) rest;
      Return (match pushed with
              | Some t => t :: more
              | None => more
              end)
  end.

(** Course rows: fixed tasks. *)
Definition normalizeCourse (now : Z) (index : nat) (course : value)
    : result (option Task) :=
  day_of_week ← get course "day_of_week";
  start_time ← get course "start_time";
  end_time ← get course "end_time";
  event_name ← get course "event_name";
  if truthy day_of_week && truthy start_time && truthy end_time then
    Return (Some {|
      task_id := "course_" +:+ pretty index;
      name := or_else event_name (VString "Class");
      type := Fixed;
      start := convertToISO now start_time;
      duration_minutes := VNumber (calculateDuration start_time end_time);
      end_ := convertToISO now end_time;
      priority_score := VNumber (Num 100);
      targets := VArray [VString "attend_class"];
      fixed := true;
      notes := VUndefined;
      source := Sheet;
      reschedule_policy := Drop;
      metadata := {| estimated_effort := VNumber (Num 100);
                     progress_percent := VNumber (Num 0) |}
    |})
  else Return None.

(** Priority rows: flexible tasks. *)
Definition normalizePriority (index : nat) (task : value) : result (option Task) :=
  task_name ← get task "name";
  preferred_time ← get task "preferred_time";
  duration ← get task "duration";
  priority ← get task "priority";
  row_targets ← get task "targets";
  difficulty ← get task "difficulty";
  split_targets ←
    (if truthy row_targets then call_split row_targets ","
     else Return (VArray [VString "productivity"]));
  Return (Some {|
    task_id := "priority_" +:+ pretty index;
    name := or_else task_name (VString "Priority Task");
    type := Flexible;
    start := Raw (or_else preferred_time (VString "09:00"));
    duration_minutes := or_else duration (VNumber (Num 60));
    end_ := Raw (VString EmptyString);
    priority_score := or_else priority (VNumber (Num 75));
    targets := split_targets;
    fixed := false;
    notes := VUndefined;
    source := Sheet;
    reschedule_policy := Push;
    metadata := {| estimated_effort := or_else difficulty (VNumber (Num 50));
                   progress_percent := VNumber (Num 0) |}
  |}).

(** Incomplete rows: carried-over tasks. *)
Definition normalizeIncomplete (index : nat) (task : value) : result (option Task) :=
  task_name ← get task "name";
  remaining_duration ← get task "remaining_duration";
  priority ← get task "priority";
  difficulty ← get task "difficulty";
  progress ← get task "progress";
  Return (Some {|
    task_id := "incomplete_" +:+ pretty index;
    name := or_else task_name (VString "Incomplete Task");
    type := Incomplete;
    start := Raw (VString "10:00");
    duration_minutes := or_else remaining_duration (VNumber (Num 30));
    end_ := Raw (VString EmptyString);
    priority_score := js_add priority (VNumber (Num 10));
    targets := VArray [VString "completion"];
    fixed := false;
    notes := VUndefined;
    source := Sheet;
    reschedule_policy := Split;
    metadata := {| estimated_effort := or_else difficulty (VNumber (Num 30));
                   progress_percent := or_else progress (VNumber (Num 0)) |}
  |}).

(** [normalizeTasks] *)
Definition normalizeTasks (now : Z)
    (courseSchedule priorityTasks incompleteTasks : list value)
    : result (list Task) :=
  courses ← collect (normalizeCourse now) 0%nat courseSchedule;
  priorities ← collect normalizePriority 0%nat priorityTasks;
  incompletes ← collect normalizeIncomplete 0%nat incompleteTasks;
  Return (courses ++ priorities ++ incompletes).

(** *** The fallback packer *)

(** The comparator of the sort: [b.priority_score - a.priority_score]. *)
Definition by_priority (a b : Task) : num :=
  num_sub (ToNumber (priority_score b)) (ToNumber (priority_score a)).

Definition is_positive (n : num) : bool :=
  match n with
  | Num z => 0 <? z
  | NaN => false
  end.

(** [Array.prototype.sort] is stable: [x] moves behind exactly the
    elements the comparator puts strictly before it. A comparator
    result of [NaN] counts as 0. *)
Fixpoint insert_sorted (compare : Task → Task → num) (x : Task) (sorted : list Task)
    : list Task :=
  match sorted with
  | [] => [x]
  | y :: rest =>
      if is_positive (compare x y) then y :: insert_sorted compare x rest
      else x :: sorted
  end.

Definition sort (compare : Task → Task → num) (l : list Task) : list Task :=
  foldr (insert_sorted compare) [] l.

(** [new Date(d.getTime() + n)] *)
Definition date_plus (d : Date) (n : num) : Date :=
  match d, n with
  | Some t, Num k => TimeClip (t + k)
  | _, _ => None
  end.

(** [{...task, start, end}] *)
Definition with_times (task : Task) (new_start new_end : timetext) : Task := {|
  task_id := task_id task;
  name := name task;
  type := type task;
  start := new_start;
  duration_minutes := duration_minutes task;
  end_ := new_end;
  priority_score := priority_score task;
  targets := targets task;
  fixed := fixed task;
  notes := notes task;
  source := source task;
  reschedule_policy := reschedule_policy task;
  metadata := metadata task
|}.

(** The [map] over the sorted tasks, threading [currentTime]. *)
Fixpoint allocate (break_minutes : Z) (currentTime : Date) (sortedTasks : list Task)
    : result (list Task) :=
  match sortedTasks with
  | [] => Return []
  | task :: rest =>
      let start_date := currentTime in
      let end_date :=
        date_plus start_date (num_mul (ToNumber (duration_minutes task)) (Num 60000)) in
      let next_time := date_plus end_date (Num (break_minutes * 60000)) in
      start_text ← toISOString start_date;
      end_text ← toISOString end_date;
      placed ← allocate break_minutes next_time rest;
      Return (with_times task start_text end_text :: placed)
  end.

(** [generateFallbackSchedule] *)
Definition generateFallbackSchedule (prefs : UserPreferences) (now : Z)
    (tasks : list Task) (date : daytext) (userId : string)
    : result (list ScheduleCandidate) :=
  let sortedTasks := sort by_priority tasks in
  let currentTime := Date_at date (window_start (work_hours prefs)) in
  scheduledTasks ← allocate (break_duration prefs) currentTime sortedTasks;
  Return [{|
    id := "fallback_1";
    schedule := {|
      user_id := userId;
      date := date;
      timezone := "Asia/Kolkata";
      tasks := scheduledTasks;
      generated_at := ISO now;
      agent_version := "1.0.0";
      explainability := "Fallback schedule: tasks sorted by priority"
    |};
    score := 60;
    explanation := "Basic priority-based scheduling (AI unavailable)";
    conflicts := []
  |}].

(** What [generateScheduleCandidates] resolves to: the value found in
    the reasoning client's reply, passed on as it is, or the candidates
    the fallback packer built. *)
Inductive candidates :=
| Reply (v : value)
| Built (l : list ScheduleCandidate).

(** [generateScheduleCandidates]. The prompt is text sent to the
    reasoning service; what comes back is [http]. *)
Definition generateScheduleCandidates (JSON_parse : string → option value)
    (prefs : UserPreferences) (now : Z) (tasks : list Task)
    (existingEvents : list value) (date : daytext) (userId : string)
    (http : Gemini.transport) : result candidates :=
  try_catch
    (let response := Gemini.generateSchedule JSON_parse http in
     found ← get response "candidates";
     Return (Reply (or_else found (VArray []))))
    (fun _ =>
       built ← generateFallbackSchedule prefs now tasks date userId;
       Return (Built built)).

(** [generateDailySchedule], given what the three sheet reads and the
    calendar read resolved to. *)
Definition generateDailySchedule (JSON_parse : string → option value)
    (prefs : UserPreferences) (now : Z)
    (courseSchedule priorityTasks incompleteTasks existingEvents : list value)
    (date : daytext) (userId : string) (http : Gemini.transport)
    : result candidates :=
  try_catch
    (allTasks ← normalizeTasks now courseSchedule priorityTasks incompleteTasks;
     generateScheduleCandidates JSON_parse prefs now allTasks existingEvents
       date userId http)
    (fun _ => Throw (Error "Failed to generate schedule")).


(** *** Terms of the properties *)

(** The duration converts to a number of minutes that is not negative. *)
Definition numeric_duration (t : Task) : Prop :=
  ∃ d, ToNumber (duration_minutes t) = Num d ∧ 0 ≤ d.

(** Tasks placed one after the other, none starting before [from]. *)
Inductive laid_out : Z → list Task → Prop :=
| laid_out_nil from :
    laid_out from []
| laid_out_cons from s e t rest :
    start t = ISO s → end_ t = ISO e → from ≤ s → s ≤ e →
    laid_out e rest →
    laid_out from (t :: rest).

End Scheduler.

(** ** The calendar service (GoogleCalendarService): conflict detection *)

Module Calendar.
Import JS.



(** [TaskScheduleItem] has the fields of the scheduler's [Task]. *)
Definition TaskScheduleItem := Scheduler.Task.

(** The calendar service's own [ScheduleCandidate]: a day's plan with
    its tasks at top level. *)
Record ScheduleCandidate := {
  user_id : string;
  date : daytext;
  timezone : string;
  tasks : list TaskScheduleItem;
  generated_at : timetext;
  agent_version : string;
  explainability : string;
  priority_score : Z
}.

(** [a_start < b_end && a_end > b_start] on Date objects; a comparison
    with Invalid Date is false. *)
Definition overlaps (a_start a_end b_start b_end : Date) : bool :=
  match a_start, b_end, a_end, b_start with
  | Some sa, Some eb, Some ea, Some sb => (sa <? eb) && (ea >? sb)
  | _, _, _, _ => false
  end.


Definition quote : string := String (ascii_of_nat 34) EmptyString.




(** *** Terms of the properties *)



End Calendar.

(** ** The notification service (NotificationService) *)

Module Notifier.
Import JS.

Inductive NotificationType := task_start | task_end | reminder | schedule_update | system.
Inductive ActionType := snooze | complete | reschedule | cancel.

Record NotificationAction := {
  action_id : string;
  label : string;
  action_type : ActionType;
  payload : value
}.

Record NotificationConfig := {
  id : string;
  type : NotificationType;
  title : string;
  message : string;
  taskId : option string;
  scheduledTime : timetext;
  delivered : bool;
  actions : option (list NotificationAction)
}.

(** [TaskCompletionData]; an absent optional field is [None] for the
    two numbers and [undefined] for the two texts. *)
Record TaskCompletionData := {
  completion_taskId : string;
  completion_status : value;
  actualDuration : option Z;
  remainingMinutes : option Z;
  notes : value;
  reason : value
}.

(** The record [moveToIncompleteSheet] builds; [sourceDate] is the UTC
    day of the clock, kept as the instant of its 00:00. *)
Record IncompleteTask := {
  incomplete_id : string;
  incomplete_name : string;
  originalDuration : Z;
  remainingDuration : Z;
  priority : string;
  sourceDate : Z;
  progress : Z;
  incomplete_notes : value
}.

Record CompletionLog := {
  log_taskId : string;
  completedAt : timetext;
  log_actualDuration : option Z;
  log_notes : value
}.

(** The host's timers: what a pending [setTimeout] will run, and when.
    [due] is the clock reading at which the delay has elapsed. *)
Inductive timer_callback :=
| DeliverLater (notificationId : string)
| CloseBrowserNotification (tag : string).

Record Timeout := {
  handle : positive;
  callback : timer_callback;
  due : Z
}.

(** What the service does to the world outside its own fields; the
    last one is an exception that leaves a timer task uncaught. *)
Inductive effect :=
| Called (subscriber : nat) (notification : NotificationConfig)
| BrowserNotification (notification : NotificationConfig)
| Dispatched (notification : NotificationConfig)
| IncompleteTaskCreated (task : IncompleteTask)
| Uncaught (e : exn).

(** The service's three private fields, followed by the part of the
    host it acts on: the pending timeouts and the next timer handle
    (handles are never 0, so a stored handle is truthy), whether browser
    notifications are supported and granted, the completion logs in
    local storage, and the effects so far. A subscriber is known by the
    identity of its callback. *)
Record Service := {
  notifications : gmap string NotificationConfig;
  timers : gmap string positive;
  subscribers : list nat;
  pending : list Timeout;
  next_handle : positive;
  permission_granted : bool;
  completion_logs : list CompletionLog;
  trace : list effect
}.

Definition initial : Service := {|
  notifications := ∅;
  timers := ∅;
  subscribers := [];
  pending := [];
  next_handle := 1%positive;
  permission_granted := false;
  completion_logs := [];
  trace := []
|}.

Definition set_notifications (m : gmap string NotificationConfig) (s : Service) : Service := {|
  notifications := m;
  timers := timers s;
  subscribers := subscribers s;
  pending := pending s;
  next_handle := next_handle s;
  permission_granted := permission_granted s;
  completion_logs := completion_logs s;
  trace := trace s
|}.

Definition set_timers (m : gmap string positive) (s : Service) : Service := {|
  notifications := notifications s;
  timers := m;
  subscribers := subscribers s;
  pending := pending s;
  next_handle := next_handle s;
  permission_granted := permission_granted s;
  completion_logs := completion_logs s;
  trace := trace s
|}.

Definition set_subscribers (l : list nat) (s : Service) : Service := {|
  notifications := notifications s;
  timers := timers s;
  subscribers := l;
  pending := pending s;
  next_handle := next_handle s;
  permission_granted := permission_granted s;
  completion_logs := completion_logs s;
  trace := trace s
|}.

Definition set_pending (l : list Timeout) (s : Service) : Service := {|
  notifications := notifications s;
  timers := timers s;
  subscribers := subscribers s;
  pending := l;
  next_handle := next_handle s;
  permission_granted := permission_granted s;
  completion_logs := completion_logs s;
  trace := trace s
|}.

Definition set_next_handle (h : positive) (s : Service) : Service := {|
  notifications := notifications s;
  timers := timers s;
  subscribers := subscribers s;
  pending := pending s;
  next_handle := h;
  permission_granted := permission_granted s;
  completion_logs := completion_logs s;
  trace := trace s
|}.

Definition set_completion_logs (l : list CompletionLog) (s : Service) : Service := {|
  notifications := notifications s;
  timers := timers s;
  subscribers := subscribers s;
  pending := pending s;
  next_handle := next_handle s;
  permission_granted := permission_granted s;
  completion_logs := l;
  trace := trace s
|}.

Definition set_trace (l : list effect) (s : Service) : Service := {|
  notifications := notifications s;
  timers := timers s;
  subscribers := subscribers s;
  pending := pending s;
  next_handle := next_handle s;
  permission_granted := permission_granted s;
  completion_logs := completion_logs s;
  trace := l
|}.

Definition emit (e : list effect) (s : Service) : Service :=
  set_trace (trace s ++ e) s.

(** How a call of the service ends: normally, or by an exception; the
    service is left as the statements that ran have made it. *)
Inductive outcome :=
| Done (s : Service)
| Raised (e : exn) (s : Service).

Definition state_of (o : outcome) : Service :=
  match o with
  | Done s => s
  | Raised _ s => s
  end.

(** [setTimeout(callback, delay)] at clock [now]; answers the handle. *)
Definition setTimeout (run : timer_callback) (delay now : Z) (s : Service)
    : positive * Service :=
  let h := next_handle s in
  (h, set_next_handle (Pos.succ h)
        (set_pending (pending s ++ [{| handle := h; callback := run; due := now + delay |}]) s)).

(** [clearTimeout(handle)] *)
Definition clearTimeout (h : positive) (s : Service) : Service :=
  set_pending (List.filter (fun t => negb (Pos.eqb (handle t) h)) (pending s)) s.

(** With a new value for [delivered]. *)
Definition with_delivered (flag : bool) (n : NotificationConfig) : NotificationConfig := {|
  id := id n;
  type := type n;
  title := title n;
  message := message n;
  taskId := taskId n;
  scheduledTime := scheduledTime n;
  delivered := flag;
  actions := actions n
|}.

(** With a new value for [scheduledTime]. *)
Definition with_scheduledTime (t : timetext) (n : NotificationConfig) : NotificationConfig := {|
  id := id n;
  type := type n;
  title := title n;
  message := message n;
  taskId := taskId n;
  scheduledTime := t;
  delivered := delivered n;
  actions := actions n
|}.

(** *** Subscriptions *)

(** [subscribe]: pushes the callback. *)
Definition subscribe (cb : nat) (s : Service) : Service :=
  set_subscribers (subscribers s ++ [cb]) s.

(** [array.indexOf(cb)] *)
Fixpoint indexOf (cb : nat) (l : list nat) : option nat :=
  match l with
  | [] => None
  | x :: rest => if Nat.eqb x cb then Some 0%nat else S <$> indexOf cb rest
  end.

(** The closure [subscribe] returns, on the subscriber list. *)
Definition unsubscribe (cb : nat) (subs : list nat) : list nat :=
  match indexOf cb subs with
  | Some index => delete index subs
  | None => subs
  end.

(** What the subscribers' callbacks do when they are called. A callback
    is known by its identity; called with a notification it does to the
    service whatever it does (it may subscribe and unsubscribe, call
    the service again, or do nothing to it) and returns or throws. The
    notification it receives is the one the delivery passes on.
    [subscribe] and [unsubscribe] change the subscriber array in place,
    so that a broadcast under way sees the change; [cleanup] installs
    a new array, and a broadcast under way when a callback calls it
    would go on over the old one: the properties of broadcasts are
    stated for callbacks that do not. *)
Definition Callbacks := nat → NotificationConfig → Service → outcome.

Section Broadcast.

Variable react : Callbacks.

(** [subscribers.forEach(callback => callback(notification))]: the
    length is read once; each index below it is visited in turn and the
    callback found there at that moment, if any, is called. A callback
    that throws ends the loop. *)
Fixpoint forEach_from (notification : NotificationConfig) (remaining k : nat)
    (s : Service) : outcome :=
  match remaining with
  | O => Done s
  | S remaining' =>
      match subscribers s !! k with
      | Some cb =>
          match react cb notification (emit [Called cb notification] s) with
          | Done s => forEach_from notification remaining' (S k) s
          | Raised e s => Raised e s
          end
      | None => forEach_from notification remaining' (S k) s
      end
  end.

(** [notifySubscribers] *)
Definition notifySubscribers (notification : NotificationConfig) (s : Service)
    : outcome :=
  forEach_from notification (length (subscribers s)) 0 s.

(** [showCustomNotification] *)
Definition showCustomNotification (notification : NotificationConfig) (s : Service)
    : Service :=
  emit [Dispatched notification] s.

(** [deliverNotification] at clock [now]. *)
Definition deliverNotification (now : Z) (notificationId : string) (s : Service)
    : outcome :=
  match notifications s !! notificationId with
  | None => Done s
  | Some notification =>
      if delivered notification then Done s
      else
        let notification := with_delivered true notification in
        let s := set_notifications (<[notificationId := notification]> (notifications s)) s in
        match notifySubscribers notification s with
        | Raised e s => Raised e s
        | Done s =>
            let s :=
              if permission_granted s then
                snd (setTimeout (CloseBrowserNotification (id notification)) 10000 now
                       (emit [BrowserNotification notification] s))
              else s in
            Done (showCustomNotification notification s)
        end
  end.

(** The timer task [() => this.deliverNotification(notificationId)]:
    an exception of the delivery leaves it uncaught. *)
Definition deliver_task (now : Z) (notificationId : string) (s : Service) : Service :=
  match deliverNotification now notificationId s with
  | Done s => s
  | Raised e s => emit [Uncaught e] s
  end.

End Broadcast.

(** *** Arming *)

Definition quote_name (text : string) : string :=
  Calendar.quote +:+ text +:+ Calendar.quote.

(** The instant [ms] milliseconds away from a date. *)
Definition shifted (d : Date) (ms : Z) : Date :=
  match d with
  | Some t => TimeClip (t + ms)
  | None => None
  end.

Definition start_actions : list NotificationAction :=
  [{| action_id := "snooze"; label := "Snooze 5min"; action_type := snooze;
      payload := VObject [("minutes", VNumber (Num 5))] |};
   {| action_id := "start"; label := "Start Now"; action_type := complete;
      payload := VObject [("action", VString "start")] |}].

Definition end_actions : list NotificationAction :=
  [{| action_id := "completed"; label := "Completed"; action_type := complete;
      payload := VObject [("status", VString "completed")] |};
   {| action_id := "partial"; label := "Partial"; action_type := complete;
      payload := VObject [("status", VString "partially_completed")] |};
   {| action_id := "not_completed"; label := "Not Done"; action_type := complete;
      payload := VObject [("status", VString "not_completed")] |}].

(** The statements the two scheduling methods share: the notification
    is registered, a timeout for [at_time] is set and its handle is
    recorded. *)
Definition arm (notification : NotificationConfig) (at_time now : Z) (s : Service)
    : Service :=
  let s := set_notifications (<[id notification := notification]> (notifications s)) s in
  let timeUntilNotification := Z.max 0 (at_time - now) in
  let '(timer, s) := setTimeout (DeliverLater (id notification)) timeUntilNotification now s in
  set_timers (<[id notification := timer]> (timers s)) s.

(** [scheduleTaskStartNotification] *)
Definition scheduleTaskStartNotification (task taskName : string) (startTime : timetext)
    (now : Z) (s : Service) : outcome :=
  let notificationId := "start_" +:+ task in
  let reminderTime := shifted (Date_of startTime) (- (5 * 60 * 1000)) in
  match reminderTime with
  | None => Raised RangeError s
  | Some remind_at =>
      Done (arm {| id := notificationId;
                   type := task_start;
                   title := "Task Starting Soon";
                   message := quote_name taskName +:+ " starts in 5 minutes";
                   taskId := Some task;
                   scheduledTime := ISO remind_at;
                   delivered := false;
                   actions := Some start_actions |} remind_at now s)
  end.

(** [scheduleTaskEndNotification] *)
Definition scheduleTaskEndNotification (task taskName : string) (endTime : timetext)
    (now : Z) (s : Service) : outcome :=
  let notificationId := "end_" +:+ task in
  match Date_of endTime with
  | None => Raised RangeError s
  | Some ended =>
      Done (arm {| id := notificationId;
                   type := task_end;
                   title := "Task Completed?";
                   message := "How did " +:+ quote_name taskName +:+ " go?";
                   taskId := Some task;
                   scheduledTime := ISO ended;
                   delivered := false;
                   actions := Some end_actions |} ended now s)
  end.

(** *** Completion and migration *)

(** [status === text] *)
Definition status_is (status : value) (text : string) : bool :=
  match status with
  | VString s => String.eqb s text
  | _ => false
  end.

(** [n || fallback] for an optional number. *)
Definition number_or (n : option Z) (fallback : Z) : Z :=
  match n with
  | Some z => if z =? 0 then fallback else z
  | None => fallback
  end.

(** [storeCompletionData]; the text kept in local storage is taken to
    read back as the list of logs. *)
Definition storeCompletionData (log : CompletionLog) (s : Service) : Service :=
  set_completion_logs (completion_logs s ++ [log]) s.

(** [processCompletedTask] *)
Definition processCompletedTask (data : TaskCompletionData) (now : Z) (s : Service)
    : Service :=
  storeCompletionData
    {| log_taskId := completion_taskId data;
       completedAt := ISO now;
       log_actualDuration := actualDuration data;
       log_notes := notes data |} s.

(** The record built by [moveToIncompleteSheet]. *)
Definition incompleteTask (data : TaskCompletionData) (now : Z) : IncompleteTask := {|
  incomplete_id := "incomplete_" +:+ pretty now;
  incomplete_name := "Incomplete: " +:+ completion_taskId data;
  originalDuration := number_or (actualDuration data) 60;
  remainingDuration := number_or (remainingMinutes data) 60;
  priority := "medium";
  sourceDate := utc_day now;
  progress := if status_is (completion_status data) "partially_completed" then 50 else 0;
  incomplete_notes :=
    or_else (notes data) (or_else (reason data) (VString "Task needs to be rescheduled"))
|}.

(** [moveToIncompleteSheet]: the record is built and written to the
    console; nothing else receives it. *)
Definition moveToIncompleteSheet (data : TaskCompletionData) (now : Z) (s : Service)
    : Service :=
  emit [IncompleteTaskCreated (incompleteTask data now)] s.

(** [processPartiallyCompletedTask] *)
Definition processPartiallyCompletedTask (data : TaskCompletionData) (now : Z)
    (s : Service) : Service :=
  match remainingMinutes data with
  | Some remaining =>
      if negb (remaining =? 0) && (remaining >? 0)
      then moveToIncompleteSheet data now s
      else s
  | None => s
  end.

(** [processIncompleteTask] *)
Definition processIncompleteTask (data : TaskCompletionData) (now : Z) (s : Service)
    : Service :=
  moveToIncompleteSheet data now s.

(** [sendCompletionFeedback]: the delayed delivery is not recorded in
    [timers]. *)
Definition sendCompletionFeedback (data : TaskCompletionData) (now : Z) (s : Service)
    : Service :=
  let text :=
    if status_is (completion_status data) "completed"
    then "Great job! Task completed successfully."
    else if status_is (completion_status data) "partially_completed"
    then "Task partially completed. Remaining work scheduled for tomorrow."
    else if status_is (completion_status data) "not_completed"
    then "Task moved to tomorrow's schedule."
    else EmptyString in
  let feedback := {|
    id := "feedback_" +:+ completion_taskId data +:+ "_" +:+ pretty now;
    type := system;
    title := "Task Update";
    message := text;
    taskId := Some (completion_taskId data);
    scheduledTime := ISO now;
    delivered := false;
    actions := None
  |} in
  let s := snd (setTimeout (DeliverLater (id feedback)) 1000 now s) in
  set_notifications (<[id feedback := feedback]> (notifications s)) s.

(** [handleTaskCompletion] *)
Definition handleTaskCompletion (data : TaskCompletionData) (now : Z) (s : Service)
    : Service :=
  let s :=
    if status_is (completion_status data) "completed"
    then processCompletedTask data now s
    else if status_is (completion_status data) "partially_completed"
    then processPartiallyCompletedTask data now s
    else if status_is (completion_status data) "not_completed"
    then processIncompleteTask data now s
    else s in
  sendCompletionFeedback data now s.

(** *** Actions *)

(** [snoozeNotification] *)
Definition snoozeNotification (now : Z) (notificationId : string) (minutes : value)
    (s : Service) : outcome :=
  match notifications s !! notificationId with
  | None => Done s
  | Some notification =>
      let s :=
        match timers s !! notificationId with
        | Some existingTimer => clearTimeout existingTimer s
        | None => s
        end in
      let notification := with_delivered false notification in
      let s := set_notifications (<[notificationId := notification]> (notifications s)) s in
      match num_mul (num_mul (ToNumber minutes) (Num 60)) (Num 1000) with
      | NaN => Raised RangeError s
      | Num delay =>
          match toISOString (TimeClip (now + delay)) with
          | Throw e => Raised e s
          | Return later =>
              let notification := with_scheduledTime later notification in
              let s :=
                set_notifications (<[notificationId := notification]> (notifications s)) s in
              let '(timer, s) := setTimeout (DeliverLater notificationId) delay now s in
              Done (set_timers (<[notificationId := timer]> (timers s)) s)
          end
      end
  end.

(** [handleNotificationAction] *)
Definition handleNotificationAction (now : Z) (notificationId actionId : string)
    (s : Service) : outcome :=
  match notifications s !! notificationId with
  | None => Done s
  | Some notification =>
      match
        match actions notification with
        | Some l => List.find (fun a => String.eqb (action_id a) actionId) l
        | None => None
        end
      with
      | None => Done s
      | Some action =>
          match action_type action with
          | snooze =>
              snoozeNotification now notificationId
                (or_else (get_opt (payload action) "minutes") (VNumber (Num 5))) s
          | complete =>
              Done (handleTaskCompletion
                      {| completion_taskId := default EmptyString (taskId notification);
                         completion_status :=
                           or_else (get_opt (payload action) "status") (VString "completed");
                         actualDuration := None;
                         remainingMinutes := None;
                         notes := get_opt (payload action) "notes";
                         reason := VUndefined |} now s)
          | reschedule => Done s
          | cancel => Done s
          end
      end
  end.

(** [cleanup] *)
Definition cleanup (s : Service) : Service :=
  let s :=
    map_fold (fun _ timer s => clearTimeout timer s) s (timers s) in
  set_subscribers [] (set_notifications ∅ (set_timers ∅ s)).

(** The host runs the pending timeout [h] at clock [now]. *)
Definition fire (react : Callbacks) (now : Z) (h : positive) (s : Service)
    : Service :=
  match List.find (fun t => Pos.eqb (handle t) h) (pending s) with
  | None => s
  | Some t =>
      let s := clearTimeout h s in
      match callback t with
      | DeliverLater notificationId => deliver_task react now notificationId s
      | CloseBrowserNotification _ => s
      end
  end.

(** *** Terms of the properties *)


(** The pending timeout is the one [timers] holds for [k]. *)
Definition registered (k : string) (s : Service) (t : Timeout) : bool :=
  match timers s !! k with
  | Some h => Pos.eqb (handle t) h
  | None => false
  end.

(** Every notification is registered under its own id. *)
Definition well_keyed (s : Service) : Prop :=
  ∀ k n, notifications s !! k = Some n → id n = k.

(** Callbacks that keep to the subscriber list: whatever they do to
    it, and whether they return or throw, they leave the rest of the
    service as it was. *)
Definition onlooker (react : Callbacks) : Prop :=
  ∀ cb n s, ∃ subs, state_of (react cb n s) = set_subscribers subs s.

(** Callbacks that return. *)
Definition returning (react : Callbacks) : Prop :=
  ∀ cb n s, ∃ s', react cb n s = Done s'.

(** Callbacks that do nothing to the service but unsubscribe
    callbacks, through the closures [subscribe] returned. *)
Definition leaving (react : Callbacks) : Prop :=
  ∀ cb n s, ∃ us,
    state_of (react cb n s)
    = set_subscribers (foldl (fun l u => unsubscribe u l) (subscribers s) us) s.

(** The subscribers called with notification [k], in order. *)
Definition called_about (k : string) (tr : list effect) : list nat :=
  flat_map (fun e => match e with
                     | Called cb n => if String.eqb (id n) k then [cb] else []
                     | _ => []
                     end) tr.

(** The number of deliveries of notification [k] shown in the page. *)
Definition dispatched (k : string) (tr : list effect) : nat :=
  length (List.filter (fun e => match e with
                                | Dispatched n => String.eqb (id n) k
                                | _ => false
                                end) tr).

(** Callbacks that leave notification [k] alone. They may do anything
    else to the service (subscribe and unsubscribe, arm, snooze and
    report other notifications) and may throw; what the service holds
    about [k] stays as it was, in the registry and in the calls and
    page events recorded, and every notification stays registered
    under its own id. *)
Definition leaves_alone (k : string) (react : Callbacks) : Prop :=
  ∀ cb n s,
    let s' := state_of (react cb n s) in
    notifications s' !! k = notifications s !! k
    ∧ called_about k (trace s') = called_about k (trace s)
    ∧ dispatched k (trace s') = dispatched k (trace s)
    ∧ (well_keyed s → well_keyed s').

(** Timers firing for the notifications [attempts], in order, each at
    its clock reading. *)
Definition deliver_all (react : Callbacks) (attempts : list (Z * string))
    (s : Service) : Service :=
  fold_left (fun s attempt => deliver_task react (fst attempt) (snd attempt) s)
    attempts s.

End Notifier.

(** ** Sample data *)

Module Samples.
Import JS.

(** A parser for the shortest JSON texts; it rejects everything else. *)
Definition parse_short_json (s : string) : option value :=
  if negb (Gemini.json_can_start s) then None
  else if String.eqb s "null" then Some VNull
  else if String.eqb s "true" then Some (VBool true)
  else if String.eqb s "false" then Some (VBool false)
  else if String.eqb s "{}" then Some (VObject [])
  else if String.eqb s "[]" then Some (VArray [])
  else None.

(** 2025-09-16, 00:00 UTC, and 00:00 of the same day in a zone five and
    a half hours ahead. *)
Definition midnight_utc : Z := 1757980800000.
Definition midnight_local : Z := midnight_utc - 330 * 60000.

(** A course row as the normaliser reads it: Algorithms, 14:00-15:00. *)
Definition algorithms_row : value :=
  VObject [("day_of_week", VString "Tuesday");
           ("start_time", VString "14:00");
           ("end_time", VString "15:00");
           ("event_name", VString "Algorithms")].

(** A course row with the given name and times. *)
Definition course_row (event start_time end_time : string) : value :=
  VObject [("day_of_week", VString "Tuesday");
           ("start_time", VString start_time);
           ("end_time", VString end_time);
           ("event_name", VString event)].

(** Three course rows, the second ending before it starts. *)
Definition backwards_rows : list value :=
  [course_row "Algorithms" "09:00" "10:00";
   course_row "Networks" "11:00" "09:00";
   course_row "Databases" "10:00" "11:00"].

(** Priority rows that differ in the label only. *)
Definition labelled_row (label : string) : value :=
  VObject [("name", VString "Essay");
           ("priority", VString label);
           ("estimated_duration", VNumber (Num 120));
           ("due_date", VString "2025-09-20");
           ("targets", VString "writing");
           ("preferred_time", VString "morning")].

(** A priority row as [getPriorityTasks] builds it: the targets are an
    array. *)
Definition sheet_priority_row : value :=
  VObject [("id", VString "priority_0");
           ("name", VString "Essay");
           ("priority", VString "high");
           ("estimatedDuration", VNumber (Num 120));
           ("dueDate", VString EmptyString);
           ("targets", VArray [VString "writing"]);
           ("notes", VString EmptyString)].

Definition plain_task (task : string) (minutes score : Z) : Scheduler.Task := {|
  Scheduler.task_id := task;
  Scheduler.name := VString task;
  Scheduler.type := Scheduler.Flexible;
  Scheduler.start := Raw (VString "09:00");
  Scheduler.duration_minutes := VNumber (Num minutes);
  Scheduler.end_ := Raw (VString EmptyString);
  Scheduler.priority_score := VNumber (Num score);
  Scheduler.targets := VArray [VString "productivity"];
  Scheduler.fixed := false;
  Scheduler.notes := VUndefined;
  Scheduler.source := Scheduler.Sheet;
  Scheduler.reschedule_policy := Scheduler.Push;
  Scheduler.metadata := {| Scheduler.estimated_effort := VNumber (Num 50);
                           Scheduler.progress_percent := VNumber (Num 0) |}
|}.

(** A priority row that carries a number, and the task it normalises
    to. *)
Definition numbered_row (n : Z) : value :=
  VObject [("name", VString "Essay"); ("priority", VNumber (Num n))].

Definition numbered_task (index : nat) (n : Z) : Scheduler.Task := {|
  Scheduler.task_id := "priority_" +:+ pretty index;
  Scheduler.name := VString "Essay";
  Scheduler.type := Scheduler.Flexible;
  Scheduler.start := Raw (VString "09:00");
  Scheduler.duration_minutes := VNumber (Num 60);
  Scheduler.end_ := Raw (VString EmptyString);
  Scheduler.priority_score := or_else (VNumber (Num n)) (VNumber (Num 75));
  Scheduler.targets := VArray [VString "productivity"];
  Scheduler.fixed := false;
  Scheduler.notes := VUndefined;
  Scheduler.source := Scheduler.Sheet;
  Scheduler.reschedule_policy := Scheduler.Push;
  Scheduler.metadata := {| Scheduler.estimated_effort := VNumber (Num 50);
                           Scheduler.progress_percent := VNumber (Num 0) |}
|}.


(** A reply of the reasoning service whose text is the JSON literal
    [null]. *)
Definition null_reply : Gemini.transport :=
  Gemini.Response true
    (Some (VObject
       [("candidates",
         VArray [VObject
           [("content",
             VObject [("parts", VArray [VObject [("text", VString "null")]])])]])])).

(** Two flexible tasks and the candidate the fallback packer builds
    from them on 2025-09-16 with the default preferences: the higher
    score first, from 09:00, with a break of 15 minutes. *)
Definition two_tasks : list Scheduler.Task :=
  [plain_task "notes" 60 80; plain_task "essay" 30 90].

Definition nine : Z := midnight_local + 9 * 3600000.

Definition essay_placed : Scheduler.Task :=
  Scheduler.with_times (plain_task "essay" 30 90)
    (ISO nine) (ISO (nine + 30 * 60000)).

Definition notes_placed : Scheduler.Task :=
  Scheduler.with_times (plain_task "notes" 60 80)
    (ISO (nine + 45 * 60000)) (ISO (nine + 105 * 60000)).

Definition two_tasks_packed : Scheduler.ScheduleCandidate := {|
  Scheduler.id := "fallback_1";
  Scheduler.schedule := {|
    Scheduler.user_id := "user_1";
    Scheduler.date := Day midnight_local;
    Scheduler.timezone := "Asia/Kolkata";
    Scheduler.tasks := [essay_placed; notes_placed];
    Scheduler.generated_at := ISO midnight_utc;
    Scheduler.agent_version := "1.0.0";
    Scheduler.explainability := "Fallback schedule: tasks sorted by priority"
  |};
  Scheduler.score := 60;
  Scheduler.explanation := "Basic priority-based scheduling (AI unavailable)";
  Scheduler.conflicts := []
|}.





(** A subscriber that unsubscribes itself when called (callback 1)
    next to subscribers that do nothing to the service. *)
Definition first_leaves : Notifier.Callbacks := fun cb _ s =>
  Notifier.Done
    (if Nat.eqb cb 1
     then Notifier.set_subscribers (Notifier.unsubscribe 1 (Notifier.subscribers s)) s
     else s).

Definition nobody_leaves : Notifier.Callbacks := fun _ _ s => Notifier.Done s.

(** A subscriber that unsubscribes itself and subscribes callback 3
    (callback 1), and one that throws (callback 2). *)
Definition first_hands_over : Notifier.Callbacks := fun cb _ s =>
  if Nat.eqb cb 1
  then Notifier.Done
         (Notifier.subscribe 3
            (Notifier.set_subscribers
               (Notifier.unsubscribe 1 (Notifier.subscribers s)) s))
  else if Nat.eqb cb 2 then Notifier.Raised (Error "listener failed") s
  else Notifier.Done s.

(** A report of partial completion with this much remaining and this
    much spent. *)
Definition partial_report (remaining spent : option Z) : Notifier.TaskCompletionData := {|
  Notifier.completion_taskId := "essay";
  Notifier.completion_status := VString "partially_completed";
  Notifier.actualDuration := spent;
  Notifier.remainingMinutes := remaining;
  Notifier.notes := VUndefined;
  Notifier.reason := VUndefined
|}.

Definition completed_report (spent : option Z) : Notifier.TaskCompletionData := {|
  Notifier.completion_taskId := "essay";
  Notifier.completion_status := VString "completed";
  Notifier.actualDuration := spent;
  Notifier.remainingMinutes := None;
  Notifier.notes := VUndefined;
  Notifier.reason := VUndefined
|}.

(** The service after the start of task essay, due at 09:00, has been
    armed at 08:00 with two subscribers listening. *)
Definition armed : Notifier.Service :=
  Notifier.state_of
    (Notifier.scheduleTaskStartNotification "essay" "Essay" (ISO nine)
       (nine - 60 * 60000)
       (Notifier.subscribe 2 (Notifier.subscribe 1 Notifier.initial))).


(** The reminder [armed] holds for task essay: scheduled five minutes
    before 09:00. *)
Definition essay_reminder : Notifier.NotificationConfig := {|
  Notifier.id := "start_essay";
  Notifier.type := Notifier.task_start;
  Notifier.title := "Task Starting Soon";
  Notifier.message := Notifier.quote_name "Essay" +:+ " starts in 5 minutes";
  Notifier.taskId := Some "essay";
  Notifier.scheduledTime := ISO (nine - 5 * 60000);
  Notifier.delivered := false;
  Notifier.actions := Some Notifier.start_actions
|}.

End Samples.

(** ** The sheet reader (GoogleSheetsService) *)

Module Sheets.
Import JS.

(** A row of a sheet as the Sheets API sends it: the formatted texts of
    its cells, trailing empty cells left out. *)
Definition row := list string.

(** [row[i]], [undefined] past the end of the row. *)
Definition cell (r : row) (i : nat) : value :=
  match r !! i with
  | Some text => VString text
  | None => VUndefined
  end.

(** [row[i] || fallback] as text. *)
Definition cell_or (r : row) (i : nat) (fallback : string) : string :=
  match r !! i with
  | Some text => if String.eqb text EmptyString then fallback else text
  | None => fallback
  end.

(** [getSheetName] *)
Definition getSheetName (gid : string) : string :=
  if String.eqb gid "0" then "Course Schedule"
  else if String.eqb gid "1742028851" then "Priority Tasks"
  else if String.eqb gid "1522293859" then "Incomplete Tasks"
  else "Sheet1".

Definition hex_digit_of (c : ascii) : option Z :=
  let n := nat_of_ascii c in
  if (Nat.leb 48 n && Nat.leb n 57)%bool then Some (Z.of_nat (n - 48))
  else if (Nat.leb 97 n && Nat.leb n 102)%bool then Some (Z.of_nat (n - 87))
  else if (Nat.leb 65 n && Nat.leb n 70)%bool then Some (Z.of_nat (n - 55))
  else None.

(** The longest run of digits of the radix at the head of the text. *)
Fixpoint digits_prefix (radix : Z) (acc : Z) (seen : bool) (s : string) : option Z :=
  match s with
  | EmptyString => if seen then Some acc else None
  | String c rest =>
      match hex_digit_of c with
      | Some d =>
          if d <? radix then digits_prefix radix (acc * radix + d) true rest
          else if seen then Some acc else None
      | None => if seen then Some acc else None
      end
  end.

(** [parseInt(text)]: leading white space, a sign, a [0x] prefix, then
    the digits that follow; [NaN] when there is none. *)
Definition parseInt (text : string) : num :=
  let unsigned (t : string) : option Z :=
    match t with
    | String "0" (String "x" rest) | String "0" (String "X" rest) =>
        digits_prefix 16 0 false rest
    | _ => digits_prefix 10 0 false t
    end in
  match trim_left text with
  | String "-" rest =>
      match unsigned rest with
      | Some z => Num (- z)
      | None => NaN
      end
  | String "+" rest =>
      match unsigned rest with
      | Some z => Num z
      | None => NaN
      end
  | t =>
      match unsigned t with
      | Some z => Num z
      | None => NaN
      end
  end.

(** [parseInt(row[i]) || fallback] *)
Definition int_cell_or (r : row) (i : nat) (fallback : Z) : value :=
  or_else (VNumber (parseInt (ToString (cell r i)))) (VNumber (Num fallback)).

(** [text.toLowerCase()], the characters of a text being the code units
    below 256. *)
Definition lower (c : ascii) : ascii :=
  let n := nat_of_ascii c in
  if ((Nat.leb 65 n && Nat.leb n 90)
      || (Nat.leb 192 n && Nat.leb n 222 && negb (Nat.eqb n 215)))%bool
  then ascii_of_nat (n + 32) else c.

Fixpoint toLowerCase (s : string) : string :=
  match s with
  | EmptyString => EmptyString
  | String c rest => String (lower c) (toLowerCase rest)
  end.

Fixpoint trim_right (s : string) : string :=
  match s with
  | EmptyString => EmptyString
  | String c rest =>
      let kept := trim_right rest in
      if is_space c && String.eqb kept EmptyString then EmptyString
      else String c kept
  end.

(** [text.trim()] *)
Definition trim (s : string) : string := trim_right (trim_left s).

(** [text.split(",").map(t => t.trim()).filter(Boolean)] *)
Definition split_targets (text : string) : list string :=
  List.filter (fun t => negb (String.eqb t EmptyString))
    (map trim (split_on "," EmptyString text)).

(** [rows.slice(1).map((row, index) => item)], nothing for a sheet
    without rows. *)
Definition data_rows (items : nat → row → value) (rows : list row) : list value :=
  imap items (drop 1 rows).

(** [getCourseSchedule] on the rows read. *)
Definition getCourseSchedule (rows : list row) : list value :=
  data_rows
    (fun index r =>
       VObject [("day", VString (cell_or r 0 EmptyString));
                ("time", VString (cell_or r 1 EmptyString));
                ("course", VString (cell_or r 2 EmptyString));
                ("location", VString (cell_or r 3 EmptyString));
                ("instructor", VString (cell_or r 4 EmptyString))])
    rows.

(** The label of a row: [row[i]?.toLowerCase() || "medium"]. *)
Definition label_cell (r : row) (i : nat) : string :=
  match r !! i with
  | Some text =>
      if String.eqb (toLowerCase text) EmptyString then "medium" else toLowerCase text
  | None => "medium"
  end.

(** [getPriorityTasks] on the rows read. *)
Definition getPriorityTasks (rows : list row) : list value :=
  data_rows
    (fun index r =>
       VObject [("id", VString (cell_or r 0 ("priority_" +:+ pretty index)));
                ("name", VString (cell_or r 1 EmptyString));
                ("priority", VString (label_cell r 2));
                ("estimatedDuration", int_cell_or r 3 60);
                ("dueDate", VString (cell_or r 4 EmptyString));
                ("targets", VArray (map VString (split_targets (cell_or r 5 EmptyString))));
                ("notes", VString (cell_or r 6 EmptyString))])
    rows.

(** [getIncompleteTasks] on the rows read. *)
Definition getIncompleteTasks (rows : list row) : list value :=
  data_rows
    (fun index r =>
       VObject [("id", VString (cell_or r 0 ("incomplete_" +:+ pretty index)));
                ("name", VString (cell_or r 1 EmptyString));
                ("originalDuration", int_cell_or r 2 60);
                ("remainingDuration", int_cell_or r 3 60);
                ("priority", VString (label_cell r 4));
                ("sourceDate", VString (cell_or r 5 EmptyString));
                ("progress", int_cell_or r 6 0);
                ("notes", VString (cell_or r 7 EmptyString))])
    rows.

End Sheets.

(** ** The scheduler service: applying and modifying a schedule *)

Module Applier.
Import JS Scheduler.

(** The scheduler service's two private fields, and the notification
    service it arms. *)
Record State := {
  currentSchedule : option SchedulePayload;
  userPreferences : UserPreferences;
  notifier : Notifier.Service
}.

Definition set_currentSchedule (c : option SchedulePayload) (st : State) : State := {|
  currentSchedule := c;
  userPreferences := userPreferences st;
  notifier := notifier st
|}.

Definition set_notifier (n : Notifier.Service) (st : State) : State := {|
  currentSchedule := currentSchedule st;
  userPreferences := userPreferences st;
  notifier := n
|}.

(** How [applySchedule] ends; the services are left as the statements
    that ran have made them. *)
Inductive outcome :=
| Applied (st : State)
| Failed (e : exn) (st : State).

(** [task.targets.join(', ')] can be called. *)
Definition describable (t : Task) : bool :=
  match targets t with
  | VArray _ => true
  | _ => false
  end.

(** The third pass of [applySchedule]: for each task the start reminder
    and then the end prompt are armed; the first arming that throws
    ends the pass. [clock] gives the reading of [Date.now()] at the
    arming calls, numbered from [call]. *)
Fixpoint arm_tasks (clock : nat → Z) (call : nat) (tasks : list Task)
    (n : Notifier.Service) : Notifier.outcome :=
  match tasks with
  | [] => Notifier.Done n
  | t :: rest =>
      match Notifier.scheduleTaskStartNotification (task_id t) (ToString (name t))
              (start t) (clock call) n with
      | Notifier.Raised e n => Notifier.Raised e n
      | Notifier.Done n =>
          match Notifier.scheduleTaskEndNotification (task_id t) (ToString (name t))
                  (end_ t) (clock (S call)) n with
          | Notifier.Raised e n => Notifier.Raised e n
          | Notifier.Done n => arm_tasks clock (S (S call)) rest n
          end
      end
  end.

(** [applySchedule]. Creating calendar events and tasks answers mock
    objects and changes nothing; the description of an event is built
    for each task that is not fixed, before anything is armed. *)
Definition applySchedule (clock : nat → Z) (candidate : ScheduleCandidate) (st : State)
    : outcome :=
  let day_tasks := tasks (schedule candidate) in
  if forallb describable (List.filter (fun t => negb (fixed t)) day_tasks) then
    match arm_tasks clock 0 day_tasks (notifier st) with
    | Notifier.Done n =>
        Applied (set_currentSchedule (Some (schedule candidate)) (set_notifier n st))
    | Notifier.Raised _ n =>
        Failed (Error "Failed to apply schedule") (set_notifier n st)
    end
  else Failed (Error "Failed to apply schedule") st.

(** [processScheduleModification] of the reasoning client: the parsed
    reply, or a plan to add the message as a task of 60 minutes. *)
Definition processScheduleModification (JSON_parse : string → option value)
    (http : Gemini.transport) (message : string) : value :=
  match JSON_parse (ToString (Gemini.makeRequest http)) with
  | Some plan => plan
  | None =>
      VObject
        [("action", VString "add");
         ("affectedTasks", VArray []);
         ("newTask",
          VObject [("name", VString message); ("duration_minutes", VNumber (Num 60))]);
         ("suggestions",
          VArray [VString ("Add " +:+ Notifier.quote_name message +:+ " to the schedule")])]
  end.

(** [generateModifiedSchedule] *)
Definition generateModifiedSchedule (modification : value) (st : State)
    : list ScheduleCandidate :=
  match currentSchedule st with
  | None => []
  | Some current =>
      [{| id := "modified_1";
          schedule := current;
          score := 70;
          explanation := "Schedule modified based on user request";
          conflicts := [] |}]
  end.

(** [handleChatModification] *)
Definition handleChatModification (JSON_parse : string → option value)
    (http : Gemini.transport) (message : string) (st : State)
    : result (list ScheduleCandidate) :=
  match currentSchedule st with
  | None => Throw (Error "No active schedule to modify")
  | Some _ =>
      try_catch
        (Return (generateModifiedSchedule
                   (processScheduleModification JSON_parse http message) st))
        (fun _ => Throw (Error "Failed to process schedule modification"))
  end.

(** [getCurrentSchedule] *)
Definition getCurrentSchedule (st : State) : option SchedulePayload :=
  currentSchedule st.

End Applier.

(** ** The reasoning client: reading candidates out of a reply *)

Module Replies.
Import JS.

(** [array.map(f)] for a callback that can throw. *)
Fixpoint map_each {A B} (f : A → result B) (l : list A) : result (list B) :=
  match l with
  | [] => Return []
  | x :: rest =>
      y ← f x;
      more ← map_each f rest;
      Return (y :: more)
  end.

(** The object built for one candidate of the reply. [today] and
    [stamp] are the day and the instant the clock reads, as text. *)
Definition parseCandidate (today stamp : string) (candidate : value) : result value :=
  user_id ← get candidate "user_id";
  date ← get candidate "date";
  timezone ← get candidate "timezone";
  tasks ← get candidate "tasks";
  generated_at ← get candidate "generated_at";
  agent_version ← get candidate "agent_version";
  explainability ← get candidate "explainability";
  priority_score ← get candidate "priority_score";
  Return (VObject
    [("user_id", or_else user_id (VString "user_1"));
     ("date", or_else date (VString today));
     ("timezone", or_else timezone (VString "Asia/Kolkata"));
     ("tasks", or_else tasks (VArray []));
     ("generated_at", or_else generated_at (VString stamp));
     ("agent_version", or_else agent_version (VString "1.0"));
     ("explainability", or_else explainability (VString "AI-generated schedule"));
     ("priority_score", or_else priority_score (VNumber (Num 75)))]).

(** [parseScheduleCandidates] *)
Definition parseScheduleCandidates (today stamp : string) (response : value)
    : list value :=
  match
    try_catch
      (found ← get response "candidates";
       match found with
       | VArray items => map_each (parseCandidate today stamp) items
       | _ => Return []
       end)
      (fun _ => Return [])
  with
  | Return parsed => parsed
  | Throw _ => []
  end.

(** The fields of a parsed candidate whose default is a constant. *)
Definition defaulted : list string :=
  ["user_id"; "timezone"; "tasks"; "agent_version"; "explainability"; "priority_score"].

End Replies.

(** ** Further terms of the properties *)

Module Terms.
Import JS Scheduler.

(** The score converts to a number. *)
Definition numeric_score (t : Task) : Prop :=
  ∃ p, ToNumber (priority_score t) = Num p.

(** [a] does not score below [b]. *)
Definition outranks (a b : Task) : Prop :=
  ∃ p q, ToNumber (priority_score a) = Num p
         ∧ ToNumber (priority_score b) = Num q ∧ q ≤ p.

(** [null] or [undefined]: a value whose properties cannot be read. *)
Definition nullish (v : value) : bool :=
  match v with
  | VUndefined | VNull => true
  | _ => false
  end.

Definition is_text (v : value) : bool :=
  match v with
  | VString _ => true
  | _ => false
  end.

(** A priority row whose targets are given and are not text. *)
Definition unsplittable (row : value) : bool :=
  truthy (get_opt row "targets") && negb (is_text (get_opt row "targets")).

(** A course row with a day, a start and an end. *)
Definition kept_course (row : value) : bool :=
  truthy (get_opt row "day_of_week") && truthy (get_opt row "start_time")
  && truthy (get_opt row "end_time").

(** What holds of every normalised task, fixed or not. The duration
    of a fixed task is a number or [NaN]; its start and end can be
    readable while the duration is [NaN] (a row giving the hours
    alone, ['14'] and ['15']). *)
Definition well_normalised (t : Task) : Prop :=
  (fixed t = true ↔ Scheduler.type t = Fixed)
  ∧ (Scheduler.type t = Fixed →
       priority_score t = VNumber (Num 100) ∧ reschedule_policy t = Drop
       ∧ (∃ n, duration_minutes t = VNumber n)
       ∧ ∀ s e d, Date_of (start t) = Some s → Date_of (end_ t) = Some e →
                  duration_minutes t = VNumber (Num d) → e = s + d * 60000)
  ∧ (Scheduler.type t ≠ Fixed → end_ t = Raw (VString EmptyString)).

(** The times of the task can be read, the time of its reminder, five
    minutes before the start, is in the range of Date and, unless the
    task is fixed, its targets are a list. *)
Definition appliable (t : Task) : bool :=
  (fixed t || Applier.describable t)
  && bool_decide (Notifier.shifted (Date_of (start t)) (- (5 * 60 * 1000)) ≠ None)
  && bool_decide (Date_of (end_ t) ≠ None).

(** The reminder of the task, five minutes before its start, is in the
    range of Date. *)
Definition remindable (t : Task) : Prop :=
  ∀ s, Date_of (start t) = Some s → within_range (s - 300000).

(** The minutes a task takes when its duration is a number, and the
    milliseconds a list of tasks and the breaks after them take up at
    most, whatever the order and the signs. *)
Definition minutes_of (t : Task) : Z :=
  match ToNumber (duration_minutes t) with
  | Num d => d
  | NaN => 0
  end.

Definition span (break_minutes : Z) (l : list Task) : Z :=
  foldr (fun t rest => Z.abs (minutes_of t * 60000) + Z.abs (break_minutes * 60000) + rest)
    0 l.

(** A value that converts to [NaN] whatever it holds: [undefined], an
    object, or [NaN] itself. *)
Definition no_number (v : value) : bool :=
  match v with
  | VUndefined | VObject _ | VNumber NaN => true
  | _ => false
  end.

(** Every pending timeout has a handle the host has already given
    out. *)
Definition fresh_handles (s : Notifier.Service) : Prop :=
  ∀ t, In t (Notifier.pending s) → (Notifier.handle t < Notifier.next_handle s)%positive.

End Terms.

(** * Properties *)

(** ** Dates *)

Section Dates.
Import JS.

Lemma TimeClip_Some t x : TimeClip t = Some x → x = t ∧ within_range t.
Proof.
  unfold TimeClip, within_range.
  destruct (- max_time <=? t) eqn:Hlo; [|discriminate].
  destruct (t <=? max_time) eqn:Hhi; [|discriminate].
  simpl. intros H. inversion H; subst. apply Z.leb_le in Hlo, Hhi.
  repeat split; assumption.
Qed.

Lemma TimeClip_within t : within_range t → TimeClip t = Some t.
Proof.
  unfold TimeClip, within_range. intros [Hlo Hhi].
  apply Z.leb_le in Hlo, Hhi. now rewrite Hlo, Hhi.
Qed.

Lemma TimeClip_None t : TimeClip t = None → ¬ within_range t.
Proof.
  intros H Hin. rewrite (TimeClip_within _ Hin) in H. discriminate.
Qed.

Lemma TimeClip_outside t : ¬ within_range t → TimeClip t = None.
Proof.
  intros H. destruct (TimeClip t) as [x|] eqn:E; [|reflexivity].
  apply TimeClip_Some in E as [_ Hin]. contradiction.
Qed.

End Dates.

(** ** Schedule generation *)

Section Generation.
Import JS Gemini Scheduler.

Lemma makeRequest_never_empty http : truthy (makeRequest http) = true.
Proof.
  destruct http as [|[] [data|]]; try reflexivity.
  unfold makeRequest. destruct (get data "candidates") as [cs|]; [|reflexivity].
  unfold or_else.
  destruct (truthy (get_opt _ "text")) eqn:E; [exact E | reflexivity].
Qed.






(** A reply that parses but carries no candidates gives the empty list:
    the guarantee is about replies that fail. *)
Lemma empty_reply_gives_no_candidates JSON_parse prefs now tasks existingEvents date
    userId http :
  JSON_parse (ToString (makeRequest http)) = Some (VObject []) →
  generateScheduleCandidates JSON_parse prefs now tasks existingEvents date userId http
    = Return (Reply (VArray [])).
Proof.
  intros H. unfold generateScheduleCandidates, generateSchedule. now rewrite H.
Qed.


End Generation.

(** ** The fallback packer *)

Section Fallback.
Import JS Scheduler.

Lemma laid_out_earlier from from' l :
  from' ≤ from → laid_out from l → laid_out from' l.
Proof.
  intros Hle H. destruct H as [|from s e t rest Hs He Hfs Hse Hrest].
  - constructor.
  - apply (laid_out_cons _ s e); auto. lia.
Qed.

Lemma insert_sorted_Forall (P : Task → Prop) compare x l :
  P x → Forall P l → Forall P (insert_sorted compare x l).
Proof.
  intros Hx Hl. induction Hl as [|y l Hy Hl IH]; simpl.
  - repeat constructor. exact Hx.
  - destruct (is_positive (compare x y)); repeat constructor; auto.
Qed.

Lemma sort_Forall (P : Task → Prop) compare l :
  Forall P l → Forall P (sort compare l).
Proof.
  induction 1 as [|x l Hx Hl IH]; simpl.
  - constructor.
  - apply insert_sorted_Forall; assumption.
Qed.

Lemma allocate_nowhere break_minutes l out :
  allocate break_minutes None l = Return out → l = [] ∧ out = [].
Proof.
  destruct l as [|t l]; simpl; [intros H; inversion H; auto | discriminate].
Qed.

Lemma allocate_laid_out break_minutes l :
  0 ≤ break_minutes →
  Forall numeric_duration l →
  ∀ cur out, allocate break_minutes (Some cur) l = Return out → laid_out cur out.
Proof.
  intros Hb. induction 1 as [|t l (d & Hd & Hd0) Hl IH]; intros cur out Hout.
  - inversion Hout. constructor.
  - simpl in Hout. rewrite Hd in Hout. simpl in Hout.
    destruct (TimeClip (cur + d * 60000)) as [e|] eqn:He; [|discriminate].
    apply TimeClip_Some in He as [-> _]. simpl in Hout.
    destruct (allocate break_minutes _ l) as [placed|] eqn:Hrest; inversion Hout; subst.
    apply (laid_out_cons _ cur (cur + d * 60000)); try reflexivity; try lia.
    destruct (TimeClip (cur + d * 60000 + break_minutes * 60000)) as [next|] eqn:Hn.
    + apply TimeClip_Some in Hn as [-> _].
      apply (laid_out_earlier (cur + d * 60000 + break_minutes * 60000)); [lia|].
      apply IH. exact Hrest.
    + apply allocate_nowhere in Hrest as [_ ->]. constructor.
Qed.

Lemma laid_out_lookup from l i a :
  laid_out from l → l !! i = Some a →
  ∃ s e, start a = ISO s ∧ end_ a = ISO e ∧ from ≤ s ∧ s ≤ e.
Proof.
  intros H. revert i. induction H as [|from s e t rest Hs He Hfs Hse Hrest IH]; intros i Hi.
  - destruct i; discriminate.
  - destruct i as [|i]; simpl in Hi.
    + inversion Hi; subst. exists s, e. repeat split; auto.
    + destruct (IH _ Hi) as (s' & e' & ? & ? & ? & ?).
      exists s', e'. repeat split; auto. lia.
Qed.

Lemma laid_out_ordered from l (i j : nat) a b :
  laid_out from l → (i < j)%nat → l !! i = Some a → l !! j = Some b →
  ∃ sa ea sb eb,
    start a = ISO sa ∧ end_ a = ISO ea ∧ start b = ISO sb ∧ end_ b = ISO eb
    ∧ sa ≤ ea ∧ ea ≤ sb ∧ sb ≤ eb.
Proof.
  intros H. revert i j.
  induction H as [|from s e t rest Hs He Hfs Hse Hrest IH]; intros i j Hij Hi Hj.
  - destruct i; discriminate.
  - destruct j as [|j]; [lia|]. simpl in Hj.
    destruct i as [|i]; simpl in Hi.
    + inversion Hi; subst.
      destruct (laid_out_lookup _ _ _ _ Hrest Hj) as (sb & eb & ? & ? & ? & ?).
      exists s, e, sb, eb. repeat split; auto.
    + apply (IH i j); auto. lia.
Qed.

Lemma ordered_no_overlap sa ea sb eb :
  ea ≤ sb →
  Calendar.overlaps (Some sa) (Some ea) (Some sb) (Some eb) = false
  ∧ Calendar.overlaps (Some sb) (Some eb) (Some sa) (Some ea) = false.
Proof.
  intros H. unfold Calendar.overlaps. split.
  - apply andb_false_iff. right. rewrite Z.gtb_ltb. apply Z.ltb_ge. exact H.
  - apply andb_false_iff. left. apply Z.ltb_ge. exact H.
Qed.

Lemma insert_sorted_Permutation compare x l :
  insert_sorted compare x l ≡ₚ x :: l.
Proof.
  induction l as [|y l IH]; simpl; [reflexivity|].
  destruct (is_positive (compare x y)); [|reflexivity].
  rewrite IH. apply Permutation_swap.
Qed.

(** The sort rearranges the tasks and loses none. *)
Lemma sort_Permutation compare l : sort compare l ≡ₚ l.
Proof.
  induction l as [|x l IH]; simpl; [reflexivity|].
  now rewrite insert_sorted_Permutation, IH.
Qed.

Lemma allocate_task_ids break_minutes l :
  ∀ cur out, allocate break_minutes cur l = Return out →
             map task_id out = map task_id l.
Proof.
  induction l as [|t l IH]; intros cur out H; simpl in H.
  - inversion H. reflexivity.
  - destruct (toISOString cur) as [s|]; [|discriminate]. simpl in H.
    destruct (toISOString _) as [e|]; [|discriminate]. simpl in H.
    destruct (allocate break_minutes _ l) as [placed|] eqn:Hp; [|discriminate].
    inversion H; subst. simpl. f_equal. apply (IH _ _ Hp).
Qed.

(** With numeric scores the sort leaves no task behind one of strictly
    lower score. *)
Lemma insert_sorted_descending x l :
  (∃ p, ToNumber (priority_score x) = Num p) →
  Forall (fun t => ∃ p, ToNumber (priority_score t) = Num p) l →
  Sorted (fun a b => is_positive (by_priority a b) = false) l →
  Sorted (fun a b => is_positive (by_priority a b) = false) (insert_sorted by_priority x l).
Proof.
  intros (px & Hx) Hl Hs. induction l as [|y l IH]; simpl.
  - repeat constructor.
  - inversion Hl as [|? ? (py & Hy) Hl']; subst.
    inversion Hs as [|? ? Hs' Hhd]; subst.
    destruct (is_positive (by_priority x y)) eqn:Hxy.
    + constructor; [apply IH; assumption|].
      destruct l as [|z l]; simpl.
      * constructor. unfold by_priority in *. rewrite Hx, Hy in *. simpl in *.
        apply Z.ltb_ge. apply Z.ltb_lt in Hxy. lia.
      * destruct (is_positive (by_priority x z)).
        -- inversion Hhd; subst. constructor. assumption.
        -- constructor. unfold by_priority in *. rewrite Hx, Hy in *. simpl in *.
           apply Z.ltb_ge. apply Z.ltb_lt in Hxy. lia.
    + constructor; [exact Hs|]. constructor. exact Hxy.
Qed.

Lemma sort_descending l :
  Forall (fun t => ∃ p, ToNumber (priority_score t) = Num p) l →
  Sorted (fun a b => is_positive (by_priority a b) = false) (sort by_priority l).
Proof.
  induction 1 as [|x l Hx Hl IH]; simpl; [constructor|].
  apply insert_sorted_descending; [exact Hx | | exact IH].
  apply sort_Forall. exact Hl.
Qed.

Lemma span_nonneg break_minutes l : 0 ≤ Terms.span break_minutes l.
Proof. induction l as [|t l IH]; simpl; lia. Qed.

Lemma span_Permutation break_minutes l l' :
  l ≡ₚ l' → Terms.span break_minutes l = Terms.span break_minutes l'.
Proof. induction 1; simpl; lia. Qed.

(** The packer returns one candidate holding every task, whenever the
    day and the start of the working hours are readable, every duration
    is a number and the tasks with their breaks fit into the Date
    range. *)
Lemma allocate_returns break_minutes l :
  Forall (fun t => ∃ d, ToNumber (duration_minutes t) = Num d) l →
  ∀ cur, Z.abs cur + Terms.span break_minutes l ≤ max_time →
         ∃ out, allocate break_minutes (Some cur) l = Return out
                ∧ length out = length l.
Proof.
  induction 1 as [|t l (d & Hd) Hl IH]; intros cur Hfit.
  - exists []. split; reflexivity.
  - simpl in Hfit. unfold Terms.minutes_of in Hfit. rewrite Hd in Hfit.
    pose proof (span_nonneg break_minutes l) as Hspan.
    simpl. rewrite Hd. simpl.
    rewrite (TimeClip_within (cur + d * 60000)) by (unfold within_range; lia). simpl.
    rewrite (TimeClip_within (cur + d * 60000 + break_minutes * 60000))
      by (unfold within_range; lia).
    destruct (IH (cur + d * 60000 + break_minutes * 60000)) as (placed & Hp & Hlen);
      [lia|].
    rewrite Hp. eexists. split; [reflexivity|]. simpl. now rewrite Hlen.
Qed.

Lemma fallback_returns prefs now tasks date userId t0 :
  Date_at date (window_start (work_hours prefs)) = Some t0 →
  Forall (fun t => ∃ d, ToNumber (duration_minutes t) = Num d) tasks →
  Z.abs t0 + Terms.span (break_duration prefs) tasks ≤ max_time →
  ∃ candidate,
    generateFallbackSchedule prefs now tasks date userId = Return [candidate]
    ∧ map task_id (Scheduler.tasks (schedule candidate)) ≡ₚ map task_id tasks
    ∧ conflicts candidate = [].
Proof.
  intros Ht0 Hd Hfit. unfold generateFallbackSchedule. rewrite Ht0.
  destruct (allocate_returns (break_duration prefs) (sort by_priority tasks)
              (sort_Forall _ _ _ Hd) t0) as (out & Hout & Hlen).
  { now rewrite (span_Permutation _ _ _ (sort_Permutation by_priority tasks)). }
  rewrite Hout. eexists. split; [reflexivity|]. simpl.
  split; [|reflexivity].
  rewrite (allocate_task_ids _ _ _ _ Hout). apply fmap_Permutation, sort_Permutation.
Qed.

(** C3, as the code has it. For task lists whose durations are numbers
    that are not negative and a break that is not negative, in every
    candidate the fallback packer produces two tasks at different
    positions have resolved times and their intervals do not overlap;
    the candidate lists no conflicts. *)
Theorem fallback_never_overlaps
    (prefs : UserPreferences) (now : Z) (tasks : list Task) (date : daytext)
    (userId : string) (built : list ScheduleCandidate) (candidate : ScheduleCandidate)
    (i j : nat) (a b : Task) :
  0 ≤ break_duration prefs →
  Forall numeric_duration tasks →
  generateFallbackSchedule prefs now tasks date userId = Return built →
  candidate ∈ built →
  i ≠ j →
  Scheduler.tasks (schedule candidate) !! i = Some a →
  Scheduler.tasks (schedule candidate) !! j = Some b →
  (∃ sa ea sb eb,
     Date_of (start a) = Some sa ∧ Date_of (end_ a) = Some ea
     ∧ Date_of (start b) = Some sb ∧ Date_of (end_ b) = Some eb)
  ∧ Calendar.overlaps (Date_of (start a)) (Date_of (end_ a))
                      (Date_of (start b)) (Date_of (end_ b)) = false
  ∧ conflicts candidate = [].
Proof.
  intros Hb Hd Hgen Hin Hij Ha Hbj.
  unfold generateFallbackSchedule in Hgen.
  destruct (Date_at date _) as [t0|] eqn:Ht0;
    [|destruct (sort by_priority tasks); simpl in Hgen; inversion Hgen; subst;
      apply list_elem_of_singleton in Hin; subst; destruct i; discriminate].
  destruct (allocate _ _ _) as [out|] eqn:Hout; simpl in Hgen; inversion Hgen; subst.
  apply list_elem_of_singleton in Hin. subst candidate. simpl in *.
  pose proof (allocate_laid_out _ _ Hb (sort_Forall _ _ _ Hd) _ _ Hout) as Hlaid.
  destruct (Nat.lt_total i j) as [Hlt|[Heq|Hgt]]; [|contradiction|].
  - destruct (laid_out_ordered _ _ _ _ _ _ Hlaid Hlt Ha Hbj)
      as (sa & ea & sb & eb & Hsa & Hea & Hsb & Heb & ? & Hord & ?).
    rewrite Hsa, Hea, Hsb, Heb. simpl.
    split; [eauto 10|]. split; [|reflexivity].
    apply (ordered_no_overlap sa ea sb eb Hord).
  - destruct (laid_out_ordered _ _ _ _ _ _ Hlaid Hgt Hbj Ha)
      as (sb & eb & sa & ea & Hsb & Heb & Hsa & Hea & ? & Hord & ?).
    rewrite Hsa, Hea, Hsb, Heb. simpl.
    split; [eauto 10|]. split; [|reflexivity].
    apply (ordered_no_overlap sb eb sa ea Hord).
Qed.

Lemma fallback_never_overlaps_witness :
  (∃ sa ea sb eb,
     Date_of (start Samples.essay_placed) = Some sa
     ∧ Date_of (end_ Samples.essay_placed) = Some ea
     ∧ Date_of (start Samples.notes_placed) = Some sb
     ∧ Date_of (end_ Samples.notes_placed) = Some eb)
  ∧ Calendar.overlaps
      (Date_of (start Samples.essay_placed)) (Date_of (end_ Samples.essay_placed))
      (Date_of (start Samples.notes_placed)) (Date_of (end_ Samples.notes_placed))
    = false
  ∧ conflicts Samples.two_tasks_packed = [].
Proof.
  apply (fallback_never_overlaps default_preferences Samples.midnight_utc
           Samples.two_tasks (Day Samples.midnight_local) "user_1"
           [Samples.two_tasks_packed] Samples.two_tasks_packed 0 1).
  - simpl. lia.
  - repeat constructor; eexists; (split; [reflexivity | lia]).
  - reflexivity.
  - apply list_elem_of_singleton. reflexivity.
  - lia.
  - reflexivity.
  - reflexivity.
Defined.

(** Whatever the tasks, a candidate of the packer lists no
    conflicts. *)
Lemma fallback_lists_no_conflicts prefs now tasks date userId built candidate :
  generateFallbackSchedule prefs now tasks date userId = Return built →
  candidate ∈ built →
  conflicts candidate = [].
Proof.
  intros Hgen Hin. unfold generateFallbackSchedule in Hgen.
  destruct (allocate _ _ _) as [out|]; simpl in Hgen; inversion Hgen; subst.
  apply list_elem_of_singleton in Hin. subst candidate. reflexivity.
Qed.

(** C3, where it fails. Course rows for 09:00-10:00, 11:00-09:00 and
    10:00-11:00 normalise to fixed tasks of 60, -120 and 60 minutes.
    The packer returns them at 09:00-10:00, 10:15-08:15 and
    08:30-09:30: the first and the third overlap, and the candidate
    lists no conflicts. Schedule generation reaches the packer with
    these tasks when the reply of the reasoning service is the JSON
    text [null]. *)
Lemma fallback_overlaps_after_negative_duration :
  ∃ tasks built a b,
    normalizeTasks Samples.midnight_utc Samples.backwards_rows [] [] = Return tasks
    ∧ map duration_minutes tasks
      = [VNumber (Num 60); VNumber (Num (-120)); VNumber (Num 60)]
    ∧ generateFallbackSchedule default_preferences Samples.midnight_utc tasks
        (Day Samples.midnight_local) "user_1" = Return [built]
    ∧ generateDailySchedule Samples.parse_short_json default_preferences
        Samples.midnight_utc Samples.backwards_rows [] [] []
        (Day Samples.midnight_local) "user_1" Samples.null_reply
      = Return (Built [built])
    ∧ Scheduler.tasks (schedule built) !! 0%nat = Some a
    ∧ Scheduler.tasks (schedule built) !! 2%nat = Some b
    ∧ Date_of (start a) = Some (Samples.midnight_local + 9 * 3600000)
    ∧ Date_of (end_ a) = Some (Samples.midnight_local + 10 * 3600000)
    ∧ Date_of (start b) = Some (Samples.midnight_local + 8 * 3600000 + 30 * 60000)
    ∧ Date_of (end_ b) = Some (Samples.midnight_local + 9 * 3600000 + 30 * 60000)
    ∧ Calendar.overlaps (Date_of (start a)) (Date_of (end_ a))
                        (Date_of (start b)) (Date_of (end_ b)) = true
    ∧ conflicts built = [].
Proof.
  do 4 eexists. split; [reflexivity|]. split; [reflexivity|].
  split; [reflexivity|]. split; [reflexivity|]. split; [reflexivity|].
  split; [reflexivity|]. repeat split.
Qed.

(** C2, on the code. A course row for 14:00-15:00 normalises to a fixed
    task at 14:00-15:00; the fallback packer returns it, still fixed, at
    09:00-10:00, the start of the working hours. Schedule generation
    reaches the packer with this task when the reply of the reasoning
    service is the JSON text [null]. *)
Theorem fallback_moves_fixed_task :
  ∃ fixed_in fixed_out built,
    normalizeTasks Samples.midnight_utc [Samples.algorithms_row] [] []
      = Return [fixed_in]
    ∧ generateFallbackSchedule default_preferences Samples.midnight_utc [fixed_in]
        (Day Samples.midnight_local) "user_1" = Return [built]
    ∧ generateDailySchedule Samples.parse_short_json default_preferences
        Samples.midnight_utc [Samples.algorithms_row] [] [] []
        (Day Samples.midnight_local) "user_1" Samples.null_reply
      = Return (Built [built])
    ∧ Scheduler.tasks (schedule built) = [fixed_out]
    ∧ task_id fixed_out = task_id fixed_in
    ∧ Scheduler.type fixed_out = Fixed ∧ fixed fixed_out = true
    ∧ reschedule_policy fixed_out = Drop
    ∧ Date_of (start fixed_in) = Some (Samples.midnight_local + 14 * 3600000)
    ∧ Date_of (end_ fixed_in) = Some (Samples.midnight_local + 15 * 3600000)
    ∧ Date_of (start fixed_out) = Some (Samples.midnight_local + 9 * 3600000)
    ∧ Date_of (end_ fixed_out) = Some (Samples.midnight_local + 10 * 3600000).
Proof.
  do 3 eexists. split; [reflexivity|]. split; [reflexivity|].
  split; [reflexivity|]. split; [reflexivity|]. repeat split.
Qed.

End Fallback.

(** ** The normaliser *)

Section Normaliser.
Import JS Scheduler.

Lemma normalizePriority_score index row task :
  normalizePriority index row = Return (Some task) →
  ∃ p, get row "priority" = Return p
       ∧ priority_score task = or_else p (VNumber (Num 75)).
Proof.
  unfold normalizePriority. intros H.
  destruct (get row "name") as [v1|] eqn:E1; [|discriminate].
  destruct (get row "preferred_time") as [v2|] eqn:E2; [|discriminate].
  destruct (get row "duration") as [v3|] eqn:E3; [|discriminate].
  destruct (get row "priority") as [p|] eqn:E4; [|discriminate].
  destruct (get row "targets") as [v5|] eqn:E5; [|discriminate].
  destruct (get row "difficulty") as [v6|] eqn:E6; [|discriminate].
  cbn [mbind result_bind] in H.
  destruct (if truthy v5 then call_split v5 "," else Return (VArray [VString "productivity"]))
    as [split_targets|]; [|discriminate].
  cbn [mbind result_bind] in H. inversion H; subst. simpl.
  exists p. split; reflexivity.
Qed.

Lemma or_else_nonzero n fallback :
  n ≠ 0 → or_else (VNumber (Num n)) fallback = VNumber (Num n).
Proof.
  intros H. unfold or_else. simpl.
  destruct (n =? 0) eqn:E; [apply Z.eqb_eq in E; contradiction | reflexivity].
Qed.

(** What the normaliser does compute: the score of a flexible task is
    the row's own priority value when that value is truthy and 75
    otherwise, whatever the due date and the targets; of two rows whose
    priority values are numbers other than 0, the larger value gets the
    strictly higher score. *)
Lemma flexible_score_is_row_priority
    (index1 index2 : nat) (row1 row2 : value) (task1 task2 : Task) (p1 p2 : value) :
  normalizePriority index1 row1 = Return (Some task1) →
  normalizePriority index2 row2 = Return (Some task2) →
  get row1 "priority" = Return p1 →
  get row2 "priority" = Return p2 →
  priority_score task1 = or_else p1 (VNumber (Num 75))
  ∧ priority_score task2 = or_else p2 (VNumber (Num 75))
  ∧ ∀ n1 n2,
      p1 = VNumber (Num n1) → p2 = VNumber (Num n2) →
      n1 ≠ 0 → n2 ≠ 0 → n2 < n1 →
      js_gt (priority_score task1) (priority_score task2) = true.
Proof.
  intros H1 H2 Hp1 Hp2.
  destruct (normalizePriority_score _ _ _ H1) as (q1 & Hq1 & Hs1).
  destruct (normalizePriority_score _ _ _ H2) as (q2 & Hq2 & Hs2).
  rewrite Hp1 in Hq1. rewrite Hp2 in Hq2. inversion Hq1; inversion Hq2; subst q1 q2.
  split; [exact Hs1|]. split; [exact Hs2|].
  intros n1 n2 -> -> Hz1 Hz2 Hlt.
  rewrite Hs1, Hs2, !or_else_nonzero by assumption.
  unfold js_gt, js_lt. simpl. apply Z.ltb_lt. exact Hlt.
Qed.

Example numeric_priorities_rank :
  priority_score (Samples.numbered_task 0 90) = VNumber (Num 90)
  ∧ priority_score (Samples.numbered_task 1 50) = VNumber (Num 50)
  ∧ js_gt (priority_score (Samples.numbered_task 0 90))
          (priority_score (Samples.numbered_task 1 50)) = true.
Proof.
  destruct (flexible_score_is_row_priority 0 1
              (Samples.numbered_row 90) (Samples.numbered_row 50)
              (Samples.numbered_task 0 90) (Samples.numbered_task 1 50)
              (VNumber (Num 90)) (VNumber (Num 50))
              eq_refl eq_refl eq_refl eq_refl) as (H1 & H2 & H3).
  split; [exact H1|]. split; [exact H2|].
  apply (H3 90 50); [reflexivity | reflexivity | lia | lia | lia].
Qed.

(** C8, on the code. Two priority rows with the same due date and
    targets, one labelled critical and one labelled high, normalise to
    tasks whose scores are the two label texts: no weight, urgency or
    target term is computed, the score of the critical task is not
    greater than that of the high task, the packer's comparator yields
    [NaN] for the pair and its sort leaves the high task in front. *)
Theorem labels_do_not_rank_scores :
  ∃ critical_task high_task,
    normalizeTasks Samples.midnight_utc []
      [Samples.labelled_row "critical"; Samples.labelled_row "high"] []
      = Return [critical_task; high_task]
    ∧ priority_score critical_task = VString "critical"
    ∧ priority_score high_task = VString "high"
    ∧ js_gt (priority_score critical_task) (priority_score high_task) = false
    ∧ by_priority critical_task high_task = NaN
    ∧ by_priority high_task critical_task = NaN
    ∧ sort by_priority [high_task; critical_task] = [high_task; critical_task].
Proof.
  do 2 eexists. split; [reflexivity|]. repeat split.
Qed.

(** A priority row in the shape the sheet reader produces carries its
    targets as an array, which has no [split]: normalising it throws,
    and [generateDailySchedule] fails with it. *)
Lemma sheet_priority_row_rejected JSON_parse prefs existingEvents date userId http :
  normalizeTasks Samples.midnight_utc [] [Samples.sheet_priority_row] []
    = Throw TypeError
  ∧ generateDailySchedule JSON_parse prefs Samples.midnight_utc []
      [Samples.sheet_priority_row] [] existingEvents date userId http
    = Throw (Error "Failed to generate schedule").
Proof. split; reflexivity. Qed.

End Normaliser.

(** ** Conflict detection *)

Section Conflicts.
Import JS Calendar.





End Conflicts.

(** ** Notifications *)

Section Notifications.
Import JS Notifier.

Lemma find_absent {A} (f : A → bool) (l : list A) :
  (∀ x, In x l → f x = false) → List.find f l = None.
Proof.
  induction l as [|x l IH]; intros H; simpl; [reflexivity|].
  rewrite (H x) by (left; reflexivity).
  apply IH. intros y Hy. apply H. right. exact Hy.
Qed.

(** C10. For an id the registry does not hold,
    [handleNotificationAction], [snoozeNotification] and
    [deliverNotification] end normally and leave the service, with its
    registry, timers and subscribers, as it was; so does
    [handleNotificationAction] for an action id that the notification
    found does not carry. *)
Theorem unknown_ids_are_ignored
    (react : Callbacks) (now : Z) (notificationId actionId : string)
    (minutes : value) (s : Service) :
  (notifications s !! notificationId = None →
   handleNotificationAction now notificationId actionId s = Done s
   ∧ snoozeNotification now notificationId minutes s = Done s
   ∧ deliverNotification react now notificationId s = Done s)
  ∧ (∀ notification,
       notifications s !! notificationId = Some notification →
       (∀ a, In a (default [] (actions notification)) → action_id a ≠ actionId) →
       handleNotificationAction now notificationId actionId s = Done s).
Proof.
  split.
  - intros H. unfold handleNotificationAction, snoozeNotification, deliverNotification.
    rewrite H. auto.
  - intros notification H Hnone. unfold handleNotificationAction. rewrite H.
    destruct (actions notification) as [l|]; [|reflexivity].
    rewrite find_absent; [reflexivity|].
    intros a Ha. apply String.eqb_neq. apply Hnone. exact Ha.
Qed.

Lemma unknown_ids_are_ignored_witness :
  (handleNotificationAction Samples.nine "start_lab" "snooze" Samples.armed
     = Done Samples.armed
   ∧ snoozeNotification Samples.nine "start_lab" (VNumber (Num 5)) Samples.armed
     = Done Samples.armed
   ∧ deliverNotification Samples.nobody_leaves Samples.nine "start_lab" Samples.armed
     = Done Samples.armed)
  ∧ handleNotificationAction Samples.nine "start_essay" "cancel" Samples.armed
    = Done Samples.armed.
Proof.
  destruct (unknown_ids_are_ignored Samples.nobody_leaves Samples.nine "start_lab"
              "snooze" (VNumber (Num 5)) Samples.armed) as [Hmissing _].
  destruct (unknown_ids_are_ignored Samples.nobody_leaves Samples.nine "start_essay"
              "cancel" (VNumber (Num 5)) Samples.armed) as [_ Haction].
  split.
  - apply Hmissing. vm_compute. reflexivity.
  - eapply Haction.
    + vm_compute. reflexivity.
    + simpl. intros a [<-|[<-|[]]]; discriminate.
Defined.

(** *** Completion reports *)

Lemma status_is_text status text :
  status_is status text = true → status = VString text.
Proof.
  destruct status; simpl; try discriminate.
  intros H. apply String.eqb_eq in H. now subst.
Qed.

Lemma feedback_keeps_trace data now s :
  trace (sendCompletionFeedback data now s) = trace s
  ∧ completion_logs (sendCompletionFeedback data now s) = completion_logs s.
Proof. split; reflexivity. Qed.

(** C6, as the code has it. For a report of partial completion with R
    minutes remaining, R > 0, [handleTaskCompletion] builds one
    incomplete-task record with R as remaining duration, the actual
    duration as original duration when it is present and not 0 and 60
    otherwise, progress 50 and the current UTC day as source date. When
    the remaining minutes are absent, 0 or negative it builds no record
    and stores no completion log. *)
Theorem partial_report_migrates_remainder
    (data : TaskCompletionData) (now : Z) (s : Service) :
  status_is (completion_status data) "partially_completed" = true →
  (∀ R, remainingMinutes data = Some R → 0 < R →
     ∃ record,
       trace (handleTaskCompletion data now s) = trace s ++ [IncompleteTaskCreated record]
       ∧ remainingDuration record = R
       ∧ originalDuration record
         = match actualDuration data with
           | Some spent => if spent =? 0 then 60 else spent
           | None => 60
           end
       ∧ progress record = 50
       ∧ sourceDate record = utc_day now
       ∧ completion_logs (handleTaskCompletion data now s) = completion_logs s)
  ∧ ((remainingMinutes data = None ∨ ∃ R, remainingMinutes data = Some R ∧ R ≤ 0) →
     trace (handleTaskCompletion data now s) = trace s
     ∧ completion_logs (handleTaskCompletion data now s) = completion_logs s).
Proof.
  intros Hstatus. apply status_is_text in Hstatus.
  unfold handleTaskCompletion. rewrite Hstatus. simpl status_is. cbv iota.
  unfold processPartiallyCompletedTask. split.
  - intros R HR Hpos. rewrite HR.
    assert (HR0 : (R =? 0) = false) by (apply Z.eqb_neq; lia).
    assert (HRp : (R >? 0) = true) by (rewrite Z.gtb_ltb; apply Z.ltb_lt; lia).
    rewrite HR0, HRp. simpl.
    exists (incompleteTask data now). split; [reflexivity|].
    unfold incompleteTask. simpl. rewrite HR, Hstatus. simpl. rewrite HR0.
    repeat split; reflexivity.
  - intros [HR|(R & HR & Hle)]; rewrite HR.
    + split; reflexivity.
    + destruct (R =? 0) eqn:E0; simpl; [split; reflexivity|].
      assert (HRp : (R >? 0) = false) by (rewrite Z.gtb_ltb; apply Z.ltb_ge; lia).
      rewrite HRp. split; reflexivity.
Qed.

Lemma partial_report_migrates_remainder_witness :
  ∃ record,
    trace (handleTaskCompletion (Samples.partial_report (Some 30) (Some 90))
             Samples.nine initial)
      = [IncompleteTaskCreated record]
    ∧ remainingDuration record = 30
    ∧ originalDuration record = 90
    ∧ progress record = 50.
Proof.
  destruct (partial_report_migrates_remainder
              (Samples.partial_report (Some 30) (Some 90)) Samples.nine initial eq_refl)
    as [Hmigrates _].
  destruct (Hmigrates 30 eq_refl ltac:(lia)) as (record & Ht & Hr & Ho & Hp & _).
  exists record. split; [exact Ht|]. split; [exact Hr|]. split; [exact Ho|exact Hp].
Defined.

(** C6, where it fails. A partial report with 30 minutes remaining and
    no actual duration gets 60, not 30, as its original duration. A
    partial report with no remaining minutes is not handled as a
    completed one: the completed report stores a completion log, the
    partial one stores none, and the two feedback messages differ. *)
Lemma partial_report_defaults :
  originalDuration (incompleteTask (Samples.partial_report (Some 30) None) Samples.nine) = 60
  ∧ trace (handleTaskCompletion (Samples.partial_report (Some 30) None) Samples.nine initial)
    = [IncompleteTaskCreated
         (incompleteTask (Samples.partial_report (Some 30) None) Samples.nine)]
  ∧ completion_logs
      (handleTaskCompletion (Samples.partial_report None (Some 90)) Samples.nine initial)
    = []
  ∧ length (completion_logs
              (handleTaskCompletion (Samples.completed_report (Some 90)) Samples.nine initial))
    = 1%nat
  ∧ handleTaskCompletion (Samples.partial_report None (Some 90)) Samples.nine initial
    ≠ handleTaskCompletion (Samples.completed_report (Some 90)) Samples.nine initial.
Proof.
  repeat split. intros H. apply (f_equal completion_logs) in H. discriminate H.
Qed.

(** *** Broadcasts *)

Lemma emit_emit e1 e2 s : emit e2 (emit e1 s) = emit (e1 ++ e2) s.
Proof. unfold emit. simpl. now rewrite app_assoc. Qed.

Lemma emit_nil s : emit [] s = s.
Proof. unfold emit. rewrite app_nil_r. destruct s; reflexivity. Qed.

Lemma set_subscribers_same s : set_subscribers (subscribers s) s = s.
Proof. destruct s; reflexivity. Qed.

(** When the callbacks do nothing to the service, a broadcast calls
    every subscriber once, in subscription order. *)
Lemma forEach_from_quiet (react : Callbacks) notification (rest before : list nat) s :
  subscribers s = before ++ rest →
  (∀ cb, In cb rest → ∀ n s', react cb n s' = Done s') →
  forEach_from react notification (length rest) (length before) s
  = Done (emit (map (fun cb => Called cb notification) rest) s).
Proof.
  revert before s. induction rest as [|cb rest IH]; intros before s Hs Hq; simpl.
  - now rewrite emit_nil.
  - rewrite Hs, lookup_app_r by lia. rewrite Nat.sub_diag. simpl.
    rewrite (Hq cb) by (left; reflexivity).
    replace (S (length before)) with (length (before ++ [cb]))
      by (rewrite length_app; simpl; lia).
    rewrite IH.
    + now rewrite emit_emit.
    + simpl. now rewrite Hs, <- app_assoc.
    + intros x Hx. apply Hq. right. exact Hx.
Qed.

Lemma broadcast_reaches_all (react : Callbacks) notification s :
  (∀ cb, In cb (subscribers s) → ∀ n s', react cb n s' = Done s') →
  notifySubscribers react notification s
  = Done (emit (map (fun cb => Called cb notification) (subscribers s)) s).
Proof.
  intros Hq. unfold notifySubscribers.
  apply (forEach_from_quiet react notification (subscribers s) [] s); auto.
Qed.

(** C9, on the code. With subscribers 1 and 2 registered in that order
    and subscriber 1 unsubscribing itself when called, a broadcast
    calls subscriber 1 only: subscriber 2, subscribed when the
    broadcast began and still subscribed after it, is never called.
    The broadcast does end normally. *)
Theorem broadcast_skips_after_unsubscribe :
  subscribers Samples.armed = [1%nat; 2%nat]
  ∧ ∀ notification,
      ∃ s',
        notifySubscribers Samples.first_leaves notification Samples.armed = Done s'
        ∧ trace s' = [Called 1 notification]
        ∧ subscribers s' = [2%nat].
Proof.
  split; [reflexivity|]. intros notification.
  eexists. split; [reflexivity|]. split; reflexivity.
Qed.

(** *** Snoozing *)


(** What [snoozeNotification] has done by the time it computes the new
    time: the timeout that [timers] holds for the id is cancelled. *)
Lemma snooze_cancels k s :
  let s0 := match timers s !! k with
            | Some existingTimer => clearTimeout existingTimer s
            | None => s
            end in
  pending s0 = List.filter (fun t => negb (registered k s t)) (pending s)
  ∧ notifications s0 = notifications s ∧ timers s0 = timers s
  ∧ subscribers s0 = subscribers s ∧ trace s0 = trace s
  ∧ next_handle s0 = next_handle s.
Proof.
  unfold registered. destruct (timers s !! k); simpl; repeat split.
  induction (pending s) as [|t l IH]; simpl; [reflexivity|]. now rewrite <- IH.
Qed.



(** A snooze that cannot be dated, its minutes being no number or
    leading outside the range of Date, throws [RangeError] once the
    timeout held in [timers] is cancelled and [delivered] is reset:
    no timeout is armed, and the handle of the cancelled one stays in
    [timers]. *)
Lemma snooze_fails_undated
    (now : Z) (k : string) (minutes : value) (s : Service)
    (notification : NotificationConfig) :
  notifications s !! k = Some notification →
  (ToNumber minutes = NaN
   ∨ ∃ m, ToNumber minutes = Num m ∧ ¬ within_range (now + m * 60 * 1000)) →
  ∃ s',
    snoozeNotification now k minutes s = Raised RangeError s'
    ∧ notifications s' = <[k := with_delivered false notification]> (notifications s)
    ∧ pending s' = List.filter (fun t => negb (registered k s t)) (pending s)
    ∧ timers s' = timers s
    ∧ trace s' = trace s.
Proof.
  intros Hn Hbad. unfold snoozeNotification. rewrite Hn.
  destruct (snooze_cancels k s) as (Hpending & Hns & Hts & _ & Htr & _).
  set (s0 := match timers s !! k with
             | Some existingTimer => clearTimeout existingTimer s
             | None => s
             end) in *.
  destruct Hbad as [Hnan|(m & Hm & Hout)].
  - rewrite Hnan. simpl. eexists. split; [reflexivity|]. simpl.
    rewrite Hns, Hpending, Hts, Htr. repeat split.
  - rewrite Hm. simpl num_mul. cbv iota.
    rewrite (TimeClip_outside _ Hout). simpl.
    eexists. split; [reflexivity|]. simpl.
    rewrite Hns, Hpending, Hts, Htr. repeat split.
Qed.


(** *** Delivery *)

Lemma called_about_app k tr1 tr2 :
  called_about k (tr1 ++ tr2) = called_about k tr1 ++ called_about k tr2.
Proof. apply flat_map_app. Qed.

Lemma dispatched_app k tr1 tr2 :
  dispatched k (tr1 ++ tr2) = (dispatched k tr1 + dispatched k tr2)%nat.
Proof. unfold dispatched. now rewrite List.filter_app, length_app. Qed.

Lemma called_about_calls k n called :
  called_about k (map (fun cb => Called cb n) called)
  = if String.eqb (id n) k then called else [].
Proof.
  unfold called_about. destruct (String.eqb (id n) k) eqn:E.
  - induction called as [|cb called IH]; simpl; [reflexivity|].
    now rewrite E, IH.
  - induction called as [|cb called IH]; simpl; [reflexivity|].
    now rewrite E, IH.
Qed.

Lemma dispatched_calls k n called :
  dispatched k (map (fun cb => Called cb n) called) = 0%nat.
Proof. induction called as [|cb called IH]; [reflexivity | exact IH]. Qed.

Lemma calls_inj (n : NotificationConfig) (l1 l2 : list nat) :
  map (fun cb => Called cb n) l1 = map (fun cb => Called cb n) l2 → l1 = l2.
Proof.
  revert l2. induction l1 as [|x l1 IH]; intros [|y l2] H; simpl in H;
    try discriminate; [reflexivity|].
  inversion H; subst. f_equal. apply IH. assumption.
Qed.

(** One pass over the subscribers, for callbacks that keep to the
    subscriber list: the service changes in its subscribers and in the
    calls recorded; at most as many callbacks are called as were
    subscribed when the pass began, the first of them first. *)
Lemma forEach_from_onlooker (react : Callbacks) n :
  onlooker react →
  ∀ remaining k s,
    ∃ subs called,
      state_of (forEach_from react n remaining k s)
      = emit (map (fun cb => Called cb n) called) (set_subscribers subs s)
      ∧ (length called ≤ remaining)%nat
      ∧ (∀ cb, subscribers s !! k = Some cb → (0 < remaining)%nat →
               ∃ more, called = cb :: more).
Proof.
  intros Hon. induction remaining as [|remaining IH]; intros k s; simpl.
  - exists (subscribers s), []. rewrite emit_nil, set_subscribers_same.
    split; [reflexivity|]. split; [simpl; lia|]. intros cb _ H. lia.
  - destruct (subscribers s !! k) as [cb|] eqn:Hk.
    + destruct (Hon cb n (emit [Called cb n] s)) as (subs1 & Hs1).
      destruct (react cb n (emit [Called cb n] s)) as [s1|e s1]; simpl in Hs1; subst s1.
      * destruct (IH (S k) (set_subscribers subs1 (emit [Called cb n] s)))
          as (subs & called & Hst & Hlen & _).
        exists subs, (cb :: called). rewrite Hst. split; [|split].
        -- unfold emit. simpl. now rewrite <- app_assoc.
        -- simpl. lia.
        -- intros cb' Hcb' _. inversion Hcb'. eauto.
      * exists subs1, [cb]. split; [reflexivity|]. split; [simpl; lia|].
        intros cb' Hcb' _. inversion Hcb'. eauto.
    + destruct (IH (S k) s) as (subs & called & Hst & Hlen & _).
      exists subs, called. split; [exact Hst|]. split; [lia|].
      intros cb Hcb. discriminate.
Qed.

(** What a timer task for [k] does when [k] is registered and not yet
    delivered, for callbacks that keep to the subscriber list. *)
Lemma deliver_fresh react now k s n :
  onlooker react →
  notifications s !! k = Some n →
  delivered n = false →
  let n' := with_delivered true n in
  let shown := (if permission_granted s then [BrowserNotification n'] else [])
               ++ [Dispatched n'] in
  ∃ subs called tail extra,
    let s' := deliver_task react now k s in
    notifications s' = <[k := n']> (notifications s)
    ∧ subscribers s' = subs
    ∧ timers s' = timers s
    ∧ trace s' = trace s ++ map (fun cb => Called cb n') called ++ tail
    ∧ pending s' = pending s ++ extra
    ∧ (∀ t, In t extra → handle t = next_handle s)
    ∧ (length called ≤ length (subscribers s))%nat
    ∧ (∀ cb rest, subscribers s = cb :: rest → ∃ more, called = cb :: more)
    ∧ ((∀ cb, In cb (subscribers s) → ∀ n0 s0, react cb n0 s0 = Done s0) →
       called = subscribers s)
    ∧ (tail = shown ∨ ∃ e, tail = [Uncaught e])
    ∧ (returning react → tail = shown).
Proof.
  intros Hon Hn Hd n' shown. unfold deliver_task, deliverNotification.
  rewrite Hn, Hd. fold n'.
  set (s0 := set_notifications (<[k := n']> (notifications s)) s).
  destruct (forEach_from_onlooker react n' Hon (length (subscribers s0)) 0 s0)
    as (subs & called & Hst & Hlen & Hfirst).
  assert (Hquiet : (∀ cb, In cb (subscribers s) → ∀ n0 s1, react cb n0 s1 = Done s1) →
                   notifySubscribers react n' s0
                   = Done (emit (map (fun cb => Called cb n') (subscribers s)) s0)).
  { intros Hq. apply (broadcast_reaches_all react n' s0). exact Hq. }
  assert (Hret : returning react →
                 ∀ remaining k0 s1, ∃ s2, forEach_from react n' remaining k0 s1 = Done s2).
  { intros Hr remaining. induction remaining as [|remaining IHr]; intros k0 s1; simpl;
      [eexists; reflexivity|].
    destruct (subscribers s1 !! k0) as [cb|]; [|apply IHr].
    destruct (Hr cb n' (emit [Called cb n'] s1)) as (s2 & ->). apply IHr. }
  unfold notifySubscribers in *.
  assert (Hfirst' : ∀ cb rest, subscribers s = cb :: rest → ∃ more, called = cb :: more).
  { intros cb rest Hs. apply (Hfirst cb); subst s0; simpl; rewrite Hs; simpl;
      [reflexivity|lia]. }
  destruct (forEach_from react n' (length (subscribers s0)) 0 s0) as [s1|e s1] eqn:Hrun;
    simpl in Hst; subst s1.
  - assert (Hcalled : (∀ cb, In cb (subscribers s) →
                             ∀ n0 s1, react cb n0 s1 = Done s1) →
                      called = subscribers s).
    { intros Hq. specialize (Hquiet Hq).
      pose proof (f_equal (fun o => trace (state_of o)) Hquiet) as Heq.
      simpl in Heq. apply app_inv_head in Heq.
      apply (calls_inj n'). exact Heq. }
    exists subs, called, shown.
    exists (if permission_granted s
            then [{| handle := next_handle s;
                     callback := CloseBrowserNotification (id n');
                     due := now + 10000 |}]
            else []).
    cbn zeta. simpl permission_granted. subst shown.
    destruct (permission_granted s); simpl; rewrite <- ?app_assoc, ?app_nil_r; simpl.
    + split; [reflexivity|]. split; [reflexivity|]. split; [reflexivity|].
      split; [reflexivity|]. split; [reflexivity|].
      split; [intros t [<-|[]]; reflexivity|].
      split; [exact Hlen|]. split; [exact Hfirst'|]. split; [exact Hcalled|]. auto.
    + split; [reflexivity|]. split; [reflexivity|]. split; [reflexivity|].
      split; [reflexivity|]. split; [reflexivity|].
      split; [intros t []|].
      split; [exact Hlen|]. split; [exact Hfirst'|]. split; [exact Hcalled|]. auto.
  - exists subs, called, [Uncaught e], []. cbn zeta. simpl.
    rewrite <- ?app_assoc, ?app_nil_r.
    split; [reflexivity|]. split; [reflexivity|]. split; [reflexivity|].
    split; [reflexivity|]. split; [reflexivity|].
    split; [intros t []|].
    split; [exact Hlen|]. split; [exact Hfirst'|].
    split; [intros Hq; specialize (Hquiet Hq); discriminate Hquiet|].
    split; [right; eauto|].
    intros Hr. destruct (Hret Hr (length (subscribers s0)) 0%nat s0) as (s1 & Hs1).
    rewrite Hrun in Hs1. discriminate Hs1.
Qed.

Lemma deliver_settled react now k s n :
  notifications s !! k = Some n → delivered n = true →
  deliverNotification react now k s = Done s.
Proof. intros Hn Hd. unfold deliverNotification. now rewrite Hn, Hd. Qed.

Lemma deliver_task_settled react now k s n :
  notifications s !! k = Some n → delivered n = true →
  deliver_task react now k s = s.
Proof. intros Hn Hd. unfold deliver_task. now rewrite (deliver_settled _ _ _ _ _ Hn Hd). Qed.

Lemma deliver_task_missing react now k s :
  notifications s !! k = None → deliver_task react now k s = s.
Proof. intros Hn. unfold deliver_task, deliverNotification. now rewrite Hn. Qed.

(** What the effects after the calls of a delivery say about [k]. *)
Lemma tail_about k s n tail :
  (tail = (if permission_granted s then [BrowserNotification n] else []) ++ [Dispatched n]
   ∨ ∃ e, tail = [Uncaught e]) →
  called_about k tail = []
  ∧ (dispatched k tail ≤ if String.eqb (id n) k then 1 else 0)%nat
  ∧ (tail = (if permission_granted s then [BrowserNotification n] else [])
            ++ [Dispatched n] →
     dispatched k tail = if String.eqb (id n) k then 1%nat else 0%nat).
Proof.
  intros [->|(e & ->)].
  - destruct (permission_granted s); unfold dispatched; simpl;
      destruct (String.eqb (id n) k); simpl; repeat split; auto.
  - unfold dispatched. simpl. split; [reflexivity|]. split.
    + destruct (String.eqb (id n) k); lia.
    + destruct (permission_granted s); discriminate.
Qed.

Lemma onlooker_leaves_alone k react : onlooker react → leaves_alone k react.
Proof.
  intros Hon cb n s. destruct (Hon cb n s) as (subs & Hs). cbn zeta. rewrite Hs.
  repeat split. intros Hw. exact Hw.
Qed.

Lemma returning_forEach (react : Callbacks) n :
  returning react →
  ∀ remaining i s, ∃ s', forEach_from react n remaining i s = Done s'.
Proof.
  intros Hr. induction remaining as [|remaining IH]; intros i s; simpl;
    [eexists; reflexivity|].
  destruct (subscribers s !! i) as [cb|]; [|apply IH].
  destruct (Hr cb n (emit [Called cb n] s)) as (s1 & ->). apply IH.
Qed.

(** One pass over the subscribers with notification [n], for callbacks
    that leave notification [k] alone: the entry of [k] and the page
    events recorded for it stay, and the calls recorded for it grow by
    the callbacks called when [n] is registered under [k]; at most as
    many callbacks are called as the pass has indices, the one found
    at the first index first. *)
Lemma forEach_from_about (react : Callbacks) k n :
  leaves_alone k react →
  ∀ remaining i s,
    well_keyed s →
    ∃ called,
      let s' := state_of (forEach_from react n remaining i s) in
      notifications s' !! k = notifications s !! k
      ∧ called_about k (trace s')
        = called_about k (trace s) ++ (if String.eqb (id n) k then called else [])
      ∧ dispatched k (trace s') = dispatched k (trace s)
      ∧ well_keyed s'
      ∧ (length called ≤ remaining)%nat
      ∧ (∀ cb, subscribers s !! i = Some cb → (0 < remaining)%nat →
               ∃ more, called = cb :: more).
Proof.
  intros Hk. induction remaining as [|remaining IH]; intros i s Hw; simpl.
  - exists []. destruct (String.eqb (id n) k); rewrite app_nil_r;
      repeat split; auto; intros; lia.
  - destruct (subscribers s !! i) as [cb|] eqn:Hi.
    + destruct (Hk cb n (emit [Called cb n] s)) as (Hn1 & Hc1 & Hd1 & Hw1).
      cbn zeta in Hn1, Hc1, Hd1, Hw1. specialize (Hw1 Hw).
      simpl in Hn1, Hc1, Hd1.
      rewrite called_about_app in Hc1. rewrite dispatched_app in Hd1.
      change (called_about k [Called cb n])
        with ((if String.eqb (id n) k then [cb] else []) ++ []) in Hc1.
      change (dispatched k [Called cb n]) with 0%nat in Hd1.
      rewrite app_nil_r in Hc1. rewrite Nat.add_0_r in Hd1.
      destruct (react cb n (emit [Called cb n] s)) as [s1|e s1]; simpl in *.
      * destruct (IH (S i) s1 Hw1) as (called & Hn2 & Hc2 & Hd2 & Hw2 & Hlen & _).
        cbn zeta in Hn2, Hc2, Hd2, Hw2.
        exists (cb :: called). rewrite Hn2, Hc2, Hd2, Hn1, Hc1, Hd1.
        split; [reflexivity|]. split.
        { rewrite <- app_assoc. destruct (String.eqb (id n) k); reflexivity. }
        split; [reflexivity|]. split; [exact Hw2|]. split; [simpl; lia|].
        intros cb' Hcb' _. inversion Hcb'. eauto.
      * exists [cb]. rewrite Hn1, Hc1, Hd1.
        split; [reflexivity|]. split; [reflexivity|].
        split; [reflexivity|]. split; [exact Hw1|]. split; [simpl; lia|].
        intros cb' Hcb' _. inversion Hcb'. eauto.
    + destruct (IH (S i) s Hw) as (called & Hn2 & Hc2 & Hd2 & Hw2 & Hlen & _).
      exists called. repeat (split; [assumption|]). split; [lia|].
      intros cb Hcb. discriminate.
Qed.

(** What a timer task for [k] does about [k] when [k] is registered
    and not yet delivered. *)
Lemma deliver_task_fresh react now k s n :
  leaves_alone k react →
  well_keyed s →
  notifications s !! k = Some n →
  delivered n = false →
  let s' := deliver_task react now k s in
  notifications s' !! k = Some (with_delivered true n)
  ∧ well_keyed s'
  ∧ (∃ called,
       called_about k (trace s') = called_about k (trace s) ++ called
       ∧ (length called ≤ length (subscribers s))%nat
       ∧ (∀ cb rest, subscribers s = cb :: rest → ∃ more, called = cb :: more)
       ∧ ((∀ cb, In cb (subscribers s) → ∀ n0 s0, react cb n0 s0 = Done s0) →
          called = subscribers s))
  ∧ (dispatched k (trace s') ≤ S (dispatched k (trace s)))%nat
  ∧ (returning react → dispatched k (trace s') = S (dispatched k (trace s))).
Proof.
  intros Hk Hw Hn Hd. cbn zeta. unfold deliver_task, deliverNotification.
  rewrite Hn, Hd.
  set (n' := with_delivered true n).
  assert (Hidn : id n' = k) by apply (Hw _ _ Hn).
  clearbody n'.
  set (s0 := set_notifications (<[k := n']> (notifications s)) s).
  assert (Hid : String.eqb (id n') k = true).
  { rewrite Hidn. apply String.eqb_refl. }
  assert (Hw0 : well_keyed s0).
  { intros k0 n0. simpl. rewrite lookup_insert.
    destruct (decide (k = k0)) as [<-|Hne]; [|apply Hw].
    intros H. inversion H; subst n0. exact Hidn. }
  unfold notifySubscribers.
  destruct (forEach_from_about react k n' Hk (length (subscribers s0)) 0 s0 Hw0)
    as (called & Hn1 & Hc1 & Hd1 & Hw1 & Hlen & Hfirst).
  cbn zeta in Hn1, Hc1, Hd1, Hw1. rewrite Hid in Hc1.
  assert (Hn0 : notifications s0 !! k = Some n') by (simpl; apply lookup_insert_eq).
  rewrite Hn0 in Hn1.
  change (trace s0) with (trace s) in Hc1, Hd1.
  change (subscribers s0) with (subscribers s) in Hlen, Hfirst.
  assert (Hfirst' : ∀ cb rest, subscribers s = cb :: rest → ∃ more, called = cb :: more).
  { intros cb rest Hs. apply (Hfirst cb); rewrite Hs; simpl; [reflexivity|lia]. }
  assert (Hquiet : (∀ cb, In cb (subscribers s) → ∀ n0 s1, react cb n0 s1 = Done s1) →
                   called = subscribers s).
  { intros Hq.
    pose proof (forEach_from_quiet react n' (subscribers s) [] s0 eq_refl Hq) as Hrun.
    simpl in Hrun. change (subscribers s0) with (subscribers s) in Hc1.
    rewrite Hrun in Hc1. simpl in Hc1.
    rewrite called_about_app, called_about_calls, Hid in Hc1.
    apply app_inv_head in Hc1. symmetry. exact Hc1. }
  change (subscribers s0) with (subscribers s) in *.
  destruct (forEach_from react n' (length (subscribers s)) 0 s0) as [s1|e s1] eqn:Hrun;
    simpl in Hn1, Hc1, Hd1, Hw1.
  - assert (Hshown : ∀ s2, notifications s2 = notifications s1 →
                           trace s2 = trace s1 ∨ trace s2 = trace s1 ++ [BrowserNotification n'] →
                           let s3 := showCustomNotification n' s2 in
                           notifications s3 !! k = Some n'
                           ∧ well_keyed s3
                           ∧ called_about k (trace s3) = called_about k (trace s) ++ called
                           ∧ dispatched k (trace s3) = S (dispatched k (trace s))).
    { intros s2 Hns Htr. cbn zeta. unfold showCustomNotification. simpl.
      rewrite Hns. split; [exact Hn1|].
      split; [intros k0 n0; simpl; rewrite Hns; apply Hw1|].
      rewrite called_about_app, dispatched_app.
      unfold dispatched at 2. simpl. rewrite Hid. simpl.
      destruct Htr as [->| ->].
      - rewrite Hc1, Hd1, app_nil_r. split; [reflexivity|lia].
      - rewrite called_about_app, dispatched_app, Hc1, Hd1. simpl.
        rewrite !app_nil_r. split; [reflexivity|]. unfold dispatched at 2. simpl. lia. }
    destruct (permission_granted s1).
    + destruct (Hshown (snd (setTimeout (CloseBrowserNotification (id n')) 10000 now
                               (emit [BrowserNotification n'] s1))))
        as (G1 & G2 & G3 & G4); [reflexivity|right; reflexivity|].
      split; [exact G1|]. split; [exact G2|]. split; [eauto|].
      split; [rewrite G4; lia|]. intros _. exact G4.
    + destruct (Hshown s1) as (G1 & G2 & G3 & G4); [reflexivity|left; reflexivity|].
      split; [exact G1|]. split; [exact G2|]. split; [eauto|].
      split; [rewrite G4; lia|]. intros _. exact G4.
  - simpl. split; [exact Hn1|]. split; [exact Hw1|].
    rewrite called_about_app, dispatched_app. simpl. rewrite app_nil_r.
    split; [eauto|]. unfold dispatched at 2. simpl. split; [lia|].
    intros Hr. destruct (returning_forEach react n' Hr (length (subscribers s)) 0%nat s0)
      as (s2 & Hs2).
    rewrite Hrun in Hs2. discriminate Hs2.
Qed.

(** A timer task for another notification leaves [k] and what is
    recorded about [k] alone. *)
Lemma deliver_other react now k k' s :
  leaves_alone k react → well_keyed s → k' ≠ k →
  let s' := deliver_task react now k' s in
  notifications s' !! k = notifications s !! k
  ∧ called_about k (trace s') = called_about k (trace s)
  ∧ dispatched k (trace s') = dispatched k (trace s)
  ∧ well_keyed s'.
Proof.
  intros Hk Hw Hne. cbn zeta. destruct (notifications s !! k') as [n|] eqn:Hn;
    [|now rewrite (deliver_task_missing _ _ _ _ Hn)].
  destruct (delivered n) eqn:Hd; [now rewrite (deliver_task_settled _ _ _ _ _ Hn Hd)|].
  unfold deliver_task, deliverNotification. rewrite Hn, Hd.
  set (n' := with_delivered true n).
  assert (Hidn : id n' = k') by apply (Hw _ _ Hn).
  clearbody n'.
  set (s0 := set_notifications (<[k' := n']> (notifications s)) s).
  assert (Hid : String.eqb (id n') k = false).
  { rewrite Hidn. now apply String.eqb_neq. }
  assert (Hw0 : well_keyed s0).
  { intros k0 n0. simpl. rewrite lookup_insert.
    destruct (decide (k' = k0)) as [<-|Hne0]; [|apply Hw].
    intros H. inversion H; subst n0. exact Hidn. }
  unfold notifySubscribers.
  destruct (forEach_from_about react k n' Hk (length (subscribers s0)) 0 s0 Hw0)
    as (called & Hn1 & Hc1 & Hd1 & Hw1 & _).
  cbn zeta in Hn1, Hc1, Hd1, Hw1. rewrite Hid, app_nil_r in Hc1.
  assert (Hn0 : notifications s0 !! k = notifications s !! k)
    by (simpl; now apply lookup_insert_ne).
  rewrite Hn0 in Hn1. change (trace s0) with (trace s) in Hc1, Hd1.
  destruct (forEach_from react n' (length (subscribers s0)) 0 s0) as [s1|e s1];
    simpl in Hn1, Hc1, Hd1, Hw1.
  - destruct (permission_granted s1); unfold showCustomNotification; simpl;
      rewrite ?called_about_app, ?dispatched_app, Hc1, Hd1;
      unfold dispatched at 2; try unfold dispatched at 2; simpl; rewrite Hid; simpl;
      rewrite ?app_nil_r, ?Nat.add_0_r;
      (split; [exact Hn1|]); (split; [reflexivity|]); (split; [reflexivity|exact Hw1]).
  - simpl. rewrite called_about_app, dispatched_app, Hc1, Hd1. simpl.
    rewrite app_nil_r. unfold dispatched at 2. simpl. rewrite Nat.add_0_r.
    split; [exact Hn1|]. split; [reflexivity|]. split; [reflexivity|exact Hw1].
Qed.

(** Once delivered, further timers change nothing about [k]. *)
Lemma deliver_all_settled react k n attempts :
  leaves_alone k react →
  delivered n = true →
  ∀ s, well_keyed s → notifications s !! k = Some n →
       let s' := deliver_all react attempts s in
       notifications s' !! k = Some n
       ∧ called_about k (trace s') = called_about k (trace s)
       ∧ dispatched k (trace s') = dispatched k (trace s).
Proof.
  intros Hon Hd. induction attempts as [|[now k'] attempts IH]; intros s Hw Hn; simpl.
  - auto.
  - destruct (decide (k' = k)) as [->|Hne].
    + rewrite (deliver_task_settled _ _ _ _ _ Hn Hd). apply IH; assumption.
    + destruct (deliver_other react now k k' s Hon Hw Hne) as (Hsame & Hc & Hp & Hw').
      destruct (IH (deliver_task react now k' s)) as (H1 & H2 & H3).
      * exact Hw'.
      * simpl in Hsame. now rewrite Hsame.
      * simpl in *. rewrite H1, H2, H3, Hc, Hp. auto.
Qed.

(** C5. From a state in which a notification is registered and not yet
    delivered, take any sequence of timers firing that includes one for
    it, the callbacks leaving the notification alone (none of them
    arms or snoozes it again: the sequence stays within one arming;
    they may do anything else and may throw). Until the first of its
    timers fires the notification stays undelivered and nobody is
    called about it. That firing sets the flag and broadcasts once: at
    most as many callbacks are called as were subscribed then, the
    first subscriber first, and exactly the subscribers in their order
    when the callbacks do nothing to the service; the page is told at
    most once, and once when the callbacks return. Whatever fires
    afterwards changes nothing about the notification, and delivering
    it again ends normally and is a no-op. *)
Theorem delivered_once_per_arming
    (react : Callbacks) (attempts : list (Z * string)) (k : string)
    (n : NotificationConfig) (s : Service) :
  leaves_alone k react →
  well_keyed s →
  notifications s !! k = Some n →
  delivered n = false →
  In k (map snd attempts) →
  ∃ before now after,
    attempts = before ++ (now, k) :: after
    ∧ ¬ In k (map snd before)
    ∧ let s0 := deliver_all react before s in
      let s1 := deliver_task react now k s0 in
      let s' := deliver_all react attempts s in
      notifications s0 !! k = Some n
      ∧ called_about k (trace s0) = called_about k (trace s)
      ∧ dispatched k (trace s0) = dispatched k (trace s)
      ∧ notifications s1 !! k = Some (with_delivered true n)
      ∧ (∃ called,
           called_about k (trace s1) = called_about k (trace s0) ++ called
           ∧ (length called ≤ length (subscribers s0))%nat
           ∧ (∀ cb rest, subscribers s0 = cb :: rest → ∃ more, called = cb :: more)
           ∧ ((∀ cb, In cb (subscribers s0) → ∀ n0 s2, react cb n0 s2 = Done s2) →
              called = subscribers s0))
      ∧ (dispatched k (trace s1) ≤ S (dispatched k (trace s0)))%nat
      ∧ (returning react → dispatched k (trace s1) = S (dispatched k (trace s0)))
      ∧ notifications s' !! k = Some (with_delivered true n)
      ∧ called_about k (trace s') = called_about k (trace s1)
      ∧ dispatched k (trace s') = dispatched k (trace s1)
      ∧ ∀ now', deliverNotification react now' k s' = Done s'.
Proof.
  intros Hon Hw Hn Hd Hin. revert s Hw Hn Hin.
  induction attempts as [|[now k'] attempts IH]; intros s Hw Hn Hin; [destruct Hin|].
  destruct (decide (k' = k)) as [->|Hne].
  - exists [], now, attempts. split; [reflexivity|]. split; [intros []|].
    cbn zeta. change (deliver_all react [] s) with s.
    change (deliver_all react ((now, k) :: attempts) s)
      with (deliver_all react attempts (deliver_task react now k s)).
    destruct (deliver_task_fresh react now k s n Hon Hw Hn Hd)
      as (Hk1 & Hw1 & Hcalled & Hle & Hret).
    cbn zeta in *.
    destruct (deliver_all_settled react k (with_delivered true n) attempts Hon eq_refl
                (deliver_task react now k s)) as (H1 & H2 & H3);
      [exact Hw1|exact Hk1|].
    cbn zeta in *.
    split; [exact Hn|]. split; [reflexivity|]. split; [reflexivity|].
    split; [exact Hk1|]. split; [exact Hcalled|]. split; [exact Hle|].
    split; [exact Hret|].
    split; [exact H1|]. split; [exact H2|]. split; [exact H3|].
    intros now'. apply (deliver_settled _ _ _ _ _ H1). reflexivity.
  - destruct (deliver_other react now k k' s Hon Hw Hne) as (Hsame & Hc & Hp & Hw').
    cbn zeta in Hsame, Hc, Hp, Hw'.
    destruct (IH (deliver_task react now k' s)) as (before & now0 & after & Heq & Hnot & H).
    + exact Hw'.
    + now rewrite Hsame.
    + destruct Hin as [Hk|Hin]; [simpl in Hk; contradiction | exact Hin].
    + exists ((now, k') :: before), now0, after.
      split; [simpl; now rewrite Heq|].
      split; [simpl; intros [Hk|Hk]; [contradiction|exact (Hnot Hk)]|].
      cbn zeta in *. simpl deliver_all.
      change (fold_left (fun s attempt => deliver_task react attempt.1 attempt.2 s)
                before (deliver_task react now k' s))
        with (deliver_all react before (deliver_task react now k' s)).
      change (fold_left (fun s attempt => deliver_task react attempt.1 attempt.2 s)
                attempts (deliver_task react now k' s))
        with (deliver_all react attempts (deliver_task react now k' s)).
      destruct H as (G1 & G2 & G3 & G4 & G5 & G6 & G7 & G8 & G9 & G10 & G11).
      rewrite Hc in G2. rewrite Hp in G3.
      repeat (split; [assumption|]). assumption.
Qed.

(** A pending timeout that delivers [k] runs the timer task for [k]
    when the host fires it. *)
Lemma fire_delivers react now h k s t :
  List.find (fun t => Pos.eqb (handle t) h) (pending s) = Some t →
  callback t = DeliverLater k →
  fire react now h s = deliver_task react now k (clearTimeout h s).
Proof. intros Hf Hc. unfold fire. now rewrite Hf, Hc. Qed.

(** Arming registers the notification as it is given: undelivered when
    built by the two scheduling methods. *)
Lemma arm_registers notification at_time now s :
  notifications (arm notification at_time now s) !! id notification = Some notification.
Proof. unfold arm. simpl. apply lookup_insert_eq. Qed.

Lemma initial_well_keyed : well_keyed initial.
Proof. intros k n H. simpl in H. rewrite lookup_empty in H. discriminate. Qed.

Lemma arm_well_keyed notification at_time now s :
  well_keyed s → well_keyed (arm notification at_time now s).
Proof.
  intros Hw k n. unfold arm. simpl. rewrite lookup_insert.
  destruct (decide (id notification = k)) as [<-|Hne].
  - intros H. inversion H. reflexivity.
  - apply Hw.
Qed.

Lemma subscribe_well_keyed cb s : well_keyed s → well_keyed (subscribe cb s).
Proof. intros Hw k n H. apply (Hw k n H). Qed.

Lemma armed_well_keyed : well_keyed Samples.armed.
Proof.
  apply arm_well_keyed, subscribe_well_keyed, subscribe_well_keyed, initial_well_keyed.
Qed.

Lemma nobody_leaves_onlooker : onlooker Samples.nobody_leaves.
Proof. intros cb n s. exists (subscribers s). simpl. now rewrite set_subscribers_same. Qed.

Lemma nobody_leaves_returning : returning Samples.nobody_leaves.
Proof. intros cb n s. eexists. reflexivity. Qed.

Lemma delivered_once_per_arming_witness :
  ∃ before now after,
    [(Samples.nine - 5 * 60000, "start_essay"); (Samples.nine, "start_essay")]
    = before ++ (now, "start_essay") :: after
    ∧ ¬ In "start_essay" (map snd before)
    ∧ let s0 := deliver_all Samples.nobody_leaves before Samples.armed in
      let s1 := deliver_task Samples.nobody_leaves now "start_essay" s0 in
      let s' :=
        deliver_all Samples.nobody_leaves
          [(Samples.nine - 5 * 60000, "start_essay"); (Samples.nine, "start_essay")]
          Samples.armed in
      notifications s0 !! "start_essay" = Some Samples.essay_reminder
      ∧ called_about "start_essay" (trace s0) = called_about "start_essay" (trace Samples.armed)
      ∧ dispatched "start_essay" (trace s0) = dispatched "start_essay" (trace Samples.armed)
      ∧ notifications s1 !! "start_essay" = Some (with_delivered true Samples.essay_reminder)
      ∧ (∃ called,
           called_about "start_essay" (trace s1)
           = called_about "start_essay" (trace s0) ++ called
           ∧ (length called ≤ length (subscribers s0))%nat
           ∧ (∀ cb rest, subscribers s0 = cb :: rest → ∃ more, called = cb :: more)
           ∧ ((∀ cb, In cb (subscribers s0) →
                     ∀ n0 s2, Samples.nobody_leaves cb n0 s2 = Done s2) →
              called = subscribers s0))
      ∧ (dispatched "start_essay" (trace s1) ≤ S (dispatched "start_essay" (trace s0)))%nat
      ∧ (returning Samples.nobody_leaves →
         dispatched "start_essay" (trace s1) = S (dispatched "start_essay" (trace s0)))
      ∧ notifications s' !! "start_essay" = Some (with_delivered true Samples.essay_reminder)
      ∧ called_about "start_essay" (trace s') = called_about "start_essay" (trace s1)
      ∧ dispatched "start_essay" (trace s') = dispatched "start_essay" (trace s1)
      ∧ ∀ now', deliverNotification Samples.nobody_leaves now' "start_essay" s' = Done s'.
Proof.
  apply (delivered_once_per_arming Samples.nobody_leaves
           [(Samples.nine - 5 * 60000, "start_essay"); (Samples.nine, "start_essay")]
           "start_essay" Samples.essay_reminder Samples.armed).
  - exact (onlooker_leaves_alone _ _ nobody_leaves_onlooker).
  - exact armed_well_keyed.
  - vm_compute. reflexivity.
  - reflexivity.
  - simpl. left. reflexivity.
Defined.

End Notifications.

(** * Further properties *)

(** ** The fallback packer: placement *)

Section Placement.
Import JS Scheduler.

(** What [allocate] returns is the sorted list with new times, task by
    task: the first task starts at the current time, each task ends its
    duration later and the next one starts a break after that. *)
Lemma allocate_chain break_minutes sorted :
  ∀ cur out,
    allocate break_minutes cur sorted = Return out →
    ∃ starts,
      length starts = length sorted
      ∧ out = zip_with (fun t s =>
                with_times t (ISO s.1) (ISO s.2)) sorted starts
      ∧ (∀ t s, sorted !! 0%nat = Some t → starts !! 0%nat = Some s → cur = Some s.1)
      ∧ (∀ i t s, sorted !! i = Some t → starts !! i = Some s →
           ∃ d, ToNumber (duration_minutes t) = Num d ∧ s.2 = s.1 + d * 60000)
      ∧ (∀ i s s', starts !! i = Some s → starts !! S i = Some s' →
           s'.1 = s.2 + break_minutes * 60000).
Proof.
  induction sorted as [|t sorted IH]; intros cur out H; simpl in H.
  - inversion H. exists []. repeat split; intros; discriminate.
  - destruct cur as [c|]; [|discriminate]. simpl in H.
    destruct (ToNumber (duration_minutes t)) as [|d] eqn:Hd; [discriminate|].
    simpl in H.
    destruct (TimeClip (c + d * 60000)) as [e|] eqn:He; [|discriminate].
    apply TimeClip_Some in He as [-> _]. simpl in H.
    destruct (allocate break_minutes _ sorted) as [placed|] eqn:Hp; [|discriminate].
    inversion H; subst out. clear H.
    destruct (IH _ _ Hp) as (starts & Hlen & Hout & Hfirst & Hdur & Hnext).
    exists ((c, c + d * 60000) :: starts).
    split; [simpl; now rewrite Hlen|].
    split; [simpl; now rewrite Hout|].
    split; [intros t' s Ht Hs; simpl in *; inversion Hs; reflexivity|].
    split.
    + intros [|i] t' s Ht Hs; simpl in *.
      * inversion Ht; inversion Hs; subst. exists d. split; [exact Hd|reflexivity].
      * apply (Hdur i t' s Ht Hs).
    + intros [|i] s s' Hs Hs'; simpl in *.
      * inversion Hs; subst. simpl.
        destruct sorted as [|t2 sorted2]; [destruct starts; discriminate|].
        destruct starts as [|s2 starts2]; [discriminate|].
        specialize (Hfirst t2 s2 eq_refl eq_refl).
        simpl in Hs'. inversion Hs'; subst.
        apply TimeClip_Some in Hfirst as [Hfirst _]. lia.
      * apply (Hnext i s s' Hs Hs').
Qed.

Lemma zip_with_lookup_times (sorted : list Task) (starts : list (Z * Z)) i a :
  zip_with (fun t s => with_times t (ISO s.1) (ISO s.2)) sorted starts !! i = Some a →
  ∃ t s, sorted !! i = Some t ∧ starts !! i = Some s
         ∧ a = with_times t (ISO s.1) (ISO s.2).
Proof.
  intros H. apply lookup_zip_with_Some in H as (t & s & -> & Ht & Hs). eauto.
Qed.

(** X1. In a candidate of the fallback packer the first task starts at
    the start of the working hours on the given day, every task ends
    its own duration after it starts, and every task but the first
    starts one break after the task before it ends, whatever the times
    the tasks came with. *)
Theorem fallback_slots_are_consecutive
    (prefs : UserPreferences) (now : Z) (tasks : list Task) (date : daytext)
    (userId : string) (built : list ScheduleCandidate) (candidate : ScheduleCandidate) :
  generateFallbackSchedule prefs now tasks date userId = Return built →
  candidate ∈ built →
  let placed := Scheduler.tasks (schedule candidate) in
  (∀ a, placed !! 0%nat = Some a →
        Date_of (start a) = Date_at date (window_start (work_hours prefs))
        ∧ Date_of (start a) ≠ None)
  ∧ (∀ i a, placed !! i = Some a →
        ∃ s d, Date_of (start a) = Some s
               ∧ ToNumber (duration_minutes a) = Num d
               ∧ Date_of (end_ a) = Some (s + d * 60000))
  ∧ (∀ i a b, placed !! i = Some a → placed !! S i = Some b →
        ∃ e, Date_of (end_ a) = Some e
             ∧ Date_of (start b) = Some (e + break_duration prefs * 60000)).
Proof.
  intros Hgen Hin placed. unfold generateFallbackSchedule in Hgen.
  destruct (allocate _ _ _) as [out|] eqn:Hout; [|discriminate].
  simpl in Hgen. inversion Hgen; subst built. clear Hgen.
  apply list_elem_of_singleton in Hin. subst candidate. simpl in placed.
  destruct (allocate_chain _ _ _ _ Hout) as (starts & Hlen & Heq & Hfirst & Hdur & Hnext).
  subst placed. rewrite Heq. split; [|split].
  - intros a Ha. apply zip_with_lookup_times in Ha as (t & s & Ht & Hs & ->).
    simpl. rewrite (Hfirst t s Ht Hs). split; [reflexivity|discriminate].
  - intros i a Ha. apply zip_with_lookup_times in Ha as (t & s & Ht & Hs & ->).
    destruct (Hdur i t s Ht Hs) as (d & Hd & He).
    exists s.1, d. simpl. rewrite He. auto.
  - intros i a b Ha Hb.
    apply zip_with_lookup_times in Ha as (t & s & Ht & Hs & ->).
    apply zip_with_lookup_times in Hb as (t' & s' & Ht' & Hs' & ->).
    exists s.2. simpl. rewrite (Hnext i s s' Hs Hs'). auto.
Qed.

Lemma fallback_slots_are_consecutive_witness :
  generateFallbackSchedule default_preferences Samples.midnight_utc Samples.two_tasks
    (Day Samples.midnight_local) "user_1" = Return [Samples.two_tasks_packed]
  ∧ (∀ a, [Samples.essay_placed; Samples.notes_placed] !! 0%nat = Some a →
          Date_of (start a) = Some Samples.nine ∧ Date_of (start a) ≠ None)
  ∧ (∀ i a, [Samples.essay_placed; Samples.notes_placed] !! i = Some a →
        ∃ s d, Date_of (start a) = Some s
               ∧ ToNumber (duration_minutes a) = Num d
               ∧ Date_of (end_ a) = Some (s + d * 60000))
  ∧ (∀ i a b, [Samples.essay_placed; Samples.notes_placed] !! i = Some a →
        [Samples.essay_placed; Samples.notes_placed] !! S i = Some b →
        ∃ e, Date_of (end_ a) = Some e
             ∧ Date_of (start b) = Some (e + 15 * 60000)).
Proof.
  split; [reflexivity|].
  apply (fallback_slots_are_consecutive default_preferences Samples.midnight_utc
           Samples.two_tasks (Day Samples.midnight_local) "user_1"
           [Samples.two_tasks_packed] Samples.two_tasks_packed).
  - reflexivity.
  - apply list_elem_of_singleton. reflexivity.
Defined.

End Placement.

(** ** The fallback packer: coverage, order and failures *)

Section Packing.
Import JS Scheduler Terms.

#[local] Instance outranks_transitive : Transitive outranks.
Proof.
  intros a b c (p & q & Hp & Hq & Hle) (q' & r & Hq' & Hr & Hle').
  rewrite Hq in Hq'. inversion Hq'; subst q'.
  exists p, r. repeat split; auto. lia.
Qed.

Lemma insert_sorted_outranks x l :
  numeric_score x → Forall numeric_score l →
  Sorted outranks l → Sorted outranks (insert_sorted by_priority x l).
Proof.
  intros (px & Hx) Hl Hs. induction l as [|y l IH]; simpl.
  - repeat constructor.
  - inversion Hl as [|? ? (py & Hy) Hl']; subst.
    inversion Hs as [|? ? Hs' Hhd]; subst.
    unfold by_priority at 1. rewrite Hx, Hy. simpl.
    destruct (0 <? py - px) eqn:Hxy.
    + apply Z.ltb_lt in Hxy. constructor; [apply IH; assumption|].
      destruct l as [|z l]; simpl.
      * constructor. exists py, px. repeat split; auto. lia.
      * inversion Hl' as [|? ? (pz & Hz) _]; subst.
        unfold by_priority. rewrite Hx, Hz. simpl.
        destruct (0 <? pz - px).
        -- inversion Hhd; subst. constructor. assumption.
        -- constructor. exists py, px. repeat split; auto. lia.
    + apply Z.ltb_ge in Hxy. constructor; [exact Hs|].
      constructor. exists px, py. repeat split; auto. lia.
Qed.

Lemma sort_outranks l :
  Forall numeric_score l → Sorted outranks (sort by_priority l).
Proof.
  induction 1 as [|x l Hx Hl IH]; simpl; [constructor|].
  apply insert_sorted_outranks; [exact Hx | | exact IH].
  apply sort_Forall. exact Hl.
Qed.

Lemma StronglySorted_lookup {A} (R : A → A → Prop) l (i j : nat) a b :
  StronglySorted R l → (i < j)%nat → l !! i = Some a → l !! j = Some b → R a b.
Proof.
  intros Hs. revert i j. induction Hs as [|x l Hs IH Hall]; intros i j Hij Hi Hj.
  - destruct i; discriminate.
  - destruct j as [|j]; [lia|]. simpl in Hj. destruct i as [|i]; simpl in Hi.
    + inversion Hi; subst. rewrite Forall_forall in Hall. apply Hall.
      apply list_elem_of_lookup. eauto.
    + apply (IH i j); auto. lia.
Qed.

(** A list already in order is left as it is: tasks with equal scores
    are never swapped. *)
Lemma sort_keeps_ordered l :
  Sorted outranks l → sort by_priority l = l.
Proof.
  induction 1 as [|x l Hs IH Hhd]; simpl; [reflexivity|].
  rewrite IH. destruct Hhd as [|y l' (p & q & Hp & Hq & Hle)]; simpl; [reflexivity|].
  unfold by_priority. rewrite Hp, Hq. simpl.
  destruct (0 <? q - p) eqn:E; [apply Z.ltb_lt in E; lia | reflexivity].
Qed.

Lemma allocate_scores break_minutes sorted cur out :
  allocate break_minutes cur sorted = Return out →
  Forall2 (fun a t => ∃ s e, a = with_times t (ISO s) (ISO e)) out sorted.
Proof.
  revert cur out. induction sorted as [|t sorted IH]; intros cur out H; simpl in H.
  - inversion H. constructor.
  - destruct cur as [c|]; [|discriminate]. simpl in H.
    destruct (ToNumber (duration_minutes t)) as [|d]; [discriminate|]. simpl in H.
    destruct (TimeClip (c + d * 60000)) as [e|]; [|discriminate]. simpl in H.
    destruct (allocate break_minutes _ sorted) as [placed|] eqn:Hp; [|discriminate].
    inversion H; subst. constructor; [eauto|]. apply (IH _ _ Hp).
Qed.

(** X2. For a readable day and start of the working hours and tasks
    whose durations are numbers, the tasks and the breaks after them
    fitting into the range of Date whatever their order, the fallback
    packer returns exactly one candidate, of score 60 and without
    conflict entries, whose tasks are the given tasks, each exactly
    once and changed in its start and end only. *)
Theorem fallback_places_every_task
    (prefs : UserPreferences) (now : Z) (tasks : list Task) (date : daytext)
    (userId : string) (t0 : Z) :
  Date_at date (window_start (work_hours prefs)) = Some t0 →
  Forall (fun t => ∃ d, ToNumber (duration_minutes t) = Num d) tasks →
  Z.abs t0 + span (break_duration prefs) tasks ≤ max_time →
  ∃ candidate sorted,
    generateFallbackSchedule prefs now tasks date userId = Return [candidate]
    ∧ sorted ≡ₚ tasks
    ∧ Forall2 (fun a t => ∃ s e, a = with_times t (ISO s) (ISO e))
        (Scheduler.tasks (schedule candidate)) sorted
    ∧ score candidate = 60
    ∧ conflicts candidate = []
    ∧ Scheduler.date (schedule candidate) = date
    ∧ user_id (schedule candidate) = userId.
Proof.
  intros Ht0 Hd Hfit. unfold generateFallbackSchedule. rewrite Ht0.
  destruct (allocate_returns (break_duration prefs) (sort by_priority tasks)
              (sort_Forall _ _ _ Hd) t0) as (out & Hout & _).
  { now rewrite (span_Permutation _ _ _ (sort_Permutation by_priority tasks)). }
  rewrite Hout. eexists. exists (sort by_priority tasks).
  split; [reflexivity|]. split; [apply sort_Permutation|]. simpl.
  split; [apply (allocate_scores _ _ _ _ Hout)|]. repeat split.
Qed.

Lemma fallback_places_every_task_witness :
  ∃ candidate sorted,
    generateFallbackSchedule default_preferences Samples.midnight_utc Samples.two_tasks
      (Day Samples.midnight_local) "user_1" = Return [candidate]
    ∧ sorted ≡ₚ Samples.two_tasks
    ∧ Forall2 (fun a t => ∃ s e, a = with_times t (ISO s) (ISO e))
        (Scheduler.tasks (schedule candidate)) sorted
    ∧ score candidate = 60
    ∧ conflicts candidate = []
    ∧ Scheduler.date (schedule candidate) = Day Samples.midnight_local
    ∧ user_id (schedule candidate) = "user_1".
Proof.
  apply (fallback_places_every_task default_preferences Samples.midnight_utc
           Samples.two_tasks (Day Samples.midnight_local) "user_1" Samples.nine).
  - reflexivity.
  - repeat constructor; eexists; reflexivity.
  - vm_compute. discriminate.
Defined.

(** X3. When every score is a number, the tasks of a fallback candidate
    stand in order of score, highest first; and a task list that is
    already in that order is placed in the order it was given, so that
    tasks of equal score keep their order. *)
Theorem fallback_orders_by_score
    (prefs : UserPreferences) (now : Z) (tasks : list Task) (date : daytext)
    (userId : string) (built : list ScheduleCandidate) (candidate : ScheduleCandidate) :
  Forall numeric_score tasks →
  generateFallbackSchedule prefs now tasks date userId = Return built →
  candidate ∈ built →
  (∀ (i j : nat) a b,
     (i < j)%nat →
     Scheduler.tasks (schedule candidate) !! i = Some a →
     Scheduler.tasks (schedule candidate) !! j = Some b →
     outranks a b)
  ∧ (Sorted outranks tasks →
     map task_id (Scheduler.tasks (schedule candidate)) = map task_id tasks).
Proof.
  intros Hnum Hgen Hin. unfold generateFallbackSchedule in Hgen.
  destruct (allocate _ _ _) as [out|] eqn:Hout; [|discriminate].
  simpl in Hgen. inversion Hgen; subst built. clear Hgen.
  apply list_elem_of_singleton in Hin. subst candidate. simpl.
  pose proof (allocate_scores _ _ _ _ Hout) as Hf2. split.
  - intros i j a b Hij Ha Hb.
    destruct (Forall2_lookup_l _ _ _ _ _ Hf2 Ha) as (ta & Hta & sa & ea & ->).
    destruct (Forall2_lookup_l _ _ _ _ _ Hf2 Hb) as (tb & Htb & sb & eb & ->).
    pose proof (Sorted_StronglySorted outranks_transitive (sort_outranks _ Hnum)) as Hss.
    apply (StronglySorted_lookup _ _ _ _ _ _ Hss Hij Hta Htb).
  - intros Hsorted. rewrite (allocate_task_ids _ _ _ _ Hout).
    now rewrite (sort_keeps_ordered _ Hsorted).
Qed.

Lemma fallback_orders_by_score_witness :
  (∀ (i j : nat) a b,
     (i < j)%nat →
     Scheduler.tasks (schedule Samples.two_tasks_packed) !! i = Some a →
     Scheduler.tasks (schedule Samples.two_tasks_packed) !! j = Some b →
     outranks a b)
  ∧ (Sorted outranks Samples.two_tasks →
     map task_id (Scheduler.tasks (schedule Samples.two_tasks_packed))
     = map task_id Samples.two_tasks).
Proof.
  apply (fallback_orders_by_score default_preferences Samples.midnight_utc
           Samples.two_tasks (Day Samples.midnight_local) "user_1"
           [Samples.two_tasks_packed]).
  - repeat constructor; eexists; reflexivity.
  - reflexivity.
  - apply list_elem_of_singleton. reflexivity.
Defined.

Lemma allocate_only_RangeError break_minutes sorted cur e :
  allocate break_minutes cur sorted = Throw e → e = RangeError.
Proof.
  revert cur. induction sorted as [|t sorted IH]; intros cur H; simpl in H.
  - discriminate.
  - destruct (toISOString cur) as [start_text|e1] eqn:Hs; simpl in H;
      [|destruct cur; inversion Hs; inversion H; subst; reflexivity].
    destruct (date_plus cur _) as [end_date|]; simpl in H; [|inversion H; reflexivity].
    destruct (allocate break_minutes _ sorted) as [placed|e2] eqn:Hp; [discriminate|].
    simpl in H. inversion H; subst. apply (IH _ Hp).
Qed.

Lemma allocate_rejects_no_number break_minutes sorted :
  Exists (fun t => no_number (duration_minutes t) = true) sorted →
  ∀ cur, allocate break_minutes cur sorted = Throw RangeError.
Proof.
  induction 1 as [t sorted Ht|t sorted Hex IH]; intros cur; simpl.
  - destruct cur as [c|]; [|reflexivity]. simpl.
    destruct (duration_minutes t) as [| | |[|z]| | |]; try discriminate; reflexivity.
  - destruct (toISOString cur) as [start_text|e1] eqn:Hs; simpl;
      [|destruct cur; inversion Hs; reflexivity].
    destruct (date_plus cur _) as [end_date|]; simpl; [|reflexivity].
    now rewrite IH.
Qed.

(** X4. With no task to place the fallback packer returns a candidate
    without tasks, even for an unreadable day. When it fails there is
    a task to place and the failure is [RangeError]. It fails in this
    way, given a task to place, for a day that is not readable; for
    any task whose duration is [undefined], an object or [NaN]; and
    for a single task that ends outside the range of Date. *)
Theorem fallback_failures
    (prefs : UserPreferences) (now : Z) (tasks : list Task) (date : daytext)
    (userId : string) :
  (tasks = [] →
   ∃ candidate,
     generateFallbackSchedule prefs now tasks date userId = Return [candidate]
     ∧ Scheduler.tasks (schedule candidate) = [])
  ∧ (∀ e, generateFallbackSchedule prefs now tasks date userId = Throw e →
          e = RangeError ∧ tasks ≠ [])
  ∧ (tasks ≠ [] → (∃ text, date = NoDay text) →
     generateFallbackSchedule prefs now tasks date userId = Throw RangeError)
  ∧ (Exists (fun t => no_number (duration_minutes t) = true) tasks →
     generateFallbackSchedule prefs now tasks date userId = Throw RangeError)
  ∧ (∀ t t0 d,
       tasks = [t] →
       Date_at date (window_start (work_hours prefs)) = Some t0 →
       ToNumber (duration_minutes t) = Num d →
       ¬ within_range (t0 + d * 60000) →
       generateFallbackSchedule prefs now tasks date userId = Throw RangeError).
Proof.
  split; [intros ->; eexists; split; reflexivity|].
  split.
  { intros e H. split.
    - unfold generateFallbackSchedule in H.
      destruct (allocate _ _ _) as [out|e'] eqn:Hout; [discriminate|].
      simpl in H. inversion H; subst. apply (allocate_only_RangeError _ _ _ _ Hout).
    - intros ->. discriminate H. }
  split.
  { intros Hne (text & ->). unfold generateFallbackSchedule.
    pose proof (sort_Permutation by_priority tasks) as Hperm.
    destruct (sort by_priority tasks) as [|t l]; [|reflexivity].
    apply Permutation_nil_l in Hperm. congruence. }
  split.
  { intros Hex. unfold generateFallbackSchedule.
    rewrite allocate_rejects_no_number; [reflexivity|].
    apply Exists_exists in Hex as (t & Hin & Hn).
    apply Exists_exists. exists t. split; [|exact Hn].
    apply list_elem_of_In. rewrite sort_Permutation. now apply list_elem_of_In. }
  intros t t0 d -> Ht0 Hd Hout. unfold generateFallbackSchedule. rewrite Ht0.
  simpl. rewrite Hd. simpl. rewrite (TimeClip_outside _ Hout). reflexivity.
Qed.

Lemma fallback_failures_witness :
  (Samples.two_tasks ≠ [] → (∃ text, NoDay "tomorrow" = NoDay text) →
   generateFallbackSchedule default_preferences Samples.midnight_utc Samples.two_tasks
     (NoDay "tomorrow") "user_1" = Throw RangeError)
  ∧ generateFallbackSchedule default_preferences Samples.midnight_utc
      [Samples.plain_task "essay" 200000000000 75] (Day Samples.midnight_local) "user_1"
    = Throw RangeError.
Proof.
  pose proof (fallback_failures default_preferences Samples.midnight_utc Samples.two_tasks
                (NoDay "tomorrow") "user_1") as (_ & _ & Hday & _).
  split; [exact Hday|].
  pose proof (fallback_failures default_preferences Samples.midnight_utc
                [Samples.plain_task "essay" 200000000000 75]
                (Day Samples.midnight_local) "user_1") as (_ & _ & _ & _ & Hend).
  apply (Hend (Samples.plain_task "essay" 200000000000 75) Samples.nine 200000000000).
  - reflexivity.
  - reflexivity.
  - reflexivity.
  - unfold within_range. vm_compute. intros [_ H]. apply H. reflexivity.
Defined.

End Packing.

(** ** The normaliser: ids, fixed tasks and failures *)

Section Normalising.
Import JS Scheduler Terms.

(** What holds of every task a row can give holds of every task
    collected. *)
Lemma collect_Forall {A B} (body : nat → A → result (option B)) (P : B → Prop) :
  (∀ i row t, body i row = Return (Some t) → P t) →
  ∀ rows index out, collect body index rows = Return out → Forall P out.
Proof.
  intros Hbody. induction rows as [|row rows IH]; intros index out H; simpl in H.
  - inversion H. constructor.
  - destruct (body index row) as [pushed|] eqn:Hb; [|discriminate]. simpl in H.
    destruct (collect body (S index) rows) as [more|] eqn:Hm; [|discriminate].
    simpl in H. inversion H; subst. specialize (IH _ _ Hm).
    destruct pushed as [t|]; [constructor; eauto|exact IH].
Qed.

(** The tasks collected carry the indices of their rows, in rising
    order from [index] on. *)
Lemma collect_ids (body : nat → value → result (option Task)) (prefix : string) :
  (∀ i row t, body i row = Return (Some t) → task_id t = prefix +:+ pretty i) →
  ∀ rows index out,
    collect body index rows = Return out →
    ∃ indices,
      map task_id out = map (fun i : nat => prefix +:+ pretty i) indices
      ∧ StronglySorted lt indices
      ∧ Forall (fun i => (index ≤ i)%nat) indices.
Proof.
  intros Hbody. induction rows as [|row rows IH]; intros index out H; simpl in H.
  - inversion H. exists []. repeat constructor.
  - destruct (body index row) as [pushed|] eqn:Hb; [|discriminate]. simpl in H.
    destruct (collect body (S index) rows) as [more|] eqn:Hm; [|discriminate].
    simpl in H. inversion H; subst.
    destruct (IH _ _ Hm) as (indices & Hids & Hsorted & Hfrom).
    destruct pushed as [t|].
    + exists (index :: indices). simpl. rewrite (Hbody _ _ _ Hb), Hids.
      split; [reflexivity|]. split.
      * constructor; [exact Hsorted|].
        eapply Forall_impl; [exact Hfrom|]. simpl. intros. lia.
      * constructor; [lia|]. eapply Forall_impl; [exact Hfrom|]. simpl. intros. lia.
    + exists indices. split; [exact Hids|]. split; [exact Hsorted|].
      eapply Forall_impl; [exact Hfrom|]. simpl. intros. lia.
Qed.

Lemma StronglySorted_lt_NoDup (l : list nat) : StronglySorted lt l → NoDup l.
Proof.
  induction 1 as [|x l Hs IH Hall]; constructor; [|exact IH].
  intros Hin. rewrite Forall_forall in Hall. specialize (Hall _ Hin). lia.
Qed.

Lemma normalizeCourse_id now i row t :
  normalizeCourse now i row = Return (Some t) → task_id t = "course_" +:+ pretty i.
Proof.
  unfold normalizeCourse. intros H.
  destruct (get row "day_of_week"); [|discriminate].
  destruct (get row "start_time"); [|discriminate].
  destruct (get row "end_time"); [|discriminate].
  destruct (get row "event_name"); [|discriminate].
  cbn [mbind result_bind] in H.
  destruct (_ && _); inversion H. reflexivity.
Qed.

Lemma normalizePriority_id i row t :
  normalizePriority i row = Return (Some t) → task_id t = "priority_" +:+ pretty i.
Proof.
  unfold normalizePriority. intros H.
  destruct (get row "name"); [|discriminate].
  destruct (get row "preferred_time"); [|discriminate].
  destruct (get row "duration"); [|discriminate].
  destruct (get row "priority"); [|discriminate].
  destruct (get row "targets") as [v5|]; [|discriminate].
  destruct (get row "difficulty"); [|discriminate].
  cbn [mbind result_bind] in H.
  destruct (if truthy v5 then _ else _); [|discriminate].
  cbn [mbind result_bind] in H. inversion H. reflexivity.
Qed.

Lemma normalizeIncomplete_id i row t :
  normalizeIncomplete i row = Return (Some t) → task_id t = "incomplete_" +:+ pretty i.
Proof.
  unfold normalizeIncomplete. intros H.
  destruct (get row "name"); [|discriminate].
  destruct (get row "remaining_duration"); [|discriminate].
  destruct (get row "priority"); [|discriminate].
  destruct (get row "difficulty"); [|discriminate].
  destruct (get row "progress"); [|discriminate].
  cbn [mbind result_bind] in H. inversion H. reflexivity.
Qed.

Lemma indexed_ids_NoDup (prefix : string) (indices : list nat) :
  StronglySorted lt indices →
  NoDup (map (fun i : nat => prefix +:+ pretty i) indices).
Proof.
  intros Hs. apply NoDup_fmap_2; [|apply StronglySorted_lt_NoDup, Hs].
  intros i j Hij. apply (inj (String.app prefix)) in Hij. apply (inj pretty) in Hij.
  exact Hij.
Qed.

(** X5. The tasks [normalizeTasks] returns have pairwise different
    ids. *)
Theorem normalized_ids_are_unique
    (now : Z) (courseSchedule priorityTasks incompleteTasks : list value)
    (tasks : list Task) :
  normalizeTasks now courseSchedule priorityTasks incompleteTasks = Return tasks →
  NoDup (map task_id tasks).
Proof.
  unfold normalizeTasks. intros H.
  destruct (collect (normalizeCourse now) 0 courseSchedule) as [cs|] eqn:Hc; [|discriminate].
  destruct (collect normalizePriority 0 priorityTasks) as [ps|] eqn:Hp; [|discriminate].
  destruct (collect normalizeIncomplete 0 incompleteTasks) as [ics|] eqn:Hi; [|discriminate].
  cbn [mbind result_bind] in H. inversion H; subst tasks. clear H.
  destruct (collect_ids _ "course_" (normalizeCourse_id now) _ _ _ Hc) as (ic & Hic & Hsc & _).
  destruct (collect_ids _ "priority_" normalizePriority_id _ _ _ Hp) as (ip & Hip & Hsp & _).
  destruct (collect_ids _ "incomplete_" normalizeIncomplete_id _ _ _ Hi) as (ii & Hii & Hsi & _).
  rewrite !map_app, Hic, Hip, Hii.
  apply NoDup_app. split; [apply indexed_ids_NoDup, Hsc|]. split.
  - intros x Hx Hx'. apply list_elem_of_fmap in Hx as (i & -> & _).
    apply elem_of_app in Hx' as [Hx'|Hx']; apply list_elem_of_fmap in Hx' as (j & Hj & _);
      discriminate Hj.
  - apply NoDup_app. split; [apply indexed_ids_NoDup, Hsp|].
    split; [|apply indexed_ids_NoDup, Hsi].
    intros x Hx Hx'. apply list_elem_of_fmap in Hx as (i & -> & _).
    apply list_elem_of_fmap in Hx' as (j & Hj & _). discriminate Hj.
Qed.

Lemma normalized_ids_are_unique_witness :
  ∃ tasks,
    normalizeTasks Samples.midnight_utc
      [Samples.algorithms_row; VObject []; Samples.algorithms_row]
      [Samples.labelled_row "high"] [Samples.numbered_row 40] = Return tasks
    ∧ length tasks = 4%nat
    ∧ NoDup (map task_id tasks).
Proof.
  eexists. split; [reflexivity|]. split; [reflexivity|].
  apply (normalized_ids_are_unique Samples.midnight_utc
           [Samples.algorithms_row; VObject []; Samples.algorithms_row]
           [Samples.labelled_row "high"] [Samples.numbered_row 40]).
  reflexivity.
Defined.

Lemma get_readable v name :
  nullish v = false → get v name = Return (get_opt v name).
Proof. unfold get_opt. destruct v; simpl; try discriminate; reflexivity. Qed.

Lemma get_nullish v name : nullish v = true → get v name = Throw TypeError.
Proof. destruct v; simpl; try discriminate; reflexivity. Qed.

Lemma stamp_minutes day clock t :
  Date_of (Stamp day clock) = Some t →
  ∃ m, parse_stamp_clock (ToString clock) = Some m ∧ t = day + (m - 330) * 60000.
Proof.
  simpl. destruct (parse_stamp_clock (ToString clock)) as [m|]; [|discriminate].
  intros H. apply TimeClip_Some in H as [-> _]. eauto.
Qed.

(** A clock [HH:mm] reads the same in both templates. *)
Lemma parse_hhmm_stamp text m :
  parse_hhmm text = Some m → parse_stamp_clock text = Some m.
Proof.
  destruct text as [|a [|b [|c text]]]; simpl; try discriminate; auto.
Qed.

Lemma calculateDuration_minutes startTime endTime d :
  calculateDuration startTime endTime = Num d →
  ∃ ms me, parse_hhmm (ToString startTime) = Some ms
           ∧ parse_hhmm (ToString endTime) = Some me ∧ d = me - ms.
Proof.
  unfold calculateDuration, Date_at, y2k.
  destruct (parse_hhmm (ToString startTime)) as [ms|]; [|discriminate].
  destruct (TimeClip (946684800000 + ms * 60000)) as [s|] eqn:Hs; [|discriminate].
  destruct (parse_hhmm (ToString endTime)) as [me|]; [|discriminate].
  destruct (TimeClip (946684800000 + me * 60000)) as [e|] eqn:He; [|discriminate].
  apply TimeClip_Some in Hs as [-> _]. apply TimeClip_Some in He as [-> _].
  intros H. inversion H. exists ms, me. split; [reflexivity|]. split; [reflexivity|].
  replace (946684800000 + me * 60000 - (946684800000 + ms * 60000))
    with ((me - ms) * (1000 * 60)) by lia.
  apply Z.div_mul. lia.
Qed.

(** A course row that is kept gives a fixed task; when its start and
    end are readable and its duration is a number, the duration is the
    distance between them. *)
Lemma normalizeCourse_fixed now i row t :
  normalizeCourse now i row = Return (Some t) →
  Scheduler.type t = Fixed ∧ fixed t = true
  ∧ priority_score t = VNumber (Num 100) ∧ reschedule_policy t = Drop
  ∧ (∃ n, duration_minutes t = VNumber n)
  ∧ ∀ s e d, Date_of (start t) = Some s → Date_of (end_ t) = Some e →
             duration_minutes t = VNumber (Num d) → e = s + d * 60000.
Proof.
  unfold normalizeCourse. intros H.
  destruct (get row "day_of_week"); [|discriminate].
  destruct (get row "start_time") as [st|]; [|discriminate].
  destruct (get row "end_time") as [en|]; [|discriminate].
  destruct (get row "event_name"); [|discriminate].
  cbn [mbind result_bind] in H.
  destruct (_ && _); inversion H; subst t; clear H. simpl.
  split; [reflexivity|]. split; [reflexivity|]. split; [reflexivity|].
  split; [reflexivity|]. split; [eauto|].
  intros s e d Hs He Hd. unfold convertToISO in *.
  apply stamp_minutes in Hs as (ms & Hms & ->).
  apply stamp_minutes in He as (me & Hme & ->).
  inversion Hd as [Hd'].
  apply calculateDuration_minutes in Hd' as (ms' & me' & Hms' & Hme' & ->).
  rewrite (parse_hhmm_stamp _ _ Hms') in Hms. rewrite (parse_hhmm_stamp _ _ Hme') in Hme.
  inversion Hms; inversion Hme; subst. lia.
Qed.

Lemma normalizePriority_flexible i row t :
  normalizePriority i row = Return (Some t) →
  Scheduler.type t = Flexible ∧ fixed t = false ∧ end_ t = Raw (VString EmptyString).
Proof.
  unfold normalizePriority. intros H.
  destruct (get row "name"); [|discriminate].
  destruct (get row "preferred_time"); [|discriminate].
  destruct (get row "duration"); [|discriminate].
  destruct (get row "priority"); [|discriminate].
  destruct (get row "targets") as [v5|]; [|discriminate].
  destruct (get row "difficulty"); [|discriminate].
  cbn [mbind result_bind] in H.
  destruct (if truthy v5 then _ else _); [|discriminate].
  cbn [mbind result_bind] in H. inversion H. repeat split.
Qed.

Lemma normalizeIncomplete_carried i row t :
  normalizeIncomplete i row = Return (Some t) →
  Scheduler.type t = Incomplete ∧ fixed t = false ∧ end_ t = Raw (VString EmptyString).
Proof.
  unfold normalizeIncomplete. intros H.
  destruct (get row "name"); [|discriminate].
  destruct (get row "remaining_duration"); [|discriminate].
  destruct (get row "priority"); [|discriminate].
  destruct (get row "difficulty"); [|discriminate].
  destruct (get row "progress"); [|discriminate].
  cbn [mbind result_bind] in H. inversion H. repeat split.
Qed.

Lemma normalizeTasks_well_normalised
    (now : Z) (courseSchedule priorityTasks incompleteTasks : list value)
    (tasks : list Task) :
  normalizeTasks now courseSchedule priorityTasks incompleteTasks = Return tasks →
  Forall well_normalised tasks.
Proof.
  unfold normalizeTasks. intros H.
  destruct (collect (normalizeCourse now) 0 courseSchedule) as [cs|] eqn:Hc; [|discriminate].
  destruct (collect normalizePriority 0 priorityTasks) as [ps|] eqn:Hp; [|discriminate].
  destruct (collect normalizeIncomplete 0 incompleteTasks) as [ics|] eqn:Hi; [|discriminate].
  cbn [mbind result_bind] in H. inversion H; subst tasks. clear H.
  apply Forall_app. split; [|apply Forall_app; split].
  - eapply (collect_Forall (normalizeCourse now)); [|exact Hc].
    intros i row t Ht. destruct (normalizeCourse_fixed _ _ _ _ Ht) as (Hty & Hf & Hrest).
    split; [rewrite Hty, Hf; tauto|]. split; [intros _; exact Hrest|].
    intros Hne. contradiction.
  - eapply (collect_Forall normalizePriority); [|exact Hp].
    intros i row t Ht. destruct (normalizePriority_flexible _ _ _ Ht) as (Hty & Hf & He).
    split; [rewrite Hty, Hf; split; discriminate|].
    split; [rewrite Hty; discriminate|intros _; exact He].
  - eapply (collect_Forall normalizeIncomplete); [|exact Hi].
    intros i row t Ht. destruct (normalizeIncomplete_carried _ _ _ Ht) as (Hty & Hf & He).
    split; [rewrite Hty, Hf; split; discriminate|].
    split; [rewrite Hty; discriminate|intros _; exact He].
Qed.

(** X6. In what [normalizeTasks] returns, a task is flagged fixed
    exactly when its type is fixed; a fixed task has score 100 and
    policy drop, its duration is a number or [NaN], and when its start
    and end are readable and its duration is a number its end is its
    start plus its duration in minutes (a duration that is negative
    when the row ends before it starts); every other task has an empty
    end. *)
Theorem normalized_tasks_are_consistent
    (now : Z) (courseSchedule priorityTasks incompleteTasks : list value)
    (tasks : list Task) :
  normalizeTasks now courseSchedule priorityTasks incompleteTasks = Return tasks →
  Forall well_normalised tasks.
Proof. apply normalizeTasks_well_normalised. Qed.

Lemma normalized_tasks_are_consistent_witness :
  ∃ tasks,
    normalizeTasks Samples.midnight_utc [Samples.algorithms_row]
      [Samples.labelled_row "high"] [Samples.numbered_row 40] = Return tasks
    ∧ length tasks = 3%nat
    ∧ Forall well_normalised tasks.
Proof.
  eexists. split; [reflexivity|]. split; [reflexivity|].
  apply (normalized_tasks_are_consistent Samples.midnight_utc [Samples.algorithms_row]
           [Samples.labelled_row "high"] [Samples.numbered_row 40]).
  reflexivity.
Defined.

(** A course row that gives the hours alone: its start and end are
    readable, at 14:00 and 15:00, and its duration is [NaN]. *)
Lemma hour_only_row_has_no_duration :
  ∃ t,
    normalizeTasks Samples.midnight_utc [Samples.course_row "Algorithms" "14" "15"] [] []
    = Return [t]
    ∧ Date_of (start t) = Some (Samples.midnight_local + 14 * 3600000)
    ∧ Date_of (end_ t) = Some (Samples.midnight_local + 15 * 3600000)
    ∧ duration_minutes t = VNumber NaN
    ∧ well_normalised t.
Proof.
  eexists. split; [reflexivity|]. split; [reflexivity|]. split; [reflexivity|].
  split; [reflexivity|].
  eapply (proj1 (List.Forall_forall _ _)
            (normalizeTasks_well_normalised Samples.midnight_utc
               [Samples.course_row "Algorithms" "14" "15"] [] [] _ eq_refl)).
  left. reflexivity.
Qed.

(** How a pass over rows ends when its body rejects the rows [rejects]
    marks, with [TypeError], and pushes a task for the rows [keeps]
    marks. *)
Lemma collect_outcome {B} (body : nat → value → result (option B))
    (rejects keeps : value → bool) :
  (∀ i row, rejects row = true → body i row = Throw TypeError) →
  (∀ i row, rejects row = false →
            ∃ pushed, body i row = Return pushed
                      ∧ (if keeps row then pushed ≠ None else pushed = None)) →
  ∀ rows index,
    if existsb rejects rows
    then collect body index rows = Throw TypeError
    else ∃ out, collect body index rows = Return out
                ∧ length out = length (List.filter keeps rows).
Proof.
  intros Hrej Hok. induction rows as [|row rows IH]; intros index; simpl.
  - exists []. split; reflexivity.
  - destruct (rejects row) eqn:Hr; simpl.
    + now rewrite (Hrej _ _ Hr).
    + destruct (Hok index row Hr) as (pushed & Hb & Hk). rewrite Hb. simpl.
      specialize (IH (S index)). destruct (existsb rejects rows).
      * now rewrite IH.
      * destruct IH as (more & Hm & Hlen). rewrite Hm. simpl.
        destruct (keeps row); destruct pushed as [t|]; try contradiction;
          try discriminate; eexists; (split; [reflexivity|]); simpl; now rewrite Hlen.
Qed.

Lemma normalizeCourse_outcome now :
  (∀ i row, nullish row = true → normalizeCourse now i row = Throw TypeError)
  ∧ (∀ i row, nullish row = false →
       ∃ pushed, normalizeCourse now i row = Return pushed
                 ∧ (if kept_course row then pushed ≠ None else pushed = None)).
Proof.
  split; intros i row Hn; unfold normalizeCourse.
  - destruct row; try discriminate Hn; reflexivity.
  - rewrite !(get_readable _ _ Hn). cbn [mbind result_bind]. unfold kept_course.
    destruct (_ && _); eexists; (split; [reflexivity|]); [discriminate|reflexivity].
Qed.

Lemma normalizePriority_outcome :
  (∀ i row, nullish row || unsplittable row = true →
            normalizePriority i row = Throw TypeError)
  ∧ (∀ i row, nullish row || unsplittable row = false →
       ∃ pushed, normalizePriority i row = Return pushed ∧ pushed ≠ None).
Proof.
  split; intros i row H; unfold normalizePriority.
  - destruct (nullish row) eqn:Hn; [destruct row; try discriminate Hn; reflexivity|].
    simpl in H. rewrite !(get_readable _ _ Hn). cbn [mbind result_bind].
    unfold unsplittable in H. apply andb_true_iff in H as [Ht Hs]. rewrite Ht.
    destruct (get_opt row "targets"); simpl in Hs; try discriminate; reflexivity.
  - apply orb_false_iff in H as [Hn Hu]. rewrite !(get_readable _ _ Hn).
    cbn [mbind result_bind]. unfold unsplittable in Hu.
    destruct (truthy (get_opt row "targets")) eqn:Ht.
    + destruct (get_opt row "targets"); simpl in Hu; try discriminate.
      simpl. eexists. split; [reflexivity|discriminate].
    + simpl. eexists. split; [reflexivity|discriminate].
Qed.

Lemma normalizeIncomplete_outcome :
  (∀ i row, nullish row = true → normalizeIncomplete i row = Throw TypeError)
  ∧ (∀ i row, nullish row = false →
       ∃ pushed, normalizeIncomplete i row = Return pushed ∧ pushed ≠ None).
Proof.
  split; intros i row Hn; unfold normalizeIncomplete.
  - destruct row; try discriminate Hn; reflexivity.
  - rewrite !(get_readable _ _ Hn). cbn [mbind result_bind].
    eexists. split; [reflexivity|discriminate].
Qed.

Lemma normalizeTasks_outcome
    (now : Z) (courseSchedule priorityTasks incompleteTasks : list value) :
  if existsb nullish courseSchedule
     || existsb (fun row => nullish row || unsplittable row) priorityTasks
     || existsb nullish incompleteTasks
  then normalizeTasks now courseSchedule priorityTasks incompleteTasks = Throw TypeError
  else ∃ tasks,
         normalizeTasks now courseSchedule priorityTasks incompleteTasks = Return tasks
         ∧ length tasks
           = (length (List.filter kept_course courseSchedule)
              + length priorityTasks + length incompleteTasks)%nat.
Proof.
  unfold normalizeTasks.
  pose proof (collect_outcome (normalizeCourse now) nullish kept_course
                (proj1 (normalizeCourse_outcome now)) (proj2 (normalizeCourse_outcome now))
                courseSchedule 0%nat) as Hc.
  pose proof (collect_outcome normalizePriority
                (fun row => nullish row || unsplittable row) (fun _ => true)
                (proj1 normalizePriority_outcome) (proj2 normalizePriority_outcome)
                priorityTasks 0%nat) as Hp.
  pose proof (collect_outcome normalizeIncomplete nullish (fun _ => true)
                (proj1 normalizeIncomplete_outcome) (proj2 normalizeIncomplete_outcome)
                incompleteTasks 0%nat) as Hi.
  destruct (existsb nullish courseSchedule); simpl; [now rewrite Hc|].
  destruct Hc as (cs & -> & Hlc). cbn [mbind result_bind].
  destruct (existsb _ priorityTasks); simpl; [now rewrite Hp|].
  destruct Hp as (ps & -> & Hlp). cbn [mbind result_bind].
  destruct (existsb nullish incompleteTasks); [now rewrite Hi|].
  destruct Hi as (ics & -> & Hli). cbn [mbind result_bind].
  eexists. split; [reflexivity|].
  rewrite !length_app, Hlc, Hlp, Hli.
  assert (Hall : ∀ l : list value, List.filter (fun _ => true) l = l).
  { induction l as [|x l IH]; simpl; [reflexivity|now rewrite IH]. }
  rewrite !Hall. lia.
Qed.

(** X7. [normalizeTasks] throws, and then [TypeError], exactly when a
    row of one of the three lists is [null] or [undefined] or a
    priority row has targets that are given and are not text;
    otherwise it returns one task for every course row with a day, a
    start and an end, one for every priority row and one for every
    incomplete row. *)
Theorem normalizer_outcome
    (now : Z) (courseSchedule priorityTasks incompleteTasks : list value) :
  if existsb nullish courseSchedule
     || existsb (fun row => nullish row || unsplittable row) priorityTasks
     || existsb nullish incompleteTasks
  then normalizeTasks now courseSchedule priorityTasks incompleteTasks = Throw TypeError
  else ∃ tasks,
         normalizeTasks now courseSchedule priorityTasks incompleteTasks = Return tasks
         ∧ length tasks
           = (length (List.filter kept_course courseSchedule)
              + length priorityTasks + length incompleteTasks)%nat.
Proof. apply normalizeTasks_outcome. Qed.

End Normalising.

(** ** The sheet reader and what the normaliser makes of its rows *)

Section Reading.
Import JS Scheduler Sheets Terms.

Lemma trim_right_idempotent s : trim_right (trim_right s) = trim_right s.
Proof.
  induction s as [|c rest IH]; simpl; [reflexivity|].
  destruct (is_space c && String.eqb (trim_right rest) EmptyString) eqn:E; simpl.
  - reflexivity.
  - now rewrite IH, E.
Qed.

Lemma trim_left_head s :
  match trim_left s with
  | EmptyString => True
  | String c _ => is_space c = false
  end.
Proof.
  induction s as [|c rest IH]; simpl; [exact I|].
  destruct (is_space c) eqn:E; [exact IH|]. exact E.
Qed.

(** Trimming leaves nothing to trim. *)
Lemma trim_idempotent s : trim (trim s) = trim s.
Proof.
  unfold trim. pose proof (trim_left_head s) as Hh.
  destruct (trim_left s) as [|c u]; [reflexivity|].
  cbn [trim_right]. rewrite Hh. cbn [andb]. cbn [trim_left]. rewrite Hh.
  cbn [trim_right]. rewrite Hh. cbn [andb]. now rewrite trim_right_idempotent.
Qed.

Lemma split_targets_clean text :
  Forall (fun t => t ≠ EmptyString ∧ trim t = t) (split_targets text).
Proof.
  unfold split_targets. apply Forall_forall. intros t Ht.
  apply list_elem_of_In, filter_In in Ht as [Hin Hne].
  split.
  - intros ->. discriminate Hne.
  - apply in_map_iff in Hin as (u & <- & _). apply trim_idempotent.
Qed.

Lemma int_cell_or_nonzero r i fallback :
  fallback ≠ 0 → ∃ n, int_cell_or r i fallback = VNumber (Num n) ∧ n ≠ 0.
Proof.
  intros Hf. unfold int_cell_or, or_else.
  destruct (parseInt _) as [|n]; simpl; [eauto|].
  destruct (n =? 0) eqn:E; simpl; [eauto|].
  exists n. split; [reflexivity|]. now apply Z.eqb_neq.
Qed.

Lemma label_cell_nonempty r i : label_cell r i ≠ EmptyString.
Proof.
  unfold label_cell. destruct (r !! i) as [text|]; [|discriminate].
  destruct (String.eqb (toLowerCase text) EmptyString) eqn:E; [discriminate|].
  now apply String.eqb_neq.
Qed.

Lemma data_rows_length items rows :
  length (data_rows items rows) = (length rows - 1)%nat.
Proof. unfold data_rows. now rewrite length_imap, length_drop. Qed.

Lemma data_rows_elem items rows item :
  item ∈ data_rows items rows → ∃ index r, item = items index r.
Proof.
  unfold data_rows. intros H. apply list_elem_of_lookup in H as (i & Hi).
  rewrite list_lookup_imap in Hi.
  destruct (drop 1 rows !! i) as [r|]; [|discriminate].
  inversion Hi. eauto.
Qed.

(** X8. [getPriorityTasks] gives one item for every row after the
    first (none for an empty sheet); in every item the targets are an
    array of texts that are not empty and have no white space around
    them, the estimated duration is a number other than 0 and the
    priority is a text that is not empty. *)
Theorem priority_items_are_clean (rows : list row) :
  length (getPriorityTasks rows) = (length rows - 1)%nat
  ∧ ∀ item, item ∈ getPriorityTasks rows →
      (∃ texts, get_opt item "targets" = VArray (map VString texts)
                ∧ Forall (fun t => t ≠ EmptyString ∧ trim t = t) texts)
      ∧ (∃ n, get_opt item "estimatedDuration" = VNumber (Num n) ∧ n ≠ 0)
      ∧ (∃ label, get_opt item "priority" = VString label ∧ label ≠ EmptyString).
Proof.
  split; [apply data_rows_length|].
  intros item Hin. apply data_rows_elem in Hin as (index & r & ->).
  split; [|split].
  - eexists. split; [reflexivity|]. apply split_targets_clean.
  - destruct (int_cell_or_nonzero r 3 60) as (n & Hn & Hz); [lia|].
    exists n. split; [|exact Hz]. unfold get_opt. simpl. exact Hn.
  - eexists. split; [reflexivity|]. apply label_cell_nonempty.
Qed.

Lemma reader_priority_unsplittable rows :
  (2 ≤ length rows)%nat →
  existsb (fun row => nullish row || unsplittable row) (getPriorityTasks rows) = true.
Proof.
  intros Hlen. destruct rows as [|header [|r rows]]; simpl in Hlen; try lia.
  reflexivity.
Qed.

(** X9. Any data row in the priority sheet makes normalisation of what
    the reader returns throw [TypeError], whatever the other two
    sheets hold, because the reader gives the targets as an array; and
    [generateDailySchedule] then fails with its own error whatever the
    reasoning service answers. *)
Theorem reader_priority_rows_stop_generation
    (JSON_parse : string → option value) (prefs : UserPreferences) (now : Z)
    (courseSchedule incompleteTasks existingEvents : list value)
    (rows : list row) (date : daytext) (userId : string) (http : Gemini.transport) :
  (2 ≤ length rows)%nat →
  normalizeTasks now courseSchedule (getPriorityTasks rows) incompleteTasks
    = Throw TypeError
  ∧ generateDailySchedule JSON_parse prefs now courseSchedule (getPriorityTasks rows)
      incompleteTasks existingEvents date userId http
    = Throw (Error "Failed to generate schedule").
Proof.
  intros Hlen.
  assert (Hn : normalizeTasks now courseSchedule (getPriorityTasks rows) incompleteTasks
               = Throw TypeError).
  { pose proof (normalizeTasks_outcome now courseSchedule (getPriorityTasks rows)
                  incompleteTasks) as H.
    rewrite (reader_priority_unsplittable rows Hlen), orb_true_r in H. exact H. }
  split; [exact Hn|]. unfold generateDailySchedule. now rewrite Hn.
Qed.

Lemma reader_priority_rows_stop_generation_witness :
  normalizeTasks Samples.midnight_utc []
    (getPriorityTasks [["Task ID"; "Task Name"]; ["priority_001"; "Study Algorithms"; "high"]])
    [] = Throw TypeError
  ∧ generateDailySchedule Samples.parse_short_json default_preferences Samples.midnight_utc []
      (getPriorityTasks [["Task ID"; "Task Name"]; ["priority_001"; "Study Algorithms"; "high"]])
      [] [] (Day Samples.midnight_local) "user_1" Samples.null_reply
    = Throw (Error "Failed to generate schedule").
Proof.
  apply (reader_priority_rows_stop_generation Samples.parse_short_json).
  simpl. lia.
Defined.

Lemma collect_Forall_in {B} (body : nat → value → result (option B)) (P : B → Prop)
    (rows : list value) :
  (∀ i row t, row ∈ rows → body i row = Return (Some t) → P t) →
  ∀ index out, collect body index rows = Return out → Forall P out.
Proof.
  induction rows as [|row rows IH]; intros Hbody index out H; simpl in H.
  - inversion H. constructor.
  - destruct (body index row) as [pushed|] eqn:Hb; [|discriminate]. simpl in H.
    destruct (collect body (S index) rows) as [more|] eqn:Hm; [|discriminate].
    simpl in H. inversion H; subst.
    assert (Hrest : Forall P more).
    { apply (IH (fun i r t Hr => Hbody i r t (list_elem_of_further _ _ _ Hr)) _ _ Hm). }
    destruct pushed as [t|]; [|exact Hrest].
    constructor; [|exact Hrest]. apply (Hbody index row t); [left|exact Hb].
Qed.

(** X10. Of the items [getCourseSchedule] returns the normaliser keeps
    none: they carry no day_of_week, start_time or end_time, so no task
    normalised from the reader's sheets is fixed. *)
Theorem reader_courses_give_no_fixed_task
    (now : Z) (courseRows : list row) (priorityTasks incompleteTasks : list value)
    (tasks : list Task) :
  normalizeTasks now (getCourseSchedule courseRows) priorityTasks incompleteTasks
    = Return tasks →
  length tasks = (length priorityTasks + length incompleteTasks)%nat
  ∧ Forall (fun t => Scheduler.type t ≠ Fixed ∧ fixed t = false) tasks.
Proof.
  intros H.
  assert (Hkept : List.filter kept_course (getCourseSchedule courseRows) = []).
  { unfold getCourseSchedule, data_rows. generalize (drop 1 courseRows). intros l.
    generalize 0%nat. induction l as [|r l IH]; intros n; [reflexivity|].
    simpl. unfold imap in IH. simpl in IH. apply IH. }
  split.
  - pose proof (normalizeTasks_outcome now (getCourseSchedule courseRows) priorityTasks
                  incompleteTasks) as Ho.
    destruct (_ || _); [rewrite Ho in H; discriminate|].
    destruct Ho as (tasks' & Ht & Hlen). rewrite Ht in H. inversion H; subst.
    rewrite Hlen, Hkept. reflexivity.
  - pose proof (normalizeTasks_well_normalised _ _ _ _ _ H) as Hcons.
    unfold normalizeTasks in H.
    destruct (collect (normalizeCourse now) 0 _) as [cs|] eqn:Hc; [|discriminate].
    destruct (collect normalizePriority 0 priorityTasks) as [ps|] eqn:Hp; [|discriminate].
    destruct (collect normalizeIncomplete 0 incompleteTasks) as [ics|] eqn:Hi; [|discriminate].
    cbn [mbind result_bind] in H. inversion H; subst tasks. clear H.
    assert (Hnone : cs = []).
    { pose proof (collect_outcome (normalizeCourse now) nullish kept_course
                    (proj1 (normalizeCourse_outcome now))
                    (proj2 (normalizeCourse_outcome now))
                    (getCourseSchedule courseRows) 0%nat) as Ho.
      destruct (existsb nullish _); [rewrite Ho in Hc; discriminate|].
      destruct Ho as (out & Hout & Hlen). rewrite Hout in Hc. inversion Hc; subst.
      rewrite Hkept in Hlen. now destruct cs. }
    subst cs. simpl. apply Forall_app. split.
    + eapply (collect_Forall normalizePriority); [|exact Hp].
      intros i row t Ht. destruct (normalizePriority_flexible _ _ _ Ht) as (Hty & Hf & _).
      rewrite Hty. split; [discriminate|exact Hf].
    + eapply (collect_Forall normalizeIncomplete); [|exact Hi].
      intros i row t Ht. destruct (normalizeIncomplete_carried _ _ _ Ht) as (Hty & Hf & _).
      rewrite Hty. split; [discriminate|exact Hf].
Qed.

Lemma reader_courses_give_no_fixed_task_witness :
  ∃ tasks,
    normalizeTasks Samples.midnight_utc
      (getCourseSchedule [["Day"; "Time"; "Course"];
                          ["Monday"; "09:00-10:30"; "Differential Equations"]])
      [] [Samples.numbered_row 40] = Return tasks
    ∧ length tasks = 1%nat
    ∧ Forall (fun t => Scheduler.type t ≠ Fixed ∧ fixed t = false) tasks.
Proof.
  eexists. split; [reflexivity|].
  apply (reader_courses_give_no_fixed_task Samples.midnight_utc
           [["Day"; "Time"; "Course"];
            ["Monday"; "09:00-10:30"; "Differential Equations"]]
           [] [Samples.numbered_row 40]).
  reflexivity.
Defined.

(** X11. Whatever the incomplete sheet says about remaining durations,
    every task normalised from an item of [getIncompleteTasks] has a
    duration of 30 minutes and an effort of 30, and its score is the
    item's priority label with the text 10 appended, not a number
    raised by 10. *)
Theorem reader_incomplete_rows_lose_duration
    (now : Z) (courseSchedule priorityTasks : list value) (rows : list row)
    (tasks : list Task) :
  normalizeTasks now courseSchedule priorityTasks (getIncompleteTasks rows) = Return tasks →
  Forall (fun t =>
            Scheduler.type t = Incomplete →
            duration_minutes t = VNumber (Num 30)
            ∧ estimated_effort (metadata t) = VNumber (Num 30)
            ∧ ∃ label, label ≠ EmptyString
                       ∧ priority_score t = VString (label +:+ "10")) tasks.
Proof.
  unfold normalizeTasks. intros H.
  destruct (collect (normalizeCourse now) 0 courseSchedule) as [cs|] eqn:Hc; [|discriminate].
  destruct (collect normalizePriority 0 priorityTasks) as [ps|] eqn:Hp; [|discriminate].
  destruct (collect normalizeIncomplete 0 _) as [ics|] eqn:Hi; [|discriminate].
  cbn [mbind result_bind] in H. inversion H; subst tasks. clear H.
  apply Forall_app. split; [|apply Forall_app; split].
  - eapply (collect_Forall (normalizeCourse now)); [|exact Hc].
    intros i row t Ht Hty. destruct (normalizeCourse_fixed _ _ _ _ Ht) as (Hf & _).
    rewrite Hf in Hty. discriminate.
  - eapply (collect_Forall normalizePriority); [|exact Hp].
    intros i row t Ht Hty. destruct (normalizePriority_flexible _ _ _ Ht) as (Hf & _).
    rewrite Hf in Hty. discriminate.
  - eapply (collect_Forall_in normalizeIncomplete); [|exact Hi].
    intros i item t Hin Ht _. apply data_rows_elem in Hin as (index & r & ->).
    unfold normalizeIncomplete in Ht. cbn in Ht. inversion Ht; subst t. clear Ht.
    split; [reflexivity|]. split; [reflexivity|].
    exists (label_cell r 4). split; [apply label_cell_nonempty|reflexivity].
Qed.

Lemma reader_incomplete_rows_lose_duration_witness :
  ∃ tasks,
    normalizeTasks Samples.midnight_utc [] []
      (getIncompleteTasks
         [["Task ID"; "Task Name"];
          ["incomplete_001"; "React Project"; "180"; "90"; "medium"; "2025-09-15"; "50"]])
      = Return tasks
    ∧ length tasks = 1%nat
    ∧ Forall (fun t =>
                Scheduler.type t = Incomplete →
                duration_minutes t = VNumber (Num 30)
                ∧ estimated_effort (metadata t) = VNumber (Num 30)
                ∧ ∃ label, label ≠ EmptyString
                           ∧ priority_score t = VString (label +:+ "10")) tasks.
Proof.
  eexists. split; [reflexivity|]. split; [reflexivity|].
  apply (reader_incomplete_rows_lose_duration Samples.midnight_utc [] []
           [["Task ID"; "Task Name"];
            ["incomplete_001"; "React Project"; "180"; "90"; "medium"; "2025-09-15"; "50"]]).
  reflexivity.
Defined.

End Reading.

(** ** Subscriptions and broadcasts *)

Section Subscribing.
Import JS Notifier Terms.

Lemma indexOf_absent cb l : ¬ In cb l → indexOf cb l = None.
Proof.
  induction l as [|x l IH]; intros H; simpl; [reflexivity|].
  destruct (Nat.eqb_spec x cb) as [->|Hne].
  - exfalso. apply H. left. reflexivity.
  - rewrite IH; [reflexivity|]. intros Hin. apply H. right. exact Hin.
Qed.

Lemma indexOf_first cb pre post :
  ¬ In cb pre → indexOf cb (pre ++ cb :: post) = Some (length pre).
Proof.
  induction pre as [|x pre IH]; intros H; simpl.
  - now rewrite Nat.eqb_refl.
  - destruct (Nat.eqb_spec x cb) as [->|Hne].
    + exfalso. apply H. left. reflexivity.
    + rewrite IH; [reflexivity|]. intros Hin. apply H. right. exact Hin.
Qed.

Lemma unsubscribe_first cb pre post :
  ¬ In cb pre → unsubscribe cb (pre ++ cb :: post) = pre ++ post.
Proof.
  intros H. unfold unsubscribe. rewrite (indexOf_first _ _ _ H).
  induction pre as [|x pre IH]; simpl; [reflexivity|].
  f_equal. apply IH. intros Hin. apply H. right. exact Hin.
Qed.

Lemma unsubscribe_absent cb l : ¬ In cb l → unsubscribe cb l = l.
Proof. intros H. unfold unsubscribe. now rewrite (indexOf_absent _ _ H). Qed.

(** X12. The closure [subscribe] returns removes the first
    registration of its callback and nothing else: for a callback that
    was not subscribed before, subscribing and then unsubscribing
    gives the list back, and unsubscribing without a registration
    changes nothing; for a callback that was already subscribed, it is
    the earlier registration that goes, so that the callback moves to
    the end of the list. *)
Theorem unsubscribe_drops_first_registration (cb : nat) (s : Service) :
  (¬ In cb (subscribers s) →
     unsubscribe cb (subscribers s) = subscribers s
     ∧ unsubscribe cb (subscribers (subscribe cb s)) = subscribers s)
  ∧ (∀ pre post, subscribers s = pre ++ cb :: post → ¬ In cb pre →
       unsubscribe cb (subscribers (subscribe cb s)) = pre ++ post ++ [cb]).
Proof.
  split.
  - intros H. split; [now apply unsubscribe_absent|].
    simpl. rewrite <- (app_nil_r (subscribers s)) at 2.
    now apply unsubscribe_first.
  - intros pre post Hs H. simpl. rewrite Hs, <- app_assoc. simpl.
    now apply unsubscribe_first.
Qed.

Lemma unsubscribe_drops_first_registration_witness :
  (unsubscribe 3 (subscribers Samples.armed) = subscribers Samples.armed
   ∧ unsubscribe 3 (subscribers (subscribe 3 Samples.armed)) = subscribers Samples.armed)
  ∧ unsubscribe 1 (subscribers (subscribe 1 Samples.armed)) = [2%nat; 1%nat].
Proof.
  destruct (unsubscribe_drops_first_registration 3 Samples.armed) as [Hnew _].
  destruct (unsubscribe_drops_first_registration 1 Samples.armed) as [_ Hold].
  split.
  - apply Hnew. simpl. intros [H|[H|[]]]; discriminate.
  - apply (Hold [] [2%nat]); [reflexivity|]. simpl. intros [].
Defined.

Lemma drop_delete_sublist {A} (l : list A) :
  ∀ n i, drop n (delete i l) `sublist_of` drop n l.
Proof.
  induction l as [|x l IH]; intros n i; [destruct n, i; reflexivity|].
  destruct i as [|i], n as [|n]; simpl.
  - apply sublist_cons. reflexivity.
  - specialize (IH n 0%nat). clear IH.
    revert n. induction l as [|y l IHl]; intros n; [destruct n; reflexivity|].
    destruct n as [|n]; simpl; [apply sublist_cons; reflexivity|apply IHl].
  - apply sublist_skip. apply (IH 0%nat i).
  - apply IH.
Qed.

Lemma drop_unsubscribe_sublist n u l :
  drop n (unsubscribe u l) `sublist_of` drop n l.
Proof.
  unfold unsubscribe. destruct (indexOf u l); [apply drop_delete_sublist|reflexivity].
Qed.

Lemma drop_unsubscribes_sublist n us :
  ∀ l, drop n (foldl (fun l u => unsubscribe u l) l us) `sublist_of` drop n l.
Proof.
  induction us as [|u us IH]; intros l; simpl; [reflexivity|].
  etransitivity; [apply IH|apply drop_unsubscribe_sublist].
Qed.

Lemma forEach_from_leaving (react : Callbacks) n :
  leaving react →
  ∀ remaining k s,
    ∃ subs called,
      state_of (forEach_from react n remaining k s)
      = emit (map (fun cb => Called cb n) called) (set_subscribers subs s)
      ∧ called `sublist_of` drop k (subscribers s)
      ∧ subs `sublist_of` subscribers s.
Proof.
  intros Hlv. induction remaining as [|remaining IH]; intros k s; simpl.
  - exists (subscribers s), []. rewrite emit_nil, set_subscribers_same.
    split; [reflexivity|]. split; [apply sublist_nil_l|reflexivity].
  - destruct (subscribers s !! k) as [cb|] eqn:Hk.
    + destruct (Hlv cb n (emit [Called cb n] s)) as (us & Hs1). simpl in Hs1.
      set (subs1 := foldl (fun l u => unsubscribe u l) (subscribers s) us) in *.
      assert (Hsubs1 : ∀ i, drop i subs1 `sublist_of` drop i (subscribers s))
        by (intros i; apply drop_unsubscribes_sublist).
      rewrite (drop_S _ _ _ Hk).
      destruct (react cb n (emit [Called cb n] s)) as [s1|e s1]; simpl in Hs1; subst s1.
      * destruct (IH (S k) (set_subscribers subs1 (emit [Called cb n] s)))
          as (subs & called & Hst & Hsub & Hrest). simpl in Hsub, Hrest.
        exists subs, (cb :: called). rewrite Hst. split; [|split].
        -- unfold emit. simpl. now rewrite <- app_assoc.
        -- apply sublist_skip. etransitivity; [exact Hsub|apply Hsubs1].
        -- etransitivity; [exact Hrest|apply (Hsubs1 0%nat)].
      * exists subs1, [cb]. split; [reflexivity|]. split.
        -- apply sublist_skip, sublist_nil_l.
        -- apply (Hsubs1 0%nat).
    + destruct (IH (S k) s) as (subs & called & Hst & Hsub & Hrest).
      exists subs, called. split; [exact Hst|]. split; [|exact Hrest].
      rewrite drop_ge in Hsub by (apply lookup_ge_None in Hk; lia).
      apply sublist_nil_r in Hsub. subst called. apply sublist_nil_l.
Qed.

Lemma notifySubscribers_outcome
    (react : Callbacks) (notification : NotificationConfig) (s : Service) :
  onlooker react →
  ∃ called subs,
    state_of (notifySubscribers react notification s)
    = emit (map (fun cb => Called cb notification) called) (set_subscribers subs s)
    ∧ (length called ≤ length (subscribers s))%nat
    ∧ (∀ cb rest, subscribers s = cb :: rest → ∃ more, called = cb :: more)
    ∧ (leaving react →
       called `sublist_of` subscribers s ∧ subs `sublist_of` subscribers s).
Proof.
  intros Hon. unfold notifySubscribers.
  destruct (forEach_from_onlooker react notification Hon (length (subscribers s)) 0 s)
    as (subs & called & Hst & Hlen & Hfirst).
  exists called, subs. split; [exact Hst|]. split; [exact Hlen|]. split.
  - intros cb rest Hs. apply (Hfirst cb); rewrite Hs; [reflexivity|simpl; lia].
  - intros Hlv.
    destruct (forEach_from_leaving react notification Hlv (length (subscribers s)) 0 s)
      as (subs' & called' & Hst' & Hsub & Hrest).
    rewrite Hst in Hst'.
    pose proof (f_equal subscribers Hst') as Hsubs. simpl in Hsubs.
    pose proof (f_equal trace Hst') as Htr. simpl in Htr.
    apply app_inv_head, calls_inj in Htr. subst. split; assumption.
Qed.

(** X13. During a broadcast, for callbacks that keep to the subscriber
    list (they may unsubscribe, subscribe and throw), the service
    changes in its subscribers and in the calls recorded only: the
    registry, the timers and the pending timeouts are as they were.
    At most as many callbacks are called as were subscribed when the
    broadcast began, the first subscriber first. When the callbacks
    only unsubscribe, the callbacks called are subscribers of the
    list as it was when the broadcast began, called in subscription
    order and no more often than they were registered, and the list
    afterwards holds no one new. *)
Theorem broadcast_calls_subscribers_in_order
    (react : Callbacks) (notification : NotificationConfig) (s : Service) :
  onlooker react →
  ∃ called subs,
    state_of (notifySubscribers react notification s)
    = emit (map (fun cb => Called cb notification) called) (set_subscribers subs s)
    ∧ (length called ≤ length (subscribers s))%nat
    ∧ (∀ cb rest, subscribers s = cb :: rest → ∃ more, called = cb :: more)
    ∧ (leaving react →
       called `sublist_of` subscribers s ∧ subs `sublist_of` subscribers s).
Proof. apply notifySubscribers_outcome. Qed.

Lemma first_hands_over_onlooker : onlooker Samples.first_hands_over.
Proof.
  intros cb n s. unfold Samples.first_hands_over.
  destruct (Nat.eqb cb 1); [eexists; reflexivity|].
  destruct (Nat.eqb cb 2); exists (subscribers s); simpl;
    now rewrite set_subscribers_same.
Qed.

(** With subscribers 1 and 2, the first handing over to callback 3:
    callback 1 is called and callback 3, which took the second place
    in the list, is called although it was not subscribed when the
    broadcast began; callback 2 is not called. *)
Lemma broadcast_calls_subscribers_in_order_witness :
  notifySubscribers Samples.first_hands_over Samples.essay_reminder Samples.armed
  = Done (emit [Called 1 Samples.essay_reminder; Called 3 Samples.essay_reminder]
            (set_subscribers [2%nat; 3%nat] Samples.armed))
  ∧ ∃ called subs,
      state_of
        (notifySubscribers Samples.first_hands_over Samples.essay_reminder Samples.armed)
      = emit (map (fun cb => Called cb Samples.essay_reminder) called)
          (set_subscribers subs Samples.armed)
      ∧ (length called ≤ length (subscribers Samples.armed))%nat
      ∧ (∀ cb rest, subscribers Samples.armed = cb :: rest → ∃ more, called = cb :: more)
      ∧ (leaving Samples.first_hands_over →
         called `sublist_of` subscribers Samples.armed
         ∧ subs `sublist_of` subscribers Samples.armed).
Proof.
  split; [reflexivity|].
  apply (broadcast_calls_subscribers_in_order Samples.first_hands_over
           Samples.essay_reminder Samples.armed).
  exact first_hands_over_onlooker.
Defined.

End Subscribing.

(** ** Arming and re-arming *)

Section Arming.
Import JS Notifier Terms.

Lemma find_fresh (h : positive) (l : list Timeout) :
  (∀ t, In t l → handle t ≠ h) →
  ∀ t l', handle t = h →
          List.find (fun t => Pos.eqb (handle t) h) (l ++ t :: l') = Some t.
Proof.
  induction l as [|x l IH]; intros Hl t l' Ht; simpl.
  - rewrite Ht, Pos.eqb_refl. reflexivity.
  - destruct (Pos.eqb_spec (handle x) h) as [E|_].
    + exfalso. apply (Hl x); [left; reflexivity|exact E].
    + apply IH; [|exact Ht]. intros y Hy. apply Hl. right. exact Hy.
Qed.

Lemma filter_fresh (h : positive) (l : list Timeout) :
  (∀ t, In t l → handle t ≠ h) →
  List.filter (fun t => negb (Pos.eqb (handle t) h)) l = l.
Proof.
  induction l as [|x l IH]; intros Hl; simpl; [reflexivity|].
  destruct (Pos.eqb_spec (handle x) h) as [E|_].
  - exfalso. apply (Hl x); [left; reflexivity|exact E].
  - simpl. f_equal. apply IH. intros y Hy. apply Hl. right. exact Hy.
Qed.

Lemma fresh_below s h :
  fresh_handles s → (next_handle s ≤ h)%positive → ∀ t, In t (pending s) → handle t ≠ h.
Proof. intros Hf Hh t Ht E. specialize (Hf t Ht). lia. Qed.

(** What a timer task adds to the pending timeouts: at most the
    timeout that closes the browser notification. *)
Lemma deliver_pending react now k s :
  onlooker react →
  ∃ extra,
    pending (deliver_task react now k s) = pending s ++ extra
    ∧ ∀ t, In t extra → handle t = next_handle s.
Proof.
  intros Hon. destruct (notifications s !! k) as [n|] eqn:Hn.
  - destruct (delivered n) eqn:Hd.
    + rewrite (deliver_task_settled _ _ _ _ _ Hn Hd).
      exists []. rewrite app_nil_r. split; [reflexivity|intros t []].
    + destruct (deliver_fresh react now k s n Hon Hn Hd)
        as (subs & called & tail & extra & _ & _ & _ & _ & Hp & Hh & _).
      exists extra. split; [exact Hp|exact Hh].
  - rewrite (deliver_task_missing _ _ _ _ Hn).
    exists []. rewrite app_nil_r. split; [reflexivity|intros t []].
Qed.

Lemma shifted_back start t :
  Date_of start = Some t → within_range (t - 300000) →
  shifted (Date_of start) (- (5 * 60 * 1000)) = Some (t - 300000).
Proof.
  intros Hs Hr. rewrite Hs. unfold shifted.
  replace (t + - (5 * 60 * 1000)) with (t - 300000) by lia.
  apply TimeClip_within. exact Hr.
Qed.

(** X14. Arming the start reminder of a task a second time does not
    cancel the timeout of the first arming: both stay pending, each due
    five minutes before its start or at once if that has passed, and
    only the second is recorded in [timers]. When the first timeout
    fires, it is the second reminder, with its new time and text, that
    is delivered, once (the page being told once when the callbacks
    return, and never more than once); the second timeout then
    delivers nothing. The reminder times are in the range of Date,
    and the callbacks keep to the subscriber list. *)
Theorem rearming_keeps_the_earlier_timer
    (react : Callbacks) (task name1 name2 : string) (start1 start2 : timetext)
    (t1 t2 now1 now2 c1 c2 : Z) (s : Service) :
  onlooker react →
  fresh_handles s →
  Date_of start1 = Some t1 →
  Date_of start2 = Some t2 →
  within_range (t1 - 300000) →
  within_range (t2 - 300000) →
  let k := "start_" +:+ task in
  let h1 := next_handle s in
  let h2 := Pos.succ h1 in
  let s1 := state_of (scheduleTaskStartNotification task name1 start1 now1 s) in
  let s2 := state_of (scheduleTaskStartNotification task name2 start2 now2 s1) in
  let s3 := fire react c1 h1 s2 in
  let s4 := fire react c2 h2 s3 in
  pending s2
  = pending s
    ++ [{| handle := h1; callback := DeliverLater k; due := Z.max now1 (t1 - 300000) |};
        {| handle := h2; callback := DeliverLater k; due := Z.max now2 (t2 - 300000) |}]
  ∧ timers s2 !! k = Some h2
  ∧ (∃ n, notifications s3 !! k = Some n
          ∧ delivered n = true
          ∧ scheduledTime n = ISO (t2 - 300000)
          ∧ message n = quote_name name2 +:+ " starts in 5 minutes")
  ∧ (dispatched k (trace s3) ≤ S (dispatched k (trace s)))%nat
  ∧ (returning react → dispatched k (trace s3) = S (dispatched k (trace s)))
  ∧ trace s4 = trace s3.
Proof.
  intros Hon Hf H1 H2 Hr1 Hr2 k h1 h2 s1 s2 s3 s4.
  pose proof (shifted_back _ _ H1 Hr1) as Hsh1.
  pose proof (shifted_back _ _ H2 Hr2) as Hsh2.
  assert (Hp2 : pending s2
    = pending s
      ++ [{| handle := h1; callback := DeliverLater k; due := Z.max now1 (t1 - 300000) |};
          {| handle := h2; callback := DeliverLater k; due := Z.max now2 (t2 - 300000) |}]).
  { subst s2 s1. unfold scheduleTaskStartNotification. rewrite Hsh1, Hsh2. simpl.
    rewrite <- app_assoc. simpl. do 3 f_equal.
    - f_equal. lia.
    - f_equal. f_equal. lia. }
  set (n2 := {| id := k; type := task_start; title := "Task Starting Soon";
                message := quote_name name2 +:+ " starts in 5 minutes";
                taskId := Some task; scheduledTime := ISO (t2 - 300000);
                delivered := false; actions := Some start_actions |}).
  assert (Hn2 : notifications s2 !! k = Some n2).
  { subst s2 s1. unfold scheduleTaskStartNotification. rewrite Hsh1, Hsh2. simpl.
    rewrite lookup_insert_eq. reflexivity. }
  assert (Ht2 : trace s2 = trace s).
  { subst s2 s1. unfold scheduleTaskStartNotification. rewrite Hsh1, Hsh2. reflexivity. }
  assert (Hfire1 : s3 = deliver_task react c1 k (clearTimeout h1 s2)).
  { unfold s3.
    apply (fire_delivers react c1 h1 k s2
             {| handle := h1; callback := DeliverLater k;
                due := Z.max now1 (t1 - 300000) |}); [|reflexivity].
    rewrite Hp2.
    apply find_fresh; [|reflexivity]. apply fresh_below; [exact Hf|]. unfold h1. lia. }
  destruct (deliver_fresh react c1 k (clearTimeout h1 s2) n2 Hon Hn2 eq_refl)
    as (subs & called & tail & extra & Hns3 & _ & _ & Htr3 & Hp3 & Hextra & _ & _ & _
        & Htail & Hret).
  rewrite <- Hfire1 in Hns3, Htr3, Hp3. cbv zeta in Hns3, Htr3, Hp3, Htail, Hret.
  destruct (tail_about k (clearTimeout h1 s2) _ tail Htail) as (_ & Hle & Hex).
  change (String.eqb (id (with_delivered true n2)) k) with (String.eqb k k) in Hle, Hex.
  rewrite String.eqb_refl in Hle, Hex.
  assert (Hk3 : notifications s3 !! k = Some (with_delivered true n2)).
  { rewrite Hns3. apply lookup_insert_eq. }
  split; [exact Hp2|]. split.
  { subst s2 s1. unfold scheduleTaskStartNotification. rewrite Hsh1, Hsh2. simpl.
    apply lookup_insert_eq. }
  split.
  { exists (with_delivered true n2). split; [exact Hk3|]. repeat split. }
  split.
  { rewrite Htr3. simpl trace. rewrite Ht2, !dispatched_app, dispatched_calls. lia. }
  split.
  { intros Hr. rewrite Htr3. simpl trace.
    rewrite Ht2, !dispatched_app, dispatched_calls, (Hex (Hret Hr)). lia. }
  simpl in Hp3, Hextra. rewrite Hp2 in Hp3.
  rewrite List.filter_app in Hp3. simpl in Hp3.
  rewrite filter_fresh in Hp3 by (apply fresh_below; [exact Hf|unfold h1; lia]).
  rewrite Pos.eqb_refl in Hp3. simpl in Hp3.
  replace (Pos.eqb h2 h1) with false in Hp3
    by (symmetry; apply Pos.eqb_neq; unfold h2; lia).
  simpl in Hp3.
  unfold s4.
  rewrite (fire_delivers react c2 h2 k s3
             {| handle := h2; callback := DeliverLater k;
                due := Z.max now2 (t2 - 300000) |}); [| |reflexivity].
  - rewrite (deliver_task_settled react c2 k (clearTimeout h2 s3) _ Hk3 eq_refl).
    reflexivity.
  - rewrite Hp3, <- app_assoc. simpl. apply find_fresh; [|reflexivity].
    apply fresh_below; [exact Hf|]. unfold h2, h1. lia.
Qed.

Lemma rearming_keeps_the_earlier_timer_witness :
  let s := subscribe 1 initial in
  let s2 :=
    state_of
      (scheduleTaskStartNotification "essay" "Essay" (ISO (Samples.nine + 3600000))
         (Samples.nine - 3600000)
         (state_of
            (scheduleTaskStartNotification "essay" "Essay" (ISO Samples.nine)
               (Samples.nine - 3600000) s))) in
  let s3 := fire Samples.nobody_leaves (Samples.nine - 300000) 1 s2 in
  dispatched "start_essay" (trace s3) = 1%nat
  ∧ trace (fire Samples.nobody_leaves (Samples.nine + 3300000) 2 s3) = trace s3.
Proof.
  destruct (rearming_keeps_the_earlier_timer Samples.nobody_leaves "essay" "Essay" "Essay"
              (ISO Samples.nine) (ISO (Samples.nine + 3600000))
              Samples.nine (Samples.nine + 3600000)
              (Samples.nine - 3600000) (Samples.nine - 3600000)
              (Samples.nine - 300000) (Samples.nine + 3300000)
              (subscribe 1 initial)) as (_ & _ & _ & _ & H4 & H5).
  - exact nobody_leaves_onlooker.
  - intros t [].
  - reflexivity.
  - reflexivity.
  - unfold within_range. vm_compute. split; discriminate.
  - unfold within_range. vm_compute. split; discriminate.
  - split; [exact (H4 nobody_leaves_returning)|exact H5].
Defined.

End Arming.

(** ** Completion reports and their feedback *)

Section Reports.
Import JS Notifier Terms.

Lemma handleTaskCompletion_facts (data : TaskCompletionData) (now : Z) (s : Service) :
  let s' := handleTaskCompletion data now s in
  let fid := "feedback_" +:+ completion_taskId data +:+ "_" +:+ pretty now in
  (∃ feedback,
     notifications s' = <[fid := feedback]> (notifications s)
     ∧ id feedback = fid ∧ delivered feedback = false ∧ actions feedback = None
     ∧ type feedback = system ∧ taskId feedback = Some (completion_taskId data))
  ∧ pending s'
    = pending s
      ++ [{| handle := next_handle s; callback := DeliverLater fid; due := now + 1000 |}]
  ∧ next_handle s' = Pos.succ (next_handle s)
  ∧ timers s' = timers s
  ∧ subscribers s' = subscribers s
  ∧ (status_is (completion_status data) "completed" = true →
       completion_logs s'
       = completion_logs s
         ++ [{| log_taskId := completion_taskId data; completedAt := ISO now;
                log_actualDuration := actualDuration data; log_notes := notes data |}]
       ∧ trace s' = trace s)
  ∧ (status_is (completion_status data) "not_completed" = true →
       completion_logs s' = completion_logs s
       ∧ ∃ task,
           trace s' = trace s ++ [IncompleteTaskCreated task]
           ∧ progress task = 0
           ∧ remainingDuration task = number_or (remainingMinutes data) 60
           ∧ originalDuration task = number_or (actualDuration data) 60)
  ∧ (status_is (completion_status data) "completed" = false →
     status_is (completion_status data) "partially_completed" = false →
     status_is (completion_status data) "not_completed" = false →
       completion_logs s' = completion_logs s ∧ trace s' = trace s).
Proof.
  intros s' fid. subst s'. unfold handleTaskCompletion.
  set (s0 := if status_is (completion_status data) "completed" then _ else _).
  assert (Hkept : notifications s0 = notifications s ∧ pending s0 = pending s
                  ∧ timers s0 = timers s ∧ next_handle s0 = next_handle s
                  ∧ subscribers s0 = subscribers s).
  { subst s0.
    destruct (status_is (completion_status data) "completed"); [repeat split|].
    destruct (status_is (completion_status data) "partially_completed").
    { unfold processPartiallyCompletedTask.
      destruct (remainingMinutes data) as [r|]; [|repeat split].
      destruct (negb (r =? 0) && (r >? 0)); repeat split. }
    destruct (status_is (completion_status data) "not_completed"); repeat split. }
  destruct Hkept as (Hn & Hp & Ht & Hh & Hs).
  split; [|split; [|split; [|split; [|split; [|split; [|split]]]]]].
  - eexists. unfold sendCompletionFeedback. simpl. rewrite Hn.
    split; [reflexivity|]. repeat split.
  - unfold sendCompletionFeedback. simpl. now rewrite Hp, Hh.
  - unfold sendCompletionFeedback. simpl. now rewrite Hh.
  - unfold sendCompletionFeedback. simpl. exact Ht.
  - unfold sendCompletionFeedback. simpl. exact Hs.
  - subst s0. intros ->. split; reflexivity.
  - subst s0. intros H.
    destruct (completion_status data) as [| | | |status| |] eqn:E; try discriminate H.
    simpl in H. apply String.eqb_eq in H. subst status. simpl.
    split; [reflexivity|]. eexists. split; [reflexivity|].
    unfold incompleteTask. simpl. rewrite E. repeat split.
  - subst s0. intros -> -> ->. split; reflexivity.
Qed.

(** X15. Every completion report, whatever its status, queues one
    feedback notification, undelivered and without actions, whose
    timeout is due a second later and is not recorded in [timers]; the
    subscribers are left alone. Beyond that a report of completion
    stores one log and creates no incomplete task; a report of no
    completion stores no log and creates one incomplete task with
    progress 0, with 60 minutes where the report gives no remaining or
    no actual duration; a report with any other status, partial
    completion apart, does neither. *)
Theorem report_outcomes (data : TaskCompletionData) (now : Z) (s : Service) :
  let s' := handleTaskCompletion data now s in
  let fid := "feedback_" +:+ completion_taskId data +:+ "_" +:+ pretty now in
  (∃ feedback,
     notifications s' = <[fid := feedback]> (notifications s)
     ∧ id feedback = fid ∧ delivered feedback = false ∧ actions feedback = None
     ∧ type feedback = system ∧ taskId feedback = Some (completion_taskId data))
  ∧ pending s'
    = pending s
      ++ [{| handle := next_handle s; callback := DeliverLater fid; due := now + 1000 |}]
  ∧ next_handle s' = Pos.succ (next_handle s)
  ∧ timers s' = timers s
  ∧ subscribers s' = subscribers s
  ∧ (status_is (completion_status data) "completed" = true →
       completion_logs s'
       = completion_logs s
         ++ [{| log_taskId := completion_taskId data; completedAt := ISO now;
                log_actualDuration := actualDuration data; log_notes := notes data |}]
       ∧ trace s' = trace s)
  ∧ (status_is (completion_status data) "not_completed" = true →
       completion_logs s' = completion_logs s
       ∧ ∃ task,
           trace s' = trace s ++ [IncompleteTaskCreated task]
           ∧ progress task = 0
           ∧ remainingDuration task = number_or (remainingMinutes data) 60
           ∧ originalDuration task = number_or (actualDuration data) 60)
  ∧ (status_is (completion_status data) "completed" = false →
     status_is (completion_status data) "partially_completed" = false →
     status_is (completion_status data) "not_completed" = false →
       completion_logs s' = completion_logs s ∧ trace s' = trace s).
Proof. apply handleTaskCompletion_facts. Qed.

Lemma report_outcomes_witness :
  completion_logs (handleTaskCompletion (Samples.completed_report (Some 25)) Samples.nine
                     Samples.armed)
  = [{| log_taskId := "essay"; completedAt := ISO Samples.nine;
        log_actualDuration := Some 25; log_notes := VUndefined |}]
  ∧ trace (handleTaskCompletion (Samples.completed_report (Some 25)) Samples.nine
             Samples.armed)
    = [].
Proof.
  destruct (report_outcomes (Samples.completed_report (Some 25)) Samples.nine Samples.armed)
    as (_ & _ & _ & _ & _ & Hdone & _).
  apply Hdone. reflexivity.
Defined.

(** The timeout a report queues is the one the host fires. *)
Lemma fire_feedback react data now c s :
  fresh_handles s →
  fire react c (next_handle s) (handleTaskCompletion data now s)
  = deliver_task react c
      ("feedback_" +:+ completion_taskId data +:+ "_" +:+ pretty now)
      (clearTimeout (next_handle s) (handleTaskCompletion data now s)).
Proof.
  intros Hf.
  destruct (handleTaskCompletion_facts data now s) as (_ & Hp & _).
  eapply fire_delivers with
    (t := {| handle := next_handle s;
             callback := DeliverLater
                           ("feedback_" +:+ completion_taskId data +:+ "_" +:+ pretty now);
             due := now + 1000 |}); [|reflexivity].
  cbv zeta in Hp. rewrite Hp. apply find_fresh; [|reflexivity].
  apply fresh_below; [exact Hf|lia].
Qed.

(** X16. When the host fires the timeout a completion report has
    queued, the callbacks keeping to the subscriber list, the feedback
    is delivered: it is marked delivered and broadcast, at most as
    many callbacks being called as are subscribed, the first
    subscriber first, and exactly the subscribers in their order when
    the callbacks leave the service alone. One page event is
    dispatched for it when the callbacks return, and never more than
    one. Firing the same handle again does nothing. *)
Theorem completion_feedback_is_delivered
    (react : Callbacks) (data : TaskCompletionData) (now c : Z) (s : Service) :
  onlooker react →
  fresh_handles s →
  let fid := "feedback_" +:+ completion_taskId data +:+ "_" +:+ pretty now in
  let s1 := handleTaskCompletion data now s in
  let s2 := fire react c (next_handle s) s1 in
  timers s1 = timers s
  ∧ (∃ feedback,
       notifications s2 !! fid = Some feedback
       ∧ delivered feedback = true
       ∧ type feedback = system
       ∧ taskId feedback = Some (completion_taskId data))
  ∧ (dispatched fid (trace s2) ≤ S (dispatched fid (trace s1)))%nat
  ∧ (returning react → dispatched fid (trace s2) = S (dispatched fid (trace s1)))
  ∧ (∃ called,
       called_about fid (trace s2) = called_about fid (trace s1) ++ called
       ∧ (length called ≤ length (subscribers s))%nat
       ∧ (∀ cb rest, subscribers s = cb :: rest → ∃ more, called = cb :: more)
       ∧ ((∀ cb, In cb (subscribers s) → ∀ n0 s0, react cb n0 s0 = Done s0) →
          called = subscribers s))
  ∧ ∀ c', trace (fire react c' (next_handle s) s2) = trace s2.
Proof.
  intros Hon Hf fid s1 s2.
  destruct (handleTaskCompletion_facts data now s)
    as ((feedback & Hn & Hid & Hd & _ & Hty & Htask) & Hp & Hh & Ht & Hsubs & _).
  fold fid in Hn, Hid, Hp. fold s1 in Hn, Hp, Hh, Ht, Hsubs.
  assert (Hfire : s2 = deliver_task react c fid (clearTimeout (next_handle s) s1))
    by (apply fire_feedback; exact Hf).
  assert (Hk : notifications (clearTimeout (next_handle s) s1) !! fid = Some feedback).
  { change (notifications s1 !! fid = Some feedback).
    rewrite Hn. apply lookup_insert_eq. }
  destruct (deliver_fresh react c fid _ feedback Hon Hk Hd)
    as (subs & called & tail & extra & Hns & _ & _ & Htr & Hp2 & Hextra
        & Hlen & Hfirst & Hquiet & Htail & Hret).
  rewrite <- Hfire in Hns, Htr, Hp2. cbv zeta in Hns, Htr, Hp2, Htail, Hret.
  change (subscribers (clearTimeout (next_handle s) s1)) with (subscribers s1)
    in Hlen, Hfirst, Hquiet.
  change (trace (clearTimeout (next_handle s) s1)) with (trace s1) in Htr.
  rewrite Hsubs in Hlen, Hfirst, Hquiet.
  assert (Hk2 : notifications s2 !! fid = Some (with_delivered true feedback)).
  { rewrite Hns. apply lookup_insert_eq. }
  assert (Heq : String.eqb (id (with_delivered true feedback)) fid = true).
  { simpl. rewrite Hid. apply String.eqb_refl. }
  destruct (tail_about fid (clearTimeout (next_handle s) s1) _ tail Htail)
    as (Hc & Hle & Hex).
  rewrite Heq in Hle, Hex.
  split; [exact Ht|]. split.
  { exists (with_delivered true feedback). split; [exact Hk2|]. repeat split; assumption. }
  split.
  { rewrite Htr, !dispatched_app, dispatched_calls. lia. }
  split.
  { intros Hr. rewrite Htr, !dispatched_app, dispatched_calls, (Hex (Hret Hr)). lia. }
  split.
  { exists called.
    rewrite Htr, !called_about_app, called_about_calls, Heq, Hc, app_nil_r. auto. }
  intros c'. unfold fire. rewrite find_absent; [reflexivity|].
  intros t Hin. apply Pos.eqb_neq.
  change (pending (clearTimeout (next_handle s) s1))
    with (List.filter (fun t => negb (Pos.eqb (handle t) (next_handle s))) (pending s1))
    in Hp2.
  change (next_handle (clearTimeout (next_handle s) s1)) with (next_handle s1) in Hextra.
  rewrite Hp2 in Hin. apply in_app_or in Hin as [Hin|Hin].
  - apply List.filter_In in Hin as [_ Hne].
    apply negb_true_iff, Pos.eqb_neq in Hne. exact Hne.
  - rewrite (Hextra t Hin), Hh. lia.
Qed.

Lemma completion_feedback_is_delivered_witness :
  let fid := "feedback_essay_" +:+ pretty Samples.nine in
  let s1 := handleTaskCompletion (Samples.completed_report (Some 25)) Samples.nine
              Samples.armed in
  let s2 := fire Samples.nobody_leaves (Samples.nine + 1000) 2 s1 in
  dispatched fid (trace s2) = 1%nat
  ∧ called_about fid (trace s2) = [1%nat; 2%nat].
Proof.
  destruct (completion_feedback_is_delivered Samples.nobody_leaves
              (Samples.completed_report (Some 25)) Samples.nine (Samples.nine + 1000)
              Samples.armed) as (_ & _ & _ & Hd & _ & _).
  - exact nobody_leaves_onlooker.
  - intros t [<-|[]]. simpl. lia.
  - split; [exact (Hd nobody_leaves_returning)|reflexivity].
Defined.

End Reports.

(** ** Action buttons and cleanup *)

Section Buttons.
Import JS Notifier Terms.

(** X17. The three buttons of an end-of-task prompt. Each files a
    report for the prompt's task with no durations and no notes:
    Completed stores one log; Partial stores nothing and creates no
    incomplete task, since the report carries no remaining minutes;
    Not Done creates an incomplete task of 60 remaining minutes out of
    60, with progress 0. *)
Theorem end_prompt_buttons
    (task taskName : string) (endTime : timetext) (ended armed_at now : Z) (s : Service) :
  Date_of endTime = Some ended →
  let s1 := state_of (scheduleTaskEndNotification task taskName endTime armed_at s) in
  let report status := {|
    completion_taskId := task;
    completion_status := VString status;
    actualDuration := None;
    remainingMinutes := None;
    notes := VUndefined;
    reason := VUndefined
  |} in
  (∃ s', handleNotificationAction now ("end_" +:+ task) "completed" s1 = Done s'
         ∧ s' = handleTaskCompletion (report "completed") now s1
         ∧ completion_logs s'
           = completion_logs s
             ++ [{| log_taskId := task; completedAt := ISO now;
                    log_actualDuration := None; log_notes := VUndefined |}]
         ∧ trace s' = trace s)
  ∧ (∃ s', handleNotificationAction now ("end_" +:+ task) "partial" s1 = Done s'
           ∧ s' = handleTaskCompletion (report "partially_completed") now s1
           ∧ completion_logs s' = completion_logs s
           ∧ trace s' = trace s)
  ∧ (∃ s', handleNotificationAction now ("end_" +:+ task) "not_completed" s1 = Done s'
           ∧ s' = handleTaskCompletion (report "not_completed") now s1
           ∧ completion_logs s' = completion_logs s
           ∧ trace s'
             = trace s
               ++ [IncompleteTaskCreated
                     {| incomplete_id := "incomplete_" +:+ pretty now;
                        incomplete_name := "Incomplete: " +:+ task;
                        originalDuration := 60;
                        remainingDuration := 60;
                        priority := "medium";
                        sourceDate := utc_day now;
                        progress := 0;
                        incomplete_notes := VString "Task needs to be rescheduled" |}]).
Proof.
  intros He s1 report. subst s1. unfold scheduleTaskEndNotification. rewrite He.
  unfold handleNotificationAction. simpl. rewrite !lookup_insert_eq. simpl.
  repeat split; eexists; (split; [reflexivity|]); repeat split.
Qed.

Lemma end_prompt_buttons_witness :
  let s1 :=
    state_of (scheduleTaskEndNotification "essay" "Essay" (ISO (Samples.nine + 1800000))
                Samples.nine Samples.armed) in
  ∃ s', handleNotificationAction (Samples.nine + 1800000) "end_essay" "partial" s1 = Done s'
        ∧ completion_logs s' = []
        ∧ trace s' = [].
Proof.
  destruct (end_prompt_buttons "essay" "Essay" (ISO (Samples.nine + 1800000))
              (Samples.nine + 1800000) Samples.nine (Samples.nine + 1800000)
              Samples.armed eq_refl) as (_ & (s' & H1 & _ & H3 & H4) & _).
  exists s'. split; [exact H1|]. split; [exact H3|exact H4].
Defined.

(** X18. The Start Now button of a start reminder, armed for a
    reminder time in the range of Date, files a report of completion:
    a completion log for the task is stored and a feedback
    notification saying that the task was completed is queued; the
    reminder's own timeout stays pending and recorded. *)
Theorem start_button_records_completion
    (task taskName : string) (startTime : timetext) (started armed_at now : Z)
    (s : Service) :
  Date_of startTime = Some started →
  within_range (started - 300000) →
  let k := "start_" +:+ task in
  let s1 := state_of (scheduleTaskStartNotification task taskName startTime armed_at s) in
  ∃ s' feedback,
    handleNotificationAction now k "start" s1 = Done s'
    ∧ completion_logs s'
      = completion_logs s
        ++ [{| log_taskId := task; completedAt := ISO now;
               log_actualDuration := None; log_notes := VUndefined |}]
    ∧ notifications s' !! ("feedback_" +:+ task +:+ "_" +:+ pretty now) = Some feedback
    ∧ message feedback = "Great job! Task completed successfully."
    ∧ timers s' = timers s1
    ∧ pending s'
      = pending s1
        ++ [{| handle := next_handle s1;
               callback := DeliverLater ("feedback_" +:+ task +:+ "_" +:+ pretty now);
               due := now + 1000 |}].
Proof.
  intros Hs Hr k s1. subst s1. unfold scheduleTaskStartNotification.
  rewrite (shifted_back _ _ Hs Hr).
  unfold handleNotificationAction. simpl. rewrite !lookup_insert_eq. simpl.
  eexists. eexists. split; [reflexivity|]. simpl. rewrite lookup_insert_eq.
  repeat split.
Qed.

Lemma start_button_records_completion_witness :
  ∃ s', handleNotificationAction Samples.nine "start_essay" "start" Samples.armed = Done s'
        ∧ completion_logs s'
          = [{| log_taskId := "essay"; completedAt := ISO Samples.nine;
                log_actualDuration := None; log_notes := VUndefined |}].
Proof.
  destruct (start_button_records_completion "essay" "Essay" (ISO Samples.nine) Samples.nine
              (Samples.nine - 60 * 60000) Samples.nine
              (subscribe 2 (subscribe 1 initial)) eq_refl)
    as (s' & feedback & H1 & H2 & _).
  - unfold within_range. vm_compute. split; discriminate.
  - exists s'. split; [exact H1|exact H2].
Defined.

Lemma well_keyed_insert k n s :
  id n = k → well_keyed s →
  ∀ s', notifications s' = <[k := n]> (notifications s) → well_keyed s'.
Proof.
  intros Hid Hw s' Hs k0 n0. rewrite Hs, lookup_insert.
  destruct (decide (k = k0)) as [<-|Hne]; [|apply Hw].
  intros H. inversion H; subst n0. exact Hid.
Qed.

Lemma well_keyed_same s s' :
  notifications s' = notifications s → well_keyed s → well_keyed s'.
Proof. intros Hs Hw k n. rewrite Hs. apply Hw. Qed.

Lemma snoozeNotification_well_keyed now k minutes s :
  well_keyed s → well_keyed (state_of (snoozeNotification now k minutes s)).
Proof.
  intros Hw. unfold snoozeNotification.
  destruct (notifications s !! k) as [n|] eqn:Hn; [|exact Hw].
  assert (Hid : id n = k) by apply (Hw _ _ Hn).
  set (s0 := match timers s !! k with
             | Some existingTimer => clearTimeout existingTimer s
             | None => s
             end).
  assert (Hs0 : notifications s0 = notifications s)
    by (subst s0; destruct (timers s !! k); reflexivity).
  assert (Hw0 : well_keyed s0) by (apply (well_keyed_same s); assumption).
  assert (Hw1 : well_keyed
                  (set_notifications (<[k := with_delivered false n]> (notifications s0)) s0)).
  { apply (well_keyed_insert k (with_delivered false n) s0); [exact Hid|exact Hw0|].
    reflexivity. }
  destruct (num_mul _ _) as [|delay]; [exact Hw1|].
  destruct (toISOString _) as [later|e]; [|exact Hw1].
  simpl.
  eapply (well_keyed_insert k (with_scheduledTime later (with_delivered false n)));
    [exact Hid|exact Hw1|reflexivity].
Qed.

(** Every notification is registered under its own id in every state
    the service reaches: the empty service is so, and every method
    keeps it so. *)
Lemma well_keyed_is_kept s :
  well_keyed s →
  (∀ cb, well_keyed (subscribe cb s))
  ∧ (∀ task taskName startTime now,
       well_keyed (state_of (scheduleTaskStartNotification task taskName startTime now s)))
  ∧ (∀ task taskName endTime now,
       well_keyed (state_of (scheduleTaskEndNotification task taskName endTime now s)))
  ∧ (∀ data now, well_keyed (handleTaskCompletion data now s))
  ∧ (∀ now k minutes, well_keyed (state_of (snoozeNotification now k minutes s)))
  ∧ (∀ now k actionId, well_keyed (state_of (handleNotificationAction now k actionId s)))
  ∧ well_keyed (cleanup s).
Proof.
  intros Hw.
  assert (Hreport : ∀ data now, well_keyed (handleTaskCompletion data now s)).
  { intros data now.
    destruct (handleTaskCompletion_facts data now s) as ((feedback & Hn & Hid & _) & _).
    cbv zeta in Hn, Hid.
    apply (well_keyed_insert _ feedback s Hid Hw). exact Hn. }
  split; [intros cb; apply subscribe_well_keyed, Hw|].
  split.
  { intros task taskName startTime now. unfold scheduleTaskStartNotification.
    destruct (shifted _ _); [apply arm_well_keyed|]; exact Hw. }
  split.
  { intros task taskName endTime now. unfold scheduleTaskEndNotification.
    destruct (Date_of endTime); [apply arm_well_keyed|]; exact Hw. }
  split; [exact Hreport|].
  split; [intros now k minutes; apply snoozeNotification_well_keyed, Hw|].
  split.
  { intros now k actionId. unfold handleNotificationAction.
    destruct (notifications s !! k) as [n|]; [|exact Hw].
    destruct (match actions n with Some l => _ | None => None end) as [a|]; [|exact Hw].
    destruct (action_type a); try exact Hw.
    - apply snoozeNotification_well_keyed, Hw.
    - apply Hreport. }
  intros k n H. unfold cleanup in H. simpl in H. rewrite lookup_empty in H. discriminate.
Qed.

End Buttons.

(** ** Applying and modifying a schedule *)

Section Applying.
Import JS Scheduler Applier Terms.

Lemma arm_facts notification at_time now n :
  let n' := Notifier.arm notification at_time now n in
  length (Notifier.pending n') = S (length (Notifier.pending n))
  ∧ Notifier.subscribers n' = Notifier.subscribers n
  ∧ Notifier.trace n' = Notifier.trace n
  ∧ Notifier.notifications n'
    = <[Notifier.id notification := notification]> (Notifier.notifications n).
Proof.
  unfold Notifier.arm. simpl. rewrite length_app. simpl. repeat split. lia.
Qed.

(** What arming the reminders of a task list comes to. *)
Lemma arm_tasks_outcome clock tasks :
  ∀ call n,
    if forallb (fun t => bool_decide (Notifier.shifted (Date_of (start t))
                                        (- (5 * 60 * 1000)) ≠ None)
                         && bool_decide (Date_of (end_ t) ≠ None)) tasks
    then ∃ n',
           arm_tasks clock call tasks n = Notifier.Done n'
           ∧ length (Notifier.pending n')
             = (length (Notifier.pending n) + 2 * length tasks)%nat
           ∧ Notifier.subscribers n' = Notifier.subscribers n
           ∧ Notifier.trace n' = Notifier.trace n
           ∧ (∀ k, is_Some (Notifier.notifications n !! k) →
                   is_Some (Notifier.notifications n' !! k))
           ∧ ∀ t, In t tasks →
                  is_Some (Notifier.notifications n' !! ("start_" +:+ task_id t))
                  ∧ is_Some (Notifier.notifications n' !! ("end_" +:+ task_id t))
    else ∃ n', arm_tasks clock call tasks n = Notifier.Raised RangeError n'.
Proof.
  induction tasks as [|t tasks IH]; intros call n; simpl.
  - exists n. repeat split; auto; try lia; intros t0 [].
  - unfold Notifier.scheduleTaskStartNotification, Notifier.scheduleTaskEndNotification.
    destruct (Notifier.shifted (Date_of (start t)) (- (5 * 60 * 1000))) as [s|] eqn:Hs;
      simpl; [|eauto].
    destruct (Date_of (end_ t)) as [e|] eqn:He; simpl; [|eauto].
    match goal with
    | |- context [arm_tasks clock _ tasks (Notifier.arm ?b ?eb ?cb (Notifier.arm ?a ?ea ?ca n))] =>
        destruct (arm_facts a ea ca n) as (Hp1 & Hs1 & Ht1 & Hn1);
        destruct (arm_facts b eb cb (Notifier.arm a ea ca n)) as (Hp2 & Hs2 & Ht2 & Hn2);
        cbn [Notifier.id] in Hn1, Hn2;
        set (n1 := Notifier.arm a ea ca n) in *;
        set (n2 := Notifier.arm b eb cb n1) in *
    end.
    clearbody n2. clearbody n1.
    specialize (IH (S (S call)) n2).
    destruct (forallb _ tasks).
    + destruct IH as (n' & Hrun & Hp & Hsub & Htr & Hkeep & Hall).
      exists n'. split; [exact Hrun|]. split; [lia|]. split; [congruence|].
      split; [congruence|].
      assert (Hkeep2 : ∀ k, is_Some (Notifier.notifications n !! k) →
                            is_Some (Notifier.notifications n2 !! k)).
      { intros k Hk. rewrite Hn2, Hn1.
        rewrite !lookup_insert. repeat case_decide; eauto. }
      split; [intros k Hk; apply Hkeep, Hkeep2, Hk|].
      intros t' [<-|Hin]; [|apply Hall, Hin].
      split; apply Hkeep; rewrite Hn2, ?Hn1.
      * rewrite lookup_insert_ne by discriminate. rewrite lookup_insert_eq. eauto.
      * rewrite lookup_insert_eq. eauto.
    + exact IH.
Qed.

Lemma appliable_split tasks :
  forallb appliable tasks
  = forallb describable (List.filter (fun t => negb (fixed t)) tasks)
    && forallb (fun t => bool_decide (Notifier.shifted (Date_of (start t))
                                        (- (5 * 60 * 1000)) ≠ None)
                         && bool_decide (Date_of (end_ t) ≠ None)) tasks.
Proof.
  induction tasks as [|t tasks IH]; simpl; [reflexivity|].
  rewrite IH. unfold appliable.
  destruct (fixed t); simpl;
    repeat match goal with
           | |- context [bool_decide ?P] => destruct (bool_decide P)
           | |- context [describable ?x] => destruct (describable x)
           | |- context [forallb ?f ?l] => destruct (forallb f l)
           end; reflexivity.
Qed.

Lemma applySchedule_facts
    (clock : nat → Z) (candidate : ScheduleCandidate) (st : State) :
  let day_tasks := tasks (schedule candidate) in
  if forallb appliable day_tasks
  then ∃ n,
         applySchedule clock candidate st
         = Applied {| currentSchedule := Some (schedule candidate);
                      userPreferences := userPreferences st;
                      notifier := n |}
         ∧ (∀ t, In t day_tasks →
                 is_Some (Notifier.notifications n !! ("start_" +:+ task_id t))
                 ∧ is_Some (Notifier.notifications n !! ("end_" +:+ task_id t)))
         ∧ length (Notifier.pending n)
           = (length (Notifier.pending (notifier st)) + 2 * length day_tasks)%nat
         ∧ Notifier.subscribers n = Notifier.subscribers (notifier st)
         ∧ Notifier.trace n = Notifier.trace (notifier st)
  else ∃ st',
         applySchedule clock candidate st = Failed (Error "Failed to apply schedule") st'
         ∧ currentSchedule st' = currentSchedule st
         ∧ userPreferences st' = userPreferences st.
Proof.
  intros day_tasks. unfold applySchedule. fold day_tasks.
  rewrite appliable_split.
  destruct (forallb describable _); simpl; [|exists st; auto].
  pose proof (arm_tasks_outcome clock day_tasks 0 (notifier st)) as H.
  destruct (forallb _ day_tasks).
  - destruct H as (n & -> & Hp & Hs & Ht & _ & Hall).
    exists n. repeat split; try assumption; apply Hall; assumption.
  - destruct H as (n & ->). eexists. repeat split.
Qed.

(** X20. [applySchedule] succeeds exactly when every task of the
    candidate has a readable start and end, its reminder time in the
    range of Date, and every task that is not fixed has a list of
    targets. It then makes the candidate's payload
    the current schedule, registers a start reminder and an end prompt
    for every task, queues two timeouts per task and calls no
    subscriber. Otherwise it throws the error Failed to apply schedule
    and the current schedule and the preferences stay as they were. *)
Theorem applying_outcome
    (clock : nat → Z) (candidate : ScheduleCandidate) (st : State) :
  let day_tasks := tasks (schedule candidate) in
  if forallb appliable day_tasks
  then ∃ n,
         applySchedule clock candidate st
         = Applied {| currentSchedule := Some (schedule candidate);
                      userPreferences := userPreferences st;
                      notifier := n |}
         ∧ (∀ t, In t day_tasks →
                 is_Some (Notifier.notifications n !! ("start_" +:+ task_id t))
                 ∧ is_Some (Notifier.notifications n !! ("end_" +:+ task_id t)))
         ∧ length (Notifier.pending n)
           = (length (Notifier.pending (notifier st)) + 2 * length day_tasks)%nat
         ∧ Notifier.subscribers n = Notifier.subscribers (notifier st)
         ∧ Notifier.trace n = Notifier.trace (notifier st)
  else ∃ st',
         applySchedule clock candidate st = Failed (Error "Failed to apply schedule") st'
         ∧ currentSchedule st' = currentSchedule st
         ∧ userPreferences st' = userPreferences st.
Proof. apply applySchedule_facts. Qed.

Lemma normalizeCourse_describable now i row t :
  normalizeCourse now i row = Return (Some t) → describable t = true.
Proof.
  unfold normalizeCourse. intros H.
  destruct (get row "day_of_week"); [|discriminate].
  destruct (get row "start_time"); [|discriminate].
  destruct (get row "end_time"); [|discriminate].
  destruct (get row "event_name"); [|discriminate].
  cbn [mbind result_bind] in H.
  destruct (_ && _); inversion H. reflexivity.
Qed.

Lemma normalizePriority_describable i row t :
  normalizePriority i row = Return (Some t) → describable t = true.
Proof.
  unfold normalizePriority. intros H.
  destruct (get row "name"); [|discriminate].
  destruct (get row "preferred_time"); [|discriminate].
  destruct (get row "duration"); [|discriminate].
  destruct (get row "priority"); [|discriminate].
  destruct (get row "targets") as [v5|]; [|discriminate].
  destruct (get row "difficulty"); [|discriminate].
  cbn [mbind result_bind] in H.
  destruct (truthy v5).
  - destruct v5; try discriminate H. simpl in H. inversion H. reflexivity.
  - simpl in H. inversion H. reflexivity.
Qed.

Lemma normalizeIncomplete_describable i row t :
  normalizeIncomplete i row = Return (Some t) → describable t = true.
Proof.
  unfold normalizeIncomplete. intros H.
  destruct (get row "name"); [|discriminate].
  destruct (get row "remaining_duration"); [|discriminate].
  destruct (get row "priority"); [|discriminate].
  destruct (get row "difficulty"); [|discriminate].
  destruct (get row "progress"); [|discriminate].
  cbn [mbind result_bind] in H. inversion H. reflexivity.
Qed.

Lemma normalizeTasks_describable now cs ps ics tasks :
  normalizeTasks now cs ps ics = Return tasks →
  Forall (fun t => describable t = true) tasks.
Proof.
  unfold normalizeTasks. intros H.
  destruct (collect (normalizeCourse now) 0 cs) as [a|] eqn:Ha; [|discriminate].
  destruct (collect normalizePriority 0 ps) as [b|] eqn:Hb; [|discriminate].
  destruct (collect normalizeIncomplete 0 ics) as [c|] eqn:Hc; [|discriminate].
  cbn [mbind result_bind] in H. inversion H; subst tasks.
  rewrite !Forall_app. repeat split.
  - eapply (collect_Forall (normalizeCourse now)); [|exact Ha].
    intros i row t. apply normalizeCourse_describable.
  - eapply (collect_Forall normalizePriority); [|exact Hb].
    intros i row t. apply normalizePriority_describable.
  - eapply (collect_Forall normalizeIncomplete); [|exact Hc].
    intros i row t. apply normalizeIncomplete_describable.
Qed.

(** X21. The normaliser, the fallback packer and [applySchedule]
    compose: a candidate the packer builds from the tasks that
    [normalizeTasks] returned is applied whenever the reminder times
    of its tasks are in the range of Date, with two timeouts queued
    for each normalised task. *)
Theorem normalised_fallback_candidate_applies
    (clock : nat → Z) (prefs : UserPreferences) (now generated : Z)
    (courseSchedule priorityTasks incompleteTasks : list value) (all_tasks : list Task)
    (date : daytext) (userId : string) (built : list ScheduleCandidate)
    (candidate : ScheduleCandidate) (st : State) :
  normalizeTasks now courseSchedule priorityTasks incompleteTasks = Return all_tasks →
  generateFallbackSchedule prefs generated all_tasks date userId = Return built →
  In candidate built →
  Forall remindable (tasks (schedule candidate)) →
  ∃ n,
    applySchedule clock candidate st
    = Applied {| currentSchedule := Some (schedule candidate);
                 userPreferences := userPreferences st;
                 notifier := n |}
    ∧ length (Notifier.pending n)
      = (length (Notifier.pending (notifier st)) + 2 * length all_tasks)%nat.
Proof.
  intros Hnorm Hgen Hin Hrem.
  pose proof (normalizeTasks_describable _ _ _ _ _ Hnorm) as Hdesc.
  unfold generateFallbackSchedule in Hgen.
  destruct (allocate _ _ _) as [out|] eqn:Hout; [|discriminate].
  simpl in Hgen. inversion Hgen; subst built. clear Hgen.
  destruct Hin as [<-|[]]. simpl in Hrem.
  destruct (allocate_chain _ _ _ _ Hout) as (starts & Hlen & Heq & _).
  assert (Hok : forallb appliable out = true).
  { apply forallb_forall. intros a Ha.
    pose proof (proj1 (List.Forall_forall _ _) Hrem a Ha) as Hr.
    apply list_elem_of_In, list_elem_of_lookup in Ha as (i & Ha).
    rewrite Heq in Ha. apply zip_with_lookup_times in Ha as (t & s & Ht & _ & ->).
    unfold appliable.
    rewrite (shifted_back (start (with_times t (ISO s.1) (ISO s.2))) s.1 eq_refl
               (Hr s.1 eq_refl)).
    simpl.
    assert (Hd : describable t = true).
    { apply (proj1 (Forall_forall _ _) (sort_Forall _ by_priority _ Hdesc)).
      apply list_elem_of_lookup. eauto. }
    unfold describable in Hd |- *. simpl. rewrite Hd, orb_true_r. reflexivity. }
  match goal with
  | |- context [applySchedule clock ?c st] =>
      pose proof (applySchedule_facts clock c st) as H
  end.
  cbv zeta in H. cbn [schedule tasks] in H. rewrite Hok in H.
  destruct H as (n & Happly & _ & Hp & _).
  exists n. split; [exact Happly|].
  rewrite Hp. f_equal. f_equal.
  rewrite Heq, length_zip_with, Hlen, Nat.min_id.
  apply Permutation_length, sort_Permutation.
Qed.

Lemma normalised_fallback_candidate_applies_witness :
  ∃ all_tasks candidate n,
    normalizeTasks Samples.midnight_utc []
      [Samples.numbered_row 80; Samples.numbered_row 90] [] = Return all_tasks
    ∧ generateFallbackSchedule default_preferences Samples.midnight_utc all_tasks
        (Day Samples.midnight_local) "user_1" = Return [candidate]
    ∧ applySchedule (fun _ => Samples.midnight_utc) candidate
        {| currentSchedule := None; userPreferences := default_preferences;
           notifier := Notifier.initial |}
      = Applied {| currentSchedule := Some (schedule candidate);
                   userPreferences := default_preferences;
                   notifier := n |}
    ∧ length (Notifier.pending n) = 4%nat.
Proof.
  eexists. eexists.
  unshelve refine (let H :=
            normalised_fallback_candidate_applies (fun _ => Samples.midnight_utc)
              default_preferences Samples.midnight_utc Samples.midnight_utc
              [] [Samples.numbered_row 80; Samples.numbered_row 90] [] _
              (Day Samples.midnight_local) "user_1" _ _
              {| currentSchedule := None; userPreferences := default_preferences;
                 notifier := Notifier.initial |}
              eq_refl eq_refl (or_introl eq_refl) _ in _).
  - simpl. constructor; [|constructor; [|constructor]];
      intros s Hs; simpl in Hs; inversion Hs; subst s;
      unfold within_range; vm_compute; split; discriminate.
  - destruct H as (n & H1 & H2). exists n.
    split; [reflexivity|]. split; [reflexivity|]. split; [exact H1|exact H2].
Defined.

(** X22. A failed [applySchedule] is not undone. When the targets can
    be described and the first task whose start or end cannot be read
    comes after tasks whose times can, the call throws and the current
    schedule stays as it was, but the reminders and prompts of the
    tasks before it are registered and their timeouts stay queued. *)
Theorem failed_apply_leaves_reminders_armed
    (clock : nat → Z) (candidate : ScheduleCandidate) (st : State)
    (good rest : list Task) (bad : Task) :
  tasks (schedule candidate) = good ++ bad :: rest →
  forallb describable (List.filter (fun t => negb (fixed t)) (tasks (schedule candidate)))
  = true →
  forallb appliable good = true →
  Date_of (start bad) = None ∨ Date_of (end_ bad) = None →
  ∃ st',
    applySchedule clock candidate st = Failed (Error "Failed to apply schedule") st'
    ∧ currentSchedule st' = currentSchedule st
    ∧ (∀ t, In t good →
            is_Some (Notifier.notifications (notifier st') !! ("start_" +:+ task_id t))
            ∧ is_Some (Notifier.notifications (notifier st') !! ("end_" +:+ task_id t)))
    ∧ (length (Notifier.pending (notifier st) ) + 2 * length good
       ≤ length (Notifier.pending (notifier st')))%nat.
Proof.
  intros Htasks Hdesc Hgood Hbad. unfold applySchedule. rewrite Hdesc, Htasks.
  clear Htasks Hdesc.
  assert (Hrun : ∀ call n,
    ∃ n', arm_tasks clock call (good ++ bad :: rest) n = Notifier.Raised RangeError n'
          ∧ (∀ k, is_Some (Notifier.notifications n !! k) →
                  is_Some (Notifier.notifications n' !! k))
          ∧ (∀ t, In t good →
                  is_Some (Notifier.notifications n' !! ("start_" +:+ task_id t))
                  ∧ is_Some (Notifier.notifications n' !! ("end_" +:+ task_id t)))
          ∧ (length (Notifier.pending n) + 2 * length good
             ≤ length (Notifier.pending n'))%nat).
  { induction good as [|t good IH]; intros call n.
    - simpl.
      unfold Notifier.scheduleTaskStartNotification, Notifier.scheduleTaskEndNotification.
      destruct (Notifier.shifted (Date_of (start bad)) (- (5 * 60 * 1000))) as [s|] eqn:Hs;
        simpl.
      + destruct Hbad as [Hbad|Hbad]; [rewrite Hbad in Hs; discriminate|]. rewrite Hbad.
        eexists. split; [reflexivity|]. split; [|split; [intros t []|]].
        * intros k Hk. simpl. rewrite lookup_insert. case_decide; eauto.
        * simpl. rewrite length_app. simpl. lia.
      + exists n. split; [reflexivity|]. split; [auto|]. split; [intros t []|lia].
    - simpl in Hgood. apply andb_true_iff in Hgood as [Ht Hgood].
      unfold appliable in Ht. apply andb_true_iff in Ht as [Ht He].
      apply andb_true_iff in Ht as [_ Hs].
      apply bool_decide_eq_true_1 in Hs, He.
      simpl.
      unfold Notifier.scheduleTaskStartNotification, Notifier.scheduleTaskEndNotification.
      destruct (Notifier.shifted (Date_of (start t)) (- (5 * 60 * 1000))) as [s|];
        [|contradiction]. simpl.
      destruct (Date_of (end_ t)) as [e|]; [|contradiction].
      match goal with
      | |- context [arm_tasks clock _ _ (Notifier.arm ?b ?eb ?cb (Notifier.arm ?a ?ea ?ca n))] =>
          destruct (arm_facts a ea ca n) as (Hp1 & Hs1 & Ht1 & Hn1);
          destruct (arm_facts b eb cb (Notifier.arm a ea ca n)) as (Hp2 & Hs2 & Ht2 & Hn2);
          cbn [Notifier.id] in Hn1, Hn2;
          set (n1 := Notifier.arm a ea ca n) in *;
          set (n2 := Notifier.arm b eb cb n1) in *
      end.
      clearbody n2. clearbody n1.
      destruct (IH Hgood (S (S call)) n2) as (n' & Hrun & Hkeep & Hall & Hlen).
      exists n'. split; [exact Hrun|].
      assert (Hkeep2 : ∀ k, is_Some (Notifier.notifications n !! k) →
                            is_Some (Notifier.notifications n2 !! k)).
      { intros k Hk. rewrite Hn2, Hn1.
        rewrite !lookup_insert. repeat case_decide; eauto. }
      split; [intros k Hk; apply Hkeep, Hkeep2, Hk|]. split; [|simpl; lia].
      intros t' [<-|Hin]; [|apply Hall, Hin].
      split; apply Hkeep; rewrite Hn2, ?Hn1.
      * rewrite lookup_insert_ne by discriminate. rewrite lookup_insert_eq. eauto.
      * rewrite lookup_insert_eq. eauto. }
  destruct (Hrun 0%nat (notifier st)) as (n' & -> & _ & Hall & Hlen).
  eexists. split; [reflexivity|]. simpl. auto.
Qed.

Lemma failed_apply_leaves_reminders_armed_witness :
  ∃ st',
    applySchedule (fun _ => Samples.midnight_utc)
      {| id := "candidate_1";
         schedule := {| user_id := "user_1"; date := Day Samples.midnight_local;
                        timezone := "Asia/Kolkata";
                        tasks := [Samples.essay_placed; Samples.plain_task "notes" 60 80];
                        generated_at := ISO Samples.midnight_utc;
                        agent_version := "1.0.0";
                        explainability := "Two tasks" |};
         score := 85; explanation := "Two tasks"; conflicts := [] |}
      {| currentSchedule := None; userPreferences := default_preferences;
         notifier := Notifier.initial |}
    = Failed (Error "Failed to apply schedule") st'
    ∧ currentSchedule st' = None
    ∧ is_Some (Notifier.notifications (notifier st') !! "start_essay").
Proof.
  destruct (failed_apply_leaves_reminders_armed (fun _ => Samples.midnight_utc)
              {| id := "candidate_1";
                 schedule := {| user_id := "user_1"; date := Day Samples.midnight_local;
                                timezone := "Asia/Kolkata";
                                tasks := [Samples.essay_placed;
                                          Samples.plain_task "notes" 60 80];
                                generated_at := ISO Samples.midnight_utc;
                                agent_version := "1.0.0";
                                explainability := "Two tasks" |};
                 score := 85; explanation := "Two tasks"; conflicts := [] |}
              {| currentSchedule := None; userPreferences := default_preferences;
                 notifier := Notifier.initial |}
              [Samples.essay_placed] [] (Samples.plain_task "notes" 60 80)
              eq_refl eq_refl eq_refl (or_intror eq_refl))
    as (st' & H1 & H2 & H3 & _).
  exists st'. split; [exact H1|]. split; [exact H2|].
  apply (H3 Samples.essay_placed). left. reflexivity.
Defined.

(** X23. [handleChatModification] throws the error No active schedule
    to modify when no schedule has been applied. Otherwise, whatever
    the message and whatever the reasoning service answers, it returns
    one candidate, modified_1 with score 70, whose schedule is the
    current schedule itself. *)
Theorem chat_modification_changes_nothing
    (JSON_parse : string → option value) (http : Gemini.transport) (message : string)
    (st : State) :
  match currentSchedule st with
  | None =>
      handleChatModification JSON_parse http message st
      = Throw (Error "No active schedule to modify")
  | Some current =>
      ∃ candidate,
        handleChatModification JSON_parse http message st = Return [candidate]
        ∧ schedule candidate = current
        ∧ id candidate = "modified_1" ∧ score candidate = 70 ∧ conflicts candidate = []
  end.
Proof.
  unfold handleChatModification, generateModifiedSchedule.
  destruct (currentSchedule st) as [current|]; [|reflexivity].
  eexists. split; [reflexivity|]. repeat split.
Qed.

End Applying.

(** ** Reading candidates out of a reply *)

Section Parsing.
Import JS Replies Terms.

Lemma parseCandidate_outcome today stamp candidate :
  if nullish candidate
  then parseCandidate today stamp candidate = Throw TypeError
  else ∃ parsed,
         parseCandidate today stamp candidate = Return parsed
         ∧ Forall (fun key => truthy (get_opt parsed key) = true) defaulted.
Proof.
  destruct candidate as [| | | | |items|fields]; simpl; try reflexivity.
  all: eexists; (split; [reflexivity|]).
  all: unfold defaulted, or_else; repeat constructor; simpl;
    repeat match goal with
           | |- context [if ?b then _ else _] => destruct b eqn:?
           end; simpl; try reflexivity; try assumption.
Qed.

Lemma map_each_outcome today stamp items :
  if existsb nullish items
  then map_each (parseCandidate today stamp) items = Throw TypeError
  else ∃ parsed,
         map_each (parseCandidate today stamp) items = Return parsed
         ∧ length parsed = length items
         ∧ Forall (fun c => Forall (fun key => truthy (get_opt c key) = true) defaulted)
             parsed.
Proof.
  induction items as [|c items IH]; simpl.
  - exists []. repeat split. constructor.
  - pose proof (parseCandidate_outcome today stamp c) as Hc.
    destruct (nullish c); simpl.
    + now rewrite Hc.
    + destruct Hc as (p & -> & Hp). cbn [mbind result_bind].
      destruct (existsb nullish items).
      * now rewrite IH.
      * destruct IH as (ps & -> & Hlen & Hall). cbn [mbind result_bind].
        exists (p :: ps). split; [reflexivity|]. split; [simpl; lia|].
        constructor; assumption.
Qed.

(** X24. [parseScheduleCandidates] never throws and reads a reply all
    or nothing: when the reply has a list of candidates none of which
    is null or undefined, it answers one object per candidate, in which
    the user, the time zone, the tasks, the version, the explanation
    and the score are never missing; when one candidate of the list is
    null or undefined, or the reply has no list, it answers no
    candidate at all. *)
Theorem parsed_candidates_all_or_nothing (today stamp : string) (response : value) :
  let parsed := parseScheduleCandidates today stamp response in
  Forall (fun c => Forall (fun key => truthy (get_opt c key) = true) defaulted) parsed
  ∧ match get_opt response "candidates" with
    | VArray items =>
        if existsb nullish items then parsed = []
        else length parsed = length items
    | _ => parsed = []
    end.
Proof.
  intros parsed. subst parsed. unfold parseScheduleCandidates, get_opt.
  destruct (get response "candidates") as [found|e]; simpl;
    [|split; [constructor|reflexivity]].
  destruct found as [| | | | |items|fields]; simpl;
    try (split; [constructor|reflexivity]).
  pose proof (map_each_outcome today stamp items) as H.
  destruct (existsb nullish items).
  - rewrite H. simpl. split; [constructor|reflexivity].
  - destruct H as (ps & -> & Hlen & Hall). simpl. split; assumption.
Qed.
End Parsing.

(** ** The snooze button *)

Section Snoozing.
Import JS Notifier Terms.

(** X25. The Snooze 5min button of a start reminder that has been
    armed cancels the reminder's pending timeout and queues one new
    timeout, due five minutes after the button is pressed; the
    reminder is undelivered, scheduled for that instant and recorded
    under the new handle, and nobody is called. The reminder time and
    the new time are in the range of Date. *)
Theorem snooze_button_rearms
    (task taskName : string) (startTime : timetext) (started armed_at now : Z)
    (s : Service) :
  fresh_handles s →
  Date_of startTime = Some started →
  within_range (started - 300000) →
  within_range (now + 300000) →
  let k := "start_" +:+ task in
  let s1 := state_of (scheduleTaskStartNotification task taskName startTime armed_at s) in
  ∃ s' n,
    handleNotificationAction now k "snooze" s1 = Done s'
    ∧ pending s'
      = pending s
        ++ [{| handle := Pos.succ (next_handle s); callback := DeliverLater k;
               due := now + 300000 |}]
    ∧ timers s' !! k = Some (Pos.succ (next_handle s))
    ∧ notifications s' !! k = Some n
    ∧ delivered n = false
    ∧ scheduledTime n = ISO (now + 300000)
    ∧ trace s' = trace s.
Proof.
  intros Hf Hs Hr Hlater k s1. subst s1. unfold scheduleTaskStartNotification.
  rewrite (shifted_back _ _ Hs Hr).
  unfold handleNotificationAction. simpl. rewrite !lookup_insert_eq. simpl.
  unfold snoozeNotification. with_strategy opaque [TimeClip] simpl.
  rewrite !lookup_insert_eq. with_strategy opaque [TimeClip] simpl.
  replace (now + 5 * 60 * 1000) with (now + 300000) by lia.
  rewrite (TimeClip_within _ Hlater). simpl.
  eexists. eexists. split; [reflexivity|]. simpl.
  rewrite !lookup_insert_eq, List.filter_app. simpl. rewrite Pos.eqb_refl. simpl.
  rewrite app_nil_r, (filter_fresh (next_handle s))
    by (apply fresh_below; [exact Hf|lia]).
  repeat split.
Qed.

Lemma snooze_button_rearms_witness :
  ∃ s',
    handleNotificationAction (Samples.nine - 300000) "start_essay" "snooze" Samples.armed
    = Done s'
    ∧ pending s'
      = [{| handle := 2; callback := DeliverLater "start_essay"; due := Samples.nine |}]
    ∧ trace s' = [].
Proof.
  destruct (snooze_button_rearms "essay" "Essay" (ISO Samples.nine) Samples.nine
              (Samples.nine - 60 * 60000) (Samples.nine - 300000)
              (subscribe 2 (subscribe 1 initial)))
    as (s' & n & H1 & H2 & _ & _ & _ & _ & H7).
  - intros t [].
  - reflexivity.
  - unfold within_range. vm_compute. split; discriminate.
  - unfold within_range. vm_compute. split; discriminate.
  - exists s'. split; [exact H1|]. split; [exact H2|exact H7].
Defined.
End Snoozing.
